(** * Research_Ideation_Agent: a shallow embedding of the pipeline agents

    The Python sources under [agents/] are embedded as Rocq functions:
    - [agents/collector.py]  -> [Module Collector]
    - [agents/generator.py]  -> [Module Generator]
    - [agents/evaluator.py]  -> [Module Evaluator]
    - [agents/translator.py] -> [Module Translator]

    Python values are modelled as follows.  A [str] is a [string] (a sequence
    of characters), an [int] is a [Z], a [list] is a [list], a [dict] read by
    iteration is an association list in insertion order, a [dict] read by
    key is a record whose fields say whether the key is there.  Code that can
    raise returns an [outcome]; code that talks to the network, the model
    server, the vector store or the file system threads an explicit state
    through [io].  The first part of the file holds the definitions, the
    second part the lemmas and theorems. *)

From Stdlib Require Import List String Ascii ZArith Lia Bool Arith.
From Stdlib Require Import Permutation Sorted DecimalString.
Import ListNotations.

Local Open Scope string_scope.
Local Open Scope Z_scope.

(* ================================================================= *)
(** * Part I: definitions *)
(* ================================================================= *)

(** ** Python built-ins used by the agents *)

Module Py.

(** Exceptions.  The sources only tell [json.JSONDecodeError] apart from
    the rest ([except Exception]). *)
Inductive exn : Type :=
| JSONDecodeError (msg : string)
| Exception (msg : string).

Inductive outcome (A : Type) : Type :=
| Return (a : A)
| Raise (e : exn).
Arguments Return {A} a.
Arguments Raise {A} e.

Definition obind {A B} (m : outcome A) (k : A -> outcome B) : outcome B :=
  match m with
  | Return a => k a
  | Raise e => Raise e
  end.

(** A computation with effects on a state [S] that may raise. *)
Definition io (S A : Type) : Type := S -> S * outcome A.

Definition ret {S A} (a : A) : io S A := fun s => (s, Return a).

Definition raise {S A} (e : exn) : io S A := fun s => (s, Raise e).

Definition bind {S A B} (m : io S A) (k : A -> io S B) : io S B :=
  fun s =>
    match m s with
    | (s', Return a) => k a s'
    | (s', Raise e) => (s', Raise e)
    end.

Definition lift {S A} (m : outcome A) : io S A := fun s => (s, m).

(** [try: body except Exception as e: handler e] *)
Definition try_except {S A} (body : io S A) (handler : exn -> io S A)
  : io S A :=
  fun s =>
    match body s with
    | (s', Return a) => (s', Return a)
    | (s', Raise e) => handler e s'
    end.

(** A value read from a JSON object by key: the key may be absent, hold
    [null], or hold a value. *)
Inductive jfield (A : Type) : Type :=
| Absent
| Null
| Present (a : A).
Arguments Absent {A}.
Arguments Null {A}.
Arguments Present {A} a.

(** [d.get(key)]: [None] for an absent key and for [null]. *)
Definition get {A} (f : jfield A) : option A :=
  match f with
  | Present a => Some a
  | _ => None
  end.

(** [d.get(key, default)]: the default replaces an absent key only; a
    [null] comes back as [None]. *)
Definition get_default {A} (f : jfield A) (default : A) : option A :=
  match f with
  | Absent => Some default
  | Null => None
  | Present a => Some a
  end.

(** Truth value of an optional [str]: [None] and [""] are falsy. *)
Definition truthy_str (s : option string) : bool :=
  match s with
  | Some (String _ _) => true
  | _ => false
  end.

(** [sep.join(l)] *)
Fixpoint join (sep : string) (l : list string) : string :=
  match l with
  | [] => ""
  | s :: rest =>
      match rest with
      | [] => s
      | _ => s ++ sep ++ join sep rest
      end
  end.

(** [s.split(sep)] for a non-empty [sep]: the text is cut at each
    occurrence of [sep] found scanning from the left; [skip] counts the
    characters of a separator still to be passed over and [cur] holds the
    current piece, last character first. *)
Fixpoint split_go (sep : string) (skip : nat) (cur : list ascii)
  (s : string) : list string :=
  match s with
  | EmptyString => [string_of_list_ascii (rev cur)]
  | String c s' =>
      match skip with
      | S k => split_go sep k cur s'
      | O =>
          if prefix sep s
          then string_of_list_ascii (rev cur)
                 :: split_go sep (pred (String.length sep)) [] s'
          else split_go sep O (c :: cur) s'
      end
  end.

Definition split (sep s : string) : outcome (list string) :=
  match sep with
  | EmptyString => Raise (Exception "empty separator")
  | _ => Return (split_go sep O [] s)
  end.

(** [x in s] for strings. *)
Fixpoint contains (x s : string) : bool :=
  prefix x s ||
  match s with
  | EmptyString => false
  | String _ s' => contains x s'
  end.

(** [l.sort()] and [sorted(l)] are stable and compare with [<] only.  They
    are modelled by a stable insertion sort: an element is put before the
    first element of the sorted tail that is not smaller than it. *)
Section Sort.
Context {A : Type} (lt : A -> A -> bool).

Fixpoint insert (x : A) (l : list A) : list A :=
  match l with
  | [] => [x]
  | y :: l' => if lt y x then y :: insert x l' else x :: l
  end.

Fixpoint list_sort (l : list A) : list A :=
  match l with
  | [] => []
  | x :: l' => insert x (list_sort l')
  end.
End Sort.

(** [sorted(l, key=key, reverse=True)] with integer keys: the list is
    reversed, sorted by ascending key with the stable sort, and reversed
    again, which is how the interpreter keeps a descending sort stable. *)
Definition sorted_key_reverse {A} (key : A -> Z) (l : list A) : list A :=
  rev (list_sort (fun a b => key a <? key b) (rev l)).

(** Comparison of [(int, str)] tuples: the first components decide unless
    they are equal. *)
Definition tuple_lt (a b : Z * string) : bool :=
  if fst a =? fst b then String.ltb (snd a) (snd b) else fst a <? fst b.

(** [l[:n]] for [n >= 0]. *)
Definition slice_to {A} (n : nat) (l : list A) : list A := firstn n l.

(** [str(n)] for an [int]. *)
Definition str_of_int (n : Z) : string :=
  NilZero.string_of_int (Z.to_int n).

(** ** Characters

    A [str] is held as the [string] of its UTF-8 bytes.  What Python does
    by character ([len], a slice, [strip], the iteration over a [str]) is
    done on [chars], which starts a new character at every byte that is
    not a continuation byte (a byte from 128 to 191). *)
Definition is_continuation (b : ascii) : bool :=
  let n := nat_of_ascii b in ((128 <=? n) && (n <? 192))%nat.

Definition starts_with_continuation (s : string) : bool :=
  match s with
  | String b _ => is_continuation b
  | EmptyString => false
  end.

(** [list(s)]: the characters of [s], each with its bytes. *)
Fixpoint chars (s : string) : list string :=
  match s with
  | EmptyString => []
  | String b rest =>
      match chars rest with
      | c :: cs =>
          if starts_with_continuation c
          then String b c :: cs
          else String b "" :: c :: cs
      | [] => [String b ""]
      end
  end.

(** The text made of the characters [cs]. *)
Fixpoint unchars (cs : list string) : string :=
  match cs with
  | [] => ""
  | c :: rest => c ++ unchars rest
  end.

(** [len(s)] *)
Definition len (s : string) : nat := List.length (chars s).

(** [s[:n]] for [n >= 0]. *)
Definition str_slice_to (n : nat) (s : string) : string :=
  unchars (firstn n (chars s)).

(** The UTF-8 bytes of the character with a given code point. *)
Definition utf8 (code : N) : string :=
  let byte (n : N) := ascii_of_N n in
  let low (n : N) := byte (128 + n mod 64)%N in
  if (code <? 128)%N then String (byte code) ""
  else if (code <? 2048)%N
  then String (byte (192 + code / 64)%N) (String (low code) "")
  else if (code <? 65536)%N
  then String (byte (224 + code / 4096)%N)
         (String (low (code / 64)%N) (String (low code) ""))
  else String (byte (240 + code / 262144)%N)
         (String (low (code / 4096)%N)
            (String (low (code / 64)%N) (String (low code) ""))).

(** The code points of the characters for which [str.isspace] holds, which
    are those that [str.strip] removes. *)
Definition whitespace : list N :=
  [9; 10; 11; 12; 13; 28; 29; 30; 31; 32; 133; 160; 5760;
   8192; 8193; 8194; 8195; 8196; 8197; 8198; 8199; 8200; 8201; 8202;
   8232; 8233; 8239; 8287; 12288]%N.

End Py.

Import Py.

Declare Scope io_scope.
Delimit Scope io_scope with io.
Notation "x <- m ;; k" := (bind m (fun x => k))
(at level 61, m at next level, right associativity) : io_scope.
Notation "m ;;; k" := (bind m (fun _ => k))
(at level 61, right associativity) : io_scope.

(** ** agents/collector.py *)

Module Collector.

(** The inverted index of an abstract: word -> positions. *)
Definition InvertedIndex : Type := list (string * list Z).

Definition word_positions_of (inverted_index : InvertedIndex)
  : list (Z * string) :=
  flat_map (fun '(word, positions) => map (fun pos => (pos, word)) positions)
           inverted_index.

(** [PaperCollector._reconstruct_abstract]; the argument is what
    [result.get("abstract_inverted_index")] returned. *)
Definition _reconstruct_abstract (inverted_index : option InvertedIndex)
  : string :=
  match inverted_index with
  | None => ""
  | Some [] => ""
  | Some idx =>
      join " " (map snd (list_sort tuple_lt (word_positions_of idx)))
  end.

(** *** The API response *)

Record Institution : Type := { inst_display_name : jfield string }.

Record Author : Type := { author_display_name : jfield string }.

Record Authorship : Type := {
  author : jfield Author;
  institutions : jfield (list Institution)
}.

Record Result : Type := {
  title : jfield string;
  abstract_inverted_index : jfield InvertedIndex;
  authorships : jfield (list Authorship);
  id : jfield string;
  publication_year : jfield Z
}.

Record ResponseData : Type := { results : jfield (list Result) }.

(** *** The paper record *)

Record Paper : Type := {
  p_title : string;
  p_abstract : string;
  p_url : option string;
  p_publication_year : option Z;
  p_authors : list string;
  p_institutions : list string
}.

(** [getattr(config, 'AUTHORS_LIMIT', 3)] and
    [getattr(config, 'INSTITUTIONS_LIMIT', 3)]: [config.py] defines
    neither, so both limits take the default. *)
Definition AUTHORS_LIMIT : nat := 3.
Definition INSTITUTIONS_LIMIT : nat := 3.

(** [name not in institutions] *)
Definition not_in (name : string) (l : list string) : bool :=
  negb (existsb (String.eqb name) l).

(** [for inst in authorship.get("institutions", []): ...] *)
Fixpoint add_institutions (insts : list Institution)
  (institutions : list string) : list string :=
  match insts with
  | [] => institutions
  | inst :: rest =>
      let inst_name := get (inst_display_name inst) in
      add_institutions rest
        match inst_name with
        | Some name =>
            if truthy_str inst_name && not_in name institutions
            then (institutions ++ [name])%list
            else institutions
        | None => institutions
        end
  end.

(** One turn of [for authorship in authorships[:self.AUTHORS_LIMIT]].
    [authorship.get("author", {})] and [authorship.get("institutions", [])]
    give [None] for a [null], on which [.get] and iteration raise. *)
Definition scan_authorship (authorship : Authorship)
  (acc : list string * list string) : outcome (list string * list string) :=
  let '(authors, institutions) := acc in
  match get_default (author authorship) {| author_display_name := Absent |}
  with
  | None => Raise (Exception "'NoneType' object has no attribute 'get'")
  | Some a =>
      let author_name := get (author_display_name a) in
      let authors :=
        match author_name with
        | Some name =>
            if truthy_str author_name then (authors ++ [name])%list else authors
        | None => authors
        end in
      match get_default (Collector.institutions authorship) [] with
      | None => Raise (Exception "'NoneType' object is not iterable")
      | Some insts => Return (authors, add_institutions insts institutions)
      end
  end.

Fixpoint scan_authorships (l : list Authorship)
  (acc : list string * list string) : outcome (list string * list string) :=
  match l with
  | [] => Return acc
  | authorship :: rest =>
      obind (scan_authorship authorship acc) (scan_authorships rest)
  end.

(** The body of [for result in results]: [Some paper] when a paper is
    appended, [None] when the result is passed over. *)
Definition paper_of_result (authors_limit institutions_limit : nat)
  (result : Result) : outcome (option Paper) :=
  let title := get (title result) in
  let abstract_inverted := get (abstract_inverted_index result) in
  let abstract := _reconstruct_abstract abstract_inverted in
  match get_default (authorships result) [] with
  | None => Raise (Exception "'NoneType' object is not subscriptable")
  | Some authorships =>
      obind (scan_authorships (slice_to authors_limit authorships) ([], []))
        (fun '(authors, institutions) =>
           let institutions := slice_to institutions_limit institutions in
           match title with
           | Some t =>
               if truthy_str title && negb (abstract =? "")%string
               then Return (Some {| p_title := t;
                                    p_abstract := abstract;
                                    p_url := get (id result);
                                    p_publication_year :=
                                      get (publication_year result);
                                    p_authors := authors;
                                    p_institutions := institutions |})
               else Return None
           | None => Return None
           end)
  end.

Fixpoint collect_papers (authors_limit institutions_limit : nat)
  (results : list Result) (papers : list Paper) : outcome (list Paper) :=
  match results with
  | [] => Return papers
  | result :: rest =>
      obind (paper_of_result authors_limit institutions_limit result)
        (fun p =>
           collect_papers authors_limit institutions_limit rest
             match p with
             | Some paper => (papers ++ [paper])%list
             | None => papers
             end)
  end.

(** *** The CSV snapshot *)

Record CsvRow : Type := {
  row_title : string;
  row_abstract : string;
  row_url : option string;
  row_publication_year : option Z;
  row_authors : string;
  row_institutions : string
}.

(** The [row] handed to [writer.writerow] for a paper. *)
Definition csv_row (paper : Paper) : CsvRow :=
  {| row_title := p_title paper;
     row_abstract := p_abstract paper;
     row_url := p_url paper;
     row_publication_year := p_publication_year paper;
     row_authors := join "; " (p_authors paper);
     row_institutions := join "; " (p_institutions paper) |}.

(** *** The vector store documents *)

Record Metadata : Type := {
  md_title : string;
  md_url : option string;
  md_year : option Z;
  md_authors : string;
  md_institutions : string
}.

Record Document : Type := {
  page_content : string;
  metadata : Metadata
}.

Definition newline : string := String "010"%char "".

Definition truncate_abstract (raw_abstract : string) : string :=
  if (1000 <? len raw_abstract)%nat
  then str_slice_to 1000 raw_abstract ++ "...(truncated)"
  else raw_abstract.

Definition document_of_paper (paper : Paper) : Document :=
  let raw_abstract := truncate_abstract (p_abstract paper) in
  let content :=
    "Title: " ++ p_title paper ++ newline ++ "Abstract: " ++ raw_abstract in
  {| page_content := content;
     metadata := {| md_title := p_title paper;
                    md_url := p_url paper;
                    md_year := p_publication_year paper;
                    md_authors := join ", " (p_authors paper);
                    md_institutions := join ", " (p_institutions paper) |} |}.

(** What the run leaves behind besides the state of the outside world:
    the calls to the vector store, the pauses, and the two messages of the
    retry loop. *)
Inductive event : Type :=
| AddDocuments (i : nat) (batch : list Document)
| ErrorAddingBatch (i : nat) (attempt_number : nat)
| Sleep (seconds : Z)
| FailedBatchSkipping (i : nat).

Definition max_retries : nat := 3.

(** [range(0, total, step)] for [step > 0]: the multiples of [step] below
    [total]; there are [(total + step - 1) // step] of them. *)
Definition range_step (total step : nat) : list nat :=
  map (fun k => k * step)%nat (seq 0 ((total + step - 1) / step)).

Section Effects.
(** The outside world (network, file system, vector store) and the
    calls into it. *)
Variable World : Type.
Variable requests_get : string -> Z -> World -> World * outcome ResponseData.
Variable makedirs : World -> World * outcome unit.
Variable csv_write : string -> list CsvRow -> World -> World * outcome unit.
Variable chroma_open : World -> World * outcome unit.
Variable add_documents : list Document -> World -> World * outcome unit.

Definition St : Type := (World * list event)%type.

Definition call {A} (f : World -> World * outcome A) : io St A :=
  fun '(w, log) => let (w', r) := f w in ((w', log), r).

Definition emit (e : event) : io St unit :=
  fun '(w, log) => ((w, (log ++ [e])%list), Return tt).

Local Open Scope io_scope.

(** [PaperCollector.save_papers_to_csv]: [os.makedirs] is outside the
    [try], the writing is inside. *)
Definition save_papers_to_csv (papers : list Paper) (keyword : string)
  : io St unit :=
  match papers with
  | [] => ret tt
  | _ =>
      call makedirs ;;;
      try_except (call (csv_write keyword (map csv_row papers)))
                 (fun _ => ret tt)
  end.

(** [PaperCollector.fetch_papers] *)
Definition fetch_papers (keyword : string) (limit : Z)
  : io St (list Paper) :=
  try_except
    (data <- call (requests_get keyword limit) ;;
     match get_default (Collector.results data) [] with
     | None => raise (Exception "'NoneType' object is not iterable")
     | Some results =>
         papers <- lift (collect_papers AUTHORS_LIMIT INSTITUTIONS_LIMIT
                           results []) ;;
         save_papers_to_csv papers keyword ;;;
         ret papers
     end)
    (fun _ => ret []).

(** [for attempt in range(max_retries)] around one batch. *)
Fixpoint retry_loop (i : nat) (batch : list Document)
  (attempts : list nat) : io St unit :=
  match attempts with
  | [] => ret tt
  | attempt :: rest =>
      try_except
        (emit (AddDocuments i batch) ;;; call (add_documents batch))
        (fun _ =>
           emit (ErrorAddingBatch i (attempt + 1)) ;;;
           (if (attempt <? max_retries - 1)%nat
            then emit (Sleep 5)
            else emit (FailedBatchSkipping i)) ;;;
           retry_loop i batch rest)
  end.

Definition insert_batch (documents : list Document) (batch_size i : nat)
  : io St unit :=
  let batch := firstn batch_size (skipn i documents) in
  retry_loop i batch (seq 0 max_retries).

(** [for i in range(0, total_docs, batch_size)] *)
Fixpoint insert_batches (documents : list Document) (batch_size : nat)
  (starts : list nat) : io St unit :=
  match starts with
  | [] => ret tt
  | i :: rest =>
      insert_batch documents batch_size i ;;;
      insert_batches documents batch_size rest
  end.

(** [PaperCollector.create_vector_db]; [true] stands for the store
    handle that is returned, [false] for [None]. *)
Definition create_vector_db (papers : list Paper) (batch_size : nat)
  : io St bool :=
  match papers with
  | [] => ret false
  | _ =>
      let documents := map document_of_paper papers in
      call chroma_open ;;;
      let total_docs := List.length documents in
      match batch_size with
      | O => raise (Exception "range() arg 3 must not be zero")
      | _ =>
          insert_batches documents batch_size
                         (range_step total_docs batch_size) ;;;
          ret true
      end
  end.
End Effects.

End Collector.

(** ** agents/generator.py *)

Module Generator.

(** A value of a [Dict[str, Any]] built by this module. *)
Inductive pyval : Type :=
| PyInt (n : Z)
| PyStr (s : string).

(** One entry of [related_papers]: a dict, keys in insertion order. *)
Definition RelatedPaper : Type := list (string * pyval).

Record ResearchTopic : Type := {
  title : string;
  background : string;
  necessity : string;
  table_of_contents : list string;
  expected_effects : string;
  related_papers : list RelatedPaper
}.

Definition set_related_papers (topic : ResearchTopic)
  (papers : list RelatedPaper) : ResearchTopic :=
  {| title := title topic;
     background := background topic;
     necessity := necessity topic;
     table_of_contents := table_of_contents topic;
     expected_effects := expected_effects topic;
     related_papers := papers |}.

(** The metadata of a document read back from the vector store, which
    holds strings and numbers: a key is there with a value of its type, or
    it is not there ([None]). *)
Record Metadata : Type := {
  md_title : option string;
  md_authors : option string;
  md_year : option Z;
  md_url : option string
}.

Record Document : Type := {
  page_content : string;
  metadata : Metadata
}.

Definition newline : string := String "010"%char "".
Definition dquote : string := String "034"%char "".
Definition quoted (s : string) : string := dquote ++ s ++ dquote.

Definition EXAMPLE_JSON_STRUCTURE : string :=
  newline ++
  "{" ++ newline ++
  "  " ++ quoted "topics" ++ ": [" ++ newline ++
  "    {" ++ newline ++
  "      " ++ quoted "title" ++ ": "
    ++ quoted "Applying AI to Patent Claim Analysis" ++ "," ++ newline ++
  "      " ++ quoted "background" ++ ": "
    ++ quoted "Current patent analysis relies heavily on manual expert review..."
    ++ "," ++ newline ++
  "      " ++ quoted "necessity" ++ ": "
    ++ quoted "Manual review is time-consuming and prone to human error..."
    ++ "," ++ newline ++
  "      " ++ quoted "table_of_contents" ++ ": [" ++ newline ++
  "        " ++ quoted "1. Introduction to Patent Claims" ++ "," ++ newline ++
  "        " ++ quoted "2. NLP Techniques for Legal Text" ++ "," ++ newline ++
  "        " ++ quoted "3. System Architecture" ++ "," ++ newline ++
  "        " ++ quoted "4. Evaluation Metrics" ++ newline ++
  "      ]," ++ newline ++
  "      " ++ quoted "expected_effects" ++ ": "
    ++ quoted "Reduce analysis time by 50% and increase accuracy..."
    ++ newline ++
  "    }" ++ newline ++
  "  ]" ++ newline ++
  "}" ++ newline.

(** The variables handed to [chain.invoke]; the prompt template has one
    placeholder for each. *)
Record PromptVariables : Type := {
  num_topics : Z;
  keyword : string;
  context : string;
  example_json : string;
  latest_papers : string
}.

(** [lambda x: x.get('year', 0)] *)
Definition year_key (x : Metadata) : Z :=
  match md_year x with
  | Some year => year
  | None => 0
  end.

(** [f"- [{doc.get('year', 'N/A')}] {doc.get('title', 'Unknown Title')}"] *)
Definition latest_title (doc : Metadata) : string :=
  "- [" ++ match md_year doc with
           | Some year => str_of_int year
           | None => "N/A"
           end
        ++ "] " ++ match md_title doc with
                   | Some t => t
                   | None => "Unknown Title"
                   end.

(** The digest of the latest papers built from the retrieved documents. *)
Definition latest_papers_of (docs : list Document) : string :=
  let all_docs_metadata := map metadata docs in
  let sorted_docs := sorted_key_reverse year_key all_docs_metadata in
  let latest_titles := map latest_title (slice_to 5 sorted_docs) in
  join newline latest_titles.

(** *** Cleaning of the raw response *)

(** [re.sub(r'<think>.*?</think>', '', s, flags=re.DOTALL)]: scanning from
    the left, each [<think>] that has a [</think>] after it is removed
    together with everything up to the first such [</think>]; [skip]
    counts the characters of a match still to be dropped. *)
Fixpoint re_sub_think_go (skip : nat) (s : string) : string :=
  match s with
  | EmptyString => EmptyString
  | String c s' =>
      match skip with
      | S k => re_sub_think_go k s'
      | O =>
          if prefix "<think>" s
          then match index 7 "</think>" s with
               | Some j => re_sub_think_go (j + 8 - 1) s'
               | None => String c (re_sub_think_go O s')
               end
          else String c (re_sub_think_go O s')
      end
  end.

Definition re_sub_think (s : string) : string := re_sub_think_go O s.

(** [s.replace(old, new)] for a non-empty [old]. *)
Fixpoint replace_go (old new : string) (skip : nat) (s : string) : string :=
  match s with
  | EmptyString => EmptyString
  | String c s' =>
      match skip with
      | S k => replace_go old new k s'
      | O =>
          if prefix old s
          then new ++ replace_go old new (pred (String.length old)) s'
          else String c (replace_go old new O s')
      end
  end.

Definition replace (old new s : string) : string := replace_go old new O s.

(** [c.isspace()] for a character [c]. *)
Definition isspace (c : string) : bool :=
  existsb (String.eqb c) (map utf8 whitespace).

(** The characters left when the whitespace at the start is dropped. *)
Fixpoint lstrip (cs : list string) : list string :=
  match cs with
  | [] => []
  | c :: rest => if isspace c then lstrip rest else cs
  end.

(** [s.strip()]: the whitespace characters at both ends are dropped. *)
Definition strip (s : string) : string :=
  unchars (rev (lstrip (rev (lstrip (chars s))))).

Definition clean (raw_content : string) : string :=
  let raw_content :=
    if contains "<think>" raw_content
    then strip (re_sub_think raw_content)
    else raw_content in
  strip (replace "```" "" (replace "```json" "" raw_content)).

(** One entry of [topic.related_papers], from a similar document. *)
Definition related_paper_of (doc : Document) : RelatedPaper :=
  let md := metadata doc in
  [ ("title", PyStr match md_title md with
                    | Some t => t
                    | None => "Unknown Title"
                    end);
    ("authors", PyStr match md_authors md with
                      | Some a => a
                      | None => "Unknown Authors"
                      end);
    ("year", match md_year md with
             | Some y => PyInt y
             | None => PyStr "N/A"
             end);
    ("url", PyStr match md_url md with
                  | Some u => u
                  | None => ""
                  end) ].

Section Effects.
(** The outside world (vector store, model server) and the calls into
    it; [Json] is what [json.loads] returns and [TopicList_validate] is
    the validation of the parsed data as a [TopicList]. *)
Variable World : Type.
Variable Json : Type.
Variable retriever_invoke : string -> World -> World * outcome (list Document).
Variable chain_invoke : PromptVariables -> World -> World * outcome string.
Variable json_loads : string -> outcome Json.
Variable TopicList_validate : Json -> outcome (list ResearchTopic).
Variable similarity_search :
  string -> nat -> World -> World * outcome (list Document).

Local Open Scope io_scope.

(** Step 1 of [generate_topics]: the context and the digest of the
    latest papers, or the two fixed texts when anything fails. *)
Definition retrieve_context (keyword : string)
  : io World (string * string) :=
  try_except
    (docs <- retriever_invoke keyword ;;
     let context := join (newline ++ newline) (map page_content docs) in
     ret (context, latest_papers_of docs))
    (fun _ => ret ("No specific context provided.",
                   "No latest papers found.")).

(** The body of [for topic in result.topics]. *)
Definition map_related_papers (topic : ResearchTopic)
  : io World ResearchTopic :=
  try_except
    (similar_docs <- similarity_search (title topic) 1%nat ;;
     ret (set_related_papers topic (map related_paper_of similar_docs)))
    (fun _ => ret (set_related_papers topic [])).

Fixpoint map_all_related_papers (topics : list ResearchTopic)
  : io World (list ResearchTopic) :=
  match topics with
  | [] => ret []
  | topic :: rest =>
      topic' <- map_related_papers topic ;;
      rest' <- map_all_related_papers rest ;;
      ret (topic' :: rest')
  end.

(** The variables of the prompt for given retrieval results. *)
Definition prompt_variables (keyword : string) (num_topics : Z)
  (context latest_papers : string) : PromptVariables :=
  {| num_topics := num_topics;
     keyword := keyword;
     context := context;
     example_json := EXAMPLE_JSON_STRUCTURE;
     latest_papers := latest_papers |}.

(** Steps 3 to 6 of [generate_topics]: the model is asked with the
    variables of the prompt, its answer is cleaned and parsed, and the
    related papers are attached. *)
Definition ask_and_parse (variables : PromptVariables)
  : io World (list ResearchTopic) :=
  try_except
    (raw_content <- chain_invoke variables ;;
     let raw_content := clean raw_content in
     match obind (json_loads raw_content) TopicList_validate with
     | Raise (JSONDecodeError _) => ret []
     | Raise (Exception _) => ret []
     | Return topics => map_all_related_papers topics
     end)
    (fun _ => ret []).

(** [TopicGenerator.generate_topics] *)
Definition generate_topics (keyword : string) (num_topics : Z)
  : io World (list ResearchTopic) :=
  cl <- retrieve_context keyword ;;
  let '(context, latest_papers) := cl in
  ask_and_parse (prompt_variables keyword num_topics
                                  context latest_papers).
End Effects.

End Generator.

(** ** agents/evaluator.py *)

Module Evaluator.
Import Generator.

Record EvaluationResult : Type := {
  originality_score : Z;
  feasibility_score : Z;
  impact_score : Z;
  total_score : Z;
  reasoning : string
}.

Record EvaluatedTopic : Type := {
  topic : ResearchTopic;
  evaluation : EvaluationResult
}.

(** [evaluation.total_score = v] *)
Definition set_total_score (evaluation : EvaluationResult) (v : Z)
  : EvaluationResult :=
  {| originality_score := originality_score evaluation;
     feasibility_score := feasibility_score evaluation;
     impact_score := impact_score evaluation;
     total_score := v;
     reasoning := reasoning evaluation |}.

(** The variables handed to [chain.invoke]. *)
Record PromptVariables : Type := {
  pv_title : string;
  pv_background : string;
  pv_necessity : string;
  pv_expected_effects : string
}.

Definition prompt_variables (topic : ResearchTopic) : PromptVariables :=
  {| pv_title := title topic;
     pv_background := background topic;
     pv_necessity := necessity topic;
     pv_expected_effects := expected_effects topic |}.

Definition default_eval : EvaluationResult :=
  {| originality_score := 1;
     feasibility_score := 1;
     impact_score := 1;
     total_score := 3;
     reasoning := "Evaluation failed." |}.

(** The two lines after [chain.invoke]. *)
Definition fix_total (evaluation : EvaluationResult) : EvaluationResult :=
  if total_score evaluation =? 0
  then set_total_score evaluation
         (originality_score evaluation + feasibility_score evaluation
          + impact_score evaluation)
  else evaluation.

Section Effects.
(** The model server; [chain_invoke] is [prompt | llm | parser], so it
    raises when the answer does not parse as an [EvaluationResult]. *)
Variable World : Type.
Variable chain_invoke :
  PromptVariables -> World -> World * outcome EvaluationResult.

Local Open Scope io_scope.

(** The body of [for topic in topics]: the entry that is appended. *)
Definition evaluate_topic (topic : ResearchTopic)
  : io World EvaluatedTopic :=
  try_except
    (evaluation <- chain_invoke (prompt_variables topic) ;;
     ret {| topic := topic; evaluation := fix_total evaluation |})
    (fun _ => ret {| topic := topic; evaluation := default_eval |}).

Fixpoint evaluate_each (topics : list ResearchTopic)
  : io World (list EvaluatedTopic) :=
  match topics with
  | [] => ret []
  | topic :: rest =>
      et <- evaluate_topic topic ;;
      ets <- evaluate_each rest ;;
      ret (et :: ets)
  end.

(** [TopicEvaluator.evaluate_topics] *)
Definition evaluate_topics (topics : list ResearchTopic)
  : io World (list EvaluatedTopic) :=
  evaluated_topics <- evaluate_each topics ;;
  ret (sorted_key_reverse (fun x => total_score (evaluation x))
                          evaluated_topics).
End Effects.

End Evaluator.

(** ** agents/translator.py *)

Module Translator.
Import Generator Evaluator.

Record TranslatedContent : Type := {
  tr_title : string;
  tr_background : string;
  tr_necessity : string;
  tr_table_of_contents : list string;
  tr_expected_effects : string;
  tr_reasoning : string
}.

(** The variables handed to [chain.invoke]. *)
Record PromptVariables : Type := {
  pv_target_language : string;
  pv_title : string;
  pv_background : string;
  pv_necessity : string;
  pv_toc : string;
  pv_expected_effects : string;
  pv_reasoning : string
}.

Section Effects.
(** The model server, and [str] on a list of strings. *)
Variable World : Type.
Variable chain_invoke :
  PromptVariables -> World -> World * outcome TranslatedContent.
Variable str_of_list : list string -> string.

Local Open Scope io_scope.

Definition prompt_variables (target_language : string)
  (item : EvaluatedTopic) : PromptVariables :=
  let topic := topic item in
  let eval_result := evaluation item in
  {| pv_target_language := target_language;
     pv_title := title topic;
     pv_background := background topic;
     pv_necessity := necessity topic;
     pv_toc := str_of_list (table_of_contents topic);
     pv_expected_effects := expected_effects topic;
     pv_reasoning := reasoning eval_result |}.

(** The entry built from a translation. *)
Definition translated_entry (item : EvaluatedTopic)
  (translation : TranslatedContent) : EvaluatedTopic :=
  let topic := topic item in
  let eval_result := evaluation item in
  let new_topic :=
    {| title := tr_title translation;
       background := tr_background translation;
       necessity := tr_necessity translation;
       table_of_contents := tr_table_of_contents translation;
       expected_effects := tr_expected_effects translation;
       related_papers := related_papers topic |} in
  let new_eval :=
    {| originality_score := originality_score eval_result;
       feasibility_score := feasibility_score eval_result;
       impact_score := impact_score eval_result;
       total_score := total_score eval_result;
       reasoning := tr_reasoning translation |} in
  {| topic := new_topic; evaluation := new_eval |}.

(** The body of [for item in evaluated_topics]: the entry appended. *)
Definition translate_topic (target_language : string)
  (item : EvaluatedTopic) : io World EvaluatedTopic :=
  try_except
    (translation <- chain_invoke (prompt_variables target_language item) ;;
     ret (translated_entry item translation))
    (fun _ => ret item).

(** [TopicTranslator.translate_topics] *)
Fixpoint translate_topics (evaluated_topics : list EvaluatedTopic)
  (target_language : string) : io World (list EvaluatedTopic) :=
  match evaluated_topics with
  | [] => ret []
  | item :: rest =>
      item' <- translate_topic target_language item ;;
      rest' <- translate_topics rest target_language ;;
      ret (item' :: rest')
  end.
End Effects.

End Translator.

(** ** utils/report_generator.py *)

Module Report.
Import Generator Evaluator.

(** The text before the cards. *)
Definition html_header : string :=
  join newline
    ["";
     "    <!DOCTYPE html>";
     ("    <html lang=" ++ dquote ++ "en" ++ dquote ++ ">");
     "    <head>";
     ("        <meta charset=" ++ dquote ++ "UTF-8" ++ dquote ++ ">");
     ("        <meta name=" ++ dquote ++ "viewport" ++ dquote ++ " content=" ++ dquote ++ "width=device-width, initial-scale=1.0" ++ dquote ++ ">");
     "        <title>Research Topic Brainstorming Report</title>";
     "        <style>";
     "            body { font-family: 'Segoe UI', Tahoma, Geneva, Verdana, sans-serif; line-height: 1.6; color: #333; max-width: 1200px; margin: 0 auto; padding: 20px; background-color: #f4f4f9; }";
     "            h1 { text-align: center; color: #2c3e50; margin-bottom: 40px; }";
     "            .topic-card { background: #fff; border-radius: 8px; box-shadow: 0 2px 5px rgba(0,0,0,0.1); margin-bottom: 30px; padding: 25px; border-left: 5px solid #3498db; }";
     "            .topic-header { display: flex; justify-content: space-between; align-items: center; border-bottom: 1px solid #eee; padding-bottom: 15px; margin-bottom: 15px; }";
     "            .topic-title { font-size: 1.5em; color: #2c3e50; margin: 0; }";
     "            .topic-score { background: #3498db; color: #fff; padding: 5px 15px; border-radius: 20px; font-weight: bold; }";
     "            .section-title { font-weight: bold; color: #7f8c8d; margin-top: 15px; text-transform: uppercase; font-size: 0.9em; }";
     "            .content { margin-top: 5px; }";
     "            .toc-list { padding-left: 20px; }";
     "            .evaluation-box { background-color: #f8f9fa; border: 1px solid #e9ecef; border-radius: 5px; padding: 15px; margin-top: 20px; }";
     "            .score-grid { display: grid; grid-template-columns: repeat(3, 1fr); gap: 10px; margin-bottom: 10px; }";
     "            .score-item { text-align: center; background: #fff; padding: 10px; border-radius: 4px; border: 1px solid #dee2e6; }";
     "            .score-value { font-size: 1.2em; font-weight: bold; color: #2c3e50; }";
     "            .score-label { font-size: 0.8em; color: #6c757d; }";
     "            .paper-item { margin-bottom: 15px; padding: 10px; background-color: #f8f9fa; border-radius: 5px; border-left: 3px solid #3498db; }";
     "            .paper-title { font-weight: bold; color: #2c3e50; margin-bottom: 5px; }";
     "            .paper-title a { color: #3498db; text-decoration: none; }";
     "            .paper-title a:hover { text-decoration: underline; }";
     "            .paper-meta { font-size: 0.9em; color: #6c757d; margin-top: 3px; }";
     "            .paper-meta-label { font-weight: bold; color: #7f8c8d; }";
     "        </style>";
     "    </head>";
     "    <body>";
     "        <h1>Research Topic Brainstorming Report</h1>";
     "    "].

(** The pieces of the text of a card, between the values put in. *)
Definition card_0 : string :=
  join newline
    ["";
     ("        <div class=" ++ dquote ++ "topic-card" ++ dquote ++ ">");
     ("            <div class=" ++ dquote ++ "topic-header" ++ dquote ++ ">");
     ("                <h2 class=" ++ dquote ++ "topic-title" ++ dquote ++ ">#")].

Definition card_1 : string :=
  " ".

Definition card_2 : string :=
  join newline
    ["</h2>";
     ("                <div class=" ++ dquote ++ "topic-score" ++ dquote ++ ">Score: ")].

Definition card_3 : string :=
  join newline
    ["/15</div>";
     "            </div>";
     "            ";
     ("            <div class=" ++ dquote ++ "section-title" ++ dquote ++ ">Background</div>");
     ("            <div class=" ++ dquote ++ "content" ++ dquote ++ ">")].

Definition card_4 : string :=
  join newline
    ["</div>";
     "            ";
     ("            <div class=" ++ dquote ++ "section-title" ++ dquote ++ ">Necessity</div>");
     ("            <div class=" ++ dquote ++ "content" ++ dquote ++ ">")].

Definition card_5 : string :=
  join newline
    ["</div>";
     "            ";
     ("            <div class=" ++ dquote ++ "section-title" ++ dquote ++ ">Table of Contents</div>");
     ("            <ul class=" ++ dquote ++ "toc-list" ++ dquote ++ ">");
     "                "].

Definition card_6 : string :=
  join newline
    ["";
     "            </ul>";
     "            ";
     ("            <div class=" ++ dquote ++ "section-title" ++ dquote ++ ">Expected Effects</div>");
     ("            <div class=" ++ dquote ++ "content" ++ dquote ++ ">")].

Definition card_7 : string :=
  join newline
    ["</div>";
     "            ";
     "            ";
     ("            <div class=" ++ dquote ++ "section-title" ++ dquote ++ ">Related Papers</div>");
     "            <div>";
     "                "].

Definition card_8 : string :=
  join newline
    ["";
     "            </div>";
     "            ";
     ("            <div class=" ++ dquote ++ "evaluation-box" ++ dquote ++ ">");
     ("                <div class=" ++ dquote ++ "section-title" ++ dquote ++ " style=" ++ dquote ++ "margin-top: 0;" ++ dquote ++ ">Evaluation</div>");
     ("                <div class=" ++ dquote ++ "score-grid" ++ dquote ++ ">");
     ("                    <div class=" ++ dquote ++ "score-item" ++ dquote ++ ">");
     ("                        <div class=" ++ dquote ++ "score-value" ++ dquote ++ ">")].

Definition card_9 : string :=
  join newline
    ["</div>";
     ("                        <div class=" ++ dquote ++ "score-label" ++ dquote ++ ">Originality</div>");
     "                    </div>";
     ("                    <div class=" ++ dquote ++ "score-item" ++ dquote ++ ">");
     ("                        <div class=" ++ dquote ++ "score-value" ++ dquote ++ ">")].

Definition card_10 : string :=
  join newline
    ["</div>";
     ("                        <div class=" ++ dquote ++ "score-label" ++ dquote ++ ">Feasibility</div>");
     "                    </div>";
     ("                    <div class=" ++ dquote ++ "score-item" ++ dquote ++ ">");
     ("                        <div class=" ++ dquote ++ "score-value" ++ dquote ++ ">")].

Definition card_11 : string :=
  join newline
    ["</div>";
     ("                        <div class=" ++ dquote ++ "score-label" ++ dquote ++ ">Impact</div>");
     "                    </div>";
     "                </div>";
     "                <p><strong>Reasoning:</strong> "].

Definition card_12 : string :=
  join newline
    ["</p>";
     "            </div>";
     "        </div>";
     "        "].

(** The pieces of the text of a related paper. *)
Definition paper_0 : string :=
  join newline
    ["";
     ("                <div class=" ++ dquote ++ "paper-item" ++ dquote ++ ">");
     ("                    <div class=" ++ dquote ++ "paper-title" ++ dquote ++ ">");
     "                        "].

Definition paper_1 : string :=
  join newline
    ["";
     "                    </div>";
     "                    "].

Definition paper_2 : string :=
  join newline
    ["";
     "                    "].

Definition paper_3 : string :=
  join newline
    ["";
     "                    "].

Definition paper_4 : string :=
  join newline
    ["";
     "                </div>";
     "                "].

(** The opening of a line of a related paper, before its label. *)
Definition meta_open : string :=
  ("<div class=" ++ dquote ++ "paper-meta" ++ dquote ++ "><span class=" ++ dquote ++ "paper-meta-label" ++ dquote ++ ">").

Definition meta_label_close : string :=
  "</span> ".

(** The text after the cards. *)
Definition html_footer : string :=
  join newline
    ["";
     "    </body>";
     "    </html>";
     "    "].

(** [paper.get(key)] on a related paper. *)
Fixpoint dict_get (key : string) (paper : RelatedPaper) : option pyval :=
  match paper with
  | [] => None
  | (k, v) :: rest => if (k =? key)%string then Some v else dict_get key rest
  end.

(** [paper[key]] *)
Definition getitem (key : string) (paper : RelatedPaper) : outcome pyval :=
  match dict_get key paper with
  | Some v => Return v
  | None => Raise (Exception "KeyError")
  end.

(** The truth value of [paper.get(key)]. *)
Definition truthy (v : option pyval) : bool :=
  match v with
  | Some (PyInt n) => negb (n =? 0)
  | Some (PyStr s) => negb (s =? "")%string
  | None => false
  end.

(** [f"{v}"] *)
Definition format_value (v : pyval) : string :=
  match v with
  | PyInt n => str_of_int n
  | PyStr s => s
  end.

(** [s + v] for a [str] [s] *)
Definition str_add (s : string) (v : pyval) : outcome string :=
  match v with
  | PyStr t => Return (s ++ t)
  | PyInt _ => Raise (Exception "can only concatenate str to str")
  end.

(** [", ".join(v[:3]) + (" et al." if len(v) > 3 else "")]: on a [str]
    the slice is a text and [join] runs over its characters. *)
Definition first_three (v : pyval) : outcome string :=
  match v with
  | PyStr s =>
      Return (join ", " (chars (str_slice_to 3 s))
              ++ (if (3 <? len s)%nat then " et al." else ""))
  | PyInt _ => Raise (Exception "'int' object is not subscriptable")
  end.

(** The title of a related paper, with a link when there is a URL. *)
Definition paper_title_cell (paper : RelatedPaper) : outcome string :=
  if truthy (dict_get "url" paper)
  then obind (getitem "url" paper) (fun url =>
       obind (str_add "<a href='" url) (fun s1 =>
       obind (getitem "title" paper) (fun t =>
       obind (str_add (s1 ++ "' target='_blank'>") t) (fun s2 =>
       Return (s2 ++ "</a>")))))
  else obind (getitem "title" paper) (fun t => Return (format_value t)).

(** The line of the authors, or of the institutions. *)
Definition paper_names_cell (label key : string) (paper : RelatedPaper)
  : outcome string :=
  if truthy (dict_get key paper)
  then obind (getitem key paper) (fun v =>
       obind (first_three v) (fun names =>
       Return (meta_open ++ label ++ meta_label_close ++ names ++ "</div>")))
  else Return "".

Definition paper_year_cell (paper : RelatedPaper) : outcome string :=
  if truthy (dict_get "year" paper)
  then obind (getitem "year" paper) (fun v =>
       Return (meta_open ++ "Year:" ++ meta_label_close ++ format_value v
               ++ "</div>"))
  else Return "".

(** The text of one related paper. *)
Definition paper_block (paper : RelatedPaper) : outcome string :=
  obind (paper_title_cell paper) (fun a =>
  obind (paper_names_cell "Authors:" "authors" paper) (fun b =>
  obind (paper_year_cell paper) (fun c =>
  obind (paper_names_cell "Institutions:" "institutions" paper) (fun d =>
  Return (paper_0 ++ a ++ paper_1 ++ b ++ paper_2 ++ c ++ paper_3 ++ d
          ++ paper_4))))).

(** [''.join([... for paper in topic.related_papers])] *)
Fixpoint paper_blocks (papers : list RelatedPaper) : outcome string :=
  match papers with
  | [] => Return ""
  | paper :: rest =>
      obind (paper_block paper) (fun b =>
      obind (paper_blocks rest) (fun bs => Return (b ++ bs)))
  end.

(** The text added for the entry number [i], counted from 0. *)
Definition card (i : nat) (item : EvaluatedTopic) : outcome string :=
  let topic := topic item in
  let eval_result := evaluation item in
  obind (paper_blocks (related_papers topic)) (fun papers =>
  Return (card_0 ++ str_of_int (Z.of_nat i + 1)
          ++ card_1 ++ title topic
          ++ card_2 ++ str_of_int (total_score eval_result)
          ++ card_3 ++ background topic
          ++ card_4 ++ necessity topic
          ++ card_5 ++ join "" (map (fun step => "<li>" ++ step ++ "</li>")
                                    (table_of_contents topic))
          ++ card_6 ++ expected_effects topic
          ++ card_7 ++ papers
          ++ card_8 ++ str_of_int (originality_score eval_result)
          ++ card_9 ++ str_of_int (feasibility_score eval_result)
          ++ card_10 ++ str_of_int (impact_score eval_result)
          ++ card_11 ++ reasoning eval_result
          ++ card_12)).

(** [for i, item in enumerate(evaluated_topics): html_content += ...] *)
Fixpoint cards (i : nat) (items : list EvaluatedTopic) (html_content : string)
  : outcome string :=
  match items with
  | [] => Return html_content
  | item :: rest =>
      obind (card i item) (fun c => cards (S i) rest (html_content ++ c))
  end.

(** The text of the report. *)
Definition html_report (evaluated_topics : list EvaluatedTopic)
  : outcome string :=
  obind (cards 0 evaluated_topics html_header) (fun html_content =>
  Return (html_content ++ html_footer)).

Section Effects.
(** The file system: [write_file filename text] opens the file and writes
    the text. *)
Variable World : Type.
Variable write_file : string -> string -> World -> World * outcome unit.

Local Open Scope io_scope.

(** [generate_html_report] *)
Definition generate_html_report (evaluated_topics : list EvaluatedTopic)
  (filename : string) : io World unit :=
  html_content <- lift (html_report evaluated_topics) ;;
  write_file filename html_content.
End Effects.

End Report.

(** ** config.py and main.py *)

Module Config.
Definition MODEL_EMBEDDING : string := "nomic-embed-text:latest".
Definition MODEL_GENERATOR : string := "deepseek-v3.1:671b-cloud".
Definition MODEL_EVALUATOR : string := "gpt-oss:20b".
Definition VECTOR_DB_BATCH_SIZE : nat := 1.
Definition OUTPUT_REPORT_DIR : string := "./results".
End Config.

Module Driver.
Import Generator Evaluator.

(** How [main] ends: [sys.exit(code)] or the end of the function. *)
Inductive status : Type :=
| Exit (code : Z)
| Completed.

(** [try: body finally: cleanup] *)
Definition try_finally {S A} (body : io S A) (cleanup : io S unit) : io S A :=
  fun s =>
    match body s with
    | (s1, r) =>
        match cleanup s1 with
        | (s2, Return _) => (s2, r)
        | (s2, Raise e) => (s2, Raise e)
        end
    end.

(** [os.path.join(config.OUTPUT_REPORT_DIR, f"report_{...}{suffix}.html")] *)
Definition report_filename (keyword suffix : string) : string :=
  Config.OUTPUT_REPORT_DIR ++ "/" ++ "report_" ++ replace " " "_" keyword
  ++ suffix ++ ".html".

Section Effects.
(** The outside world of a run and the calls into it. *)
Variable World : Type.
Variable requests_get :
  string -> Z -> World -> World * outcome Collector.ResponseData.
Variable makedirs_csv : World -> World * outcome unit.
Variable csv_write :
  string -> list Collector.CsvRow -> World -> World * outcome unit.
Variable chroma_open : World -> World * outcome unit.
Variable add_documents :
  list Collector.Document -> World -> World * outcome unit.
Variable Json : Type.
Variable retriever_invoke :
  string -> World -> World * outcome (list Document).
Variable generator_chain :
  Generator.PromptVariables -> World -> World * outcome string.
Variable json_loads : string -> outcome Json.
Variable TopicList_validate : Json -> outcome (list ResearchTopic).
Variable similarity_search :
  string -> nat -> World -> World * outcome (list Document).
Variable evaluator_chain :
  Evaluator.PromptVariables -> World -> World * outcome EvaluationResult.
Variable translator_chain :
  Translator.PromptVariables -> World
  -> World * outcome Translator.TranslatedContent.
Variable str_of_list : list string -> string.
Variable requests_post : string -> World -> World * outcome unit.
Variable makedirs_report : World -> World * outcome unit.
Variable write_file : string -> string -> World -> World * outcome unit.

Local Open Scope io_scope.

Definition St : Type := Collector.St World.

Definition call {A} (f : World -> World * outcome A) : io St A :=
  Collector.call World f.

(** [unload_model] *)
Definition unload_model (model_name : string) : io St unit :=
  if (model_name =? "")%string
  then ret tt
  else try_except (call (requests_post model_name)) (fun _ => ret tt).

(** Step 5 of [main] with its [finally] part. *)
Definition translate_and_cleanup (keyword : string)
  (evaluated_topics : list EvaluatedTopic) : io St unit :=
  try_finally
    (try_except
       (translated_topics <-
          call (Translator.translate_topics World translator_chain
                  str_of_list evaluated_topics "Korean") ;;
        call (Report.generate_html_report World write_file translated_topics
                (report_filename keyword "_ko")))
       (fun _ => ret tt))
    (unload_model Config.MODEL_GENERATOR ;;;
     unload_model Config.MODEL_EVALUATOR ;;;
     let model_translator := Config.MODEL_EVALUATOR in
     if negb (model_translator =? Config.MODEL_GENERATOR)%string
        && negb (model_translator =? Config.MODEL_EVALUATOR)%string
     then unload_model model_translator
     else ret tt).

(** Steps 3 to 5 of [main]: what follows a non-empty list of topics. *)
Definition evaluate_and_report (keyword : string)
  (topics : list ResearchTopic) : io St status :=
  (if negb (Config.MODEL_GENERATOR =? Config.MODEL_EVALUATOR)%string
   then unload_model Config.MODEL_GENERATOR
   else ret tt) ;;;
  evaluated_topics <-
    call (Evaluator.evaluate_topics World evaluator_chain topics) ;;
  call makedirs_report ;;;
  call (Report.generate_html_report World write_file evaluated_topics
          (report_filename keyword "")) ;;;
  translate_and_cleanup keyword evaluated_topics ;;;
  ret Completed.

(** [main], for the arguments read from the command line. *)
Definition main (keyword : string) (limit num_topics : Z) : io St status :=
  papers <- Collector.fetch_papers World requests_get makedirs_csv csv_write
              keyword limit ;;
  match papers with
  | [] => ret (Exit 1)
  | _ =>
      vector_db <- Collector.create_vector_db World chroma_open add_documents
                     papers Config.VECTOR_DB_BATCH_SIZE ;;
      if negb vector_db
      then ret (Exit 1)
      else
        unload_model Config.MODEL_EMBEDDING ;;;
        topics <- call (Generator.generate_topics World Json retriever_invoke
                          generator_chain json_loads TopicList_validate
                          similarity_search keyword num_topics) ;;
        match topics with
        | [] => ret (Exit 1)
        | _ => evaluate_and_report keyword topics
        end
  end.
End Effects.

End Driver.

(** ** Vocabulary of the statements *)

Module Spec.
Import Collector.


(** The display names of a list of institutions that are kept: those
    that are there and not empty. *)
Definition institution_names (insts : list Institution) : list string :=
  flat_map (fun inst =>
              match get (inst_display_name inst) with
              | Some name => if truthy_str (Some name) then [name] else []
              | None => []
              end) insts.

(** The institution names of one authorship. *)
Definition authorship_institution_names (a : Authorship) : list string :=
  match institutions a with
  | Present insts => institution_names insts
  | _ => []
  end.

(** Removal of duplicates that keeps first occurrences: a name is added
    to the names seen so far unless it is among them. *)
Definition dedup_step (seen : list string) (name : string) : list string :=
  if not_in name seen then (seen ++ [name])%list else seen.

Definition dedup_onto (seen names : list string) : list string :=
  fold_left dedup_step names seen.

Definition dedup (names : list string) : list string := dedup_onto [] names.

(** The abstract inverted index of a result is absent, [None] or empty. *)
Definition no_abstract_index (result : Result) : Prop :=
  abstract_inverted_index result = Absent \/
  abstract_inverted_index result = Null \/
  abstract_inverted_index result = Present [].

(** The number of calls to the vector store in a log. *)
Definition attempts (log : list event) : nat :=
  List.length (filter (fun e => match e with
                                | AddDocuments _ _ => true
                                | _ => false
                                end) log).

(** The log of a batch whose first two insertions failed, up to the
    third insertion. *)
Definition two_failures (i : nat) (batch : list Document) : list event :=
  [AddDocuments i batch; ErrorAddingBatch i 1; Sleep 5;
   AddDocuments i batch; ErrorAddingBatch i 2; Sleep 5;
   AddDocuments i batch].

End Spec.

(** ** Concrete runs *)

Module Scenario.
Import Collector.

(** A world that only counts the calls made into it. *)
Definition World : Type := nat.

Definition requests_get (data : ResponseData) (keyword : string) (limit : Z)
  : World -> World * outcome ResponseData :=
  fun w => (S w, Return data).

Definition makedirs : World -> World * outcome unit :=
  fun w => (S w, Return tt).

Definition csv_write (keyword : string) (rows : list CsvRow)
  : World -> World * outcome unit :=
  fun w => (S w, Return tt).

Definition chroma_open : World -> World * outcome unit :=
  fun w => (S w, Return tt).

(** A vector store whose first [failures] insertions fail. *)
Definition add_documents (failures : nat) (batch : list Document)
  : World -> World * outcome unit :=
  fun w =>
    (S w, if (w <? failures)%nat
          then Raise (Exception "connection refused")
          else Return tt).

Definition institution (name : string) : Institution :=
  {| inst_display_name := Present name |}.

Definition authorship (name : string) (insts : list string) : Authorship :=
  {| author := Present {| author_display_name := Present name |};
     institutions := Present (map institution insts) |}.

(** Four authors; the fourth is the only one at U2. *)
Definition result_four_authors : Result :=
  {| title := Present "T";
     abstract_inverted_index := Present [("a", [0; 2]); ("b", [1])];
     authorships := Present [authorship "A1" ["U1"]; authorship "A2" ["U1"];
                             authorship "A3" ["U1"]; authorship "A4" ["U2"]];
     id := Present "https://openalex.org/W1";
     publication_year := Present 2024 |}.

Definition paper_four_authors : Paper :=
  {| p_title := "T";
     p_abstract := "a b a";
     p_url := Some "https://openalex.org/W1";
     p_publication_year := Some 2024;
     p_authors := ["A1"; "A2"; "A3"];
     p_institutions := ["U1"] |}.

(** A result with a title and an empty inverted index. *)
Definition result_no_abstract : Result :=
  {| title := Present "Only a title";
     abstract_inverted_index := Present [];
     authorships := Absent;
     id := Present "https://openalex.org/W2";
     publication_year := Present 2023 |}.

Definition paper_no_authors : Paper :=
  {| p_title := "T";
     p_abstract := "a b a";
     p_url := None;
     p_publication_year := None;
     p_authors := [];
     p_institutions := [] |}.

Definition paper_XY : Paper :=
  {| p_title := "T";
     p_abstract := "a b a";
     p_url := None;
     p_publication_year := None;
     p_authors := ["X"; "Y"];
     p_institutions := [] |}.

Definition documents_XY : list Document := [document_of_paper paper_XY].

(** A file system in which no directory can be made, and one in which no
    file can be written. *)
Definition makedirs_denied : World -> World * outcome unit :=
  fun w => (S w, Raise (Exception "permission denied")).

Definition csv_write_denied (keyword : string) (rows : list CsvRow)
  : World -> World * outcome unit :=
  fun w => (S w, Raise (Exception "disk full")).

(** A paper whose abstract has 334 Korean characters, of 3 bytes each. *)
Definition paper_korean_abstract : Paper :=
  {| p_title := "T";
     p_abstract := unchars (repeat (utf8 54620) 334);
     p_url := None;
     p_publication_year := None;
     p_authors := [];
     p_institutions := [] |}.
(** A paper whose abstract has 1001 characters, of 2 bytes each. *)
Definition paper_long_abstract : Paper :=
  {| p_title := "T";
     p_abstract := unchars (repeat (utf8 233) 1001);
     p_url := None;
     p_publication_year := None;
     p_authors := [];
     p_institutions := [] |}.

(** A vector store that cannot be opened. *)
Definition chroma_open_fails : World -> World * outcome unit :=
  fun w => (S w, Raise (Exception "no such directory")).

(** A network that is down. *)
Definition requests_get_down (keyword : string) (limit : Z)
  : World -> World * outcome ResponseData :=
  fun w => (S w, Raise (Exception "connection error")).

(** A result whose authorships are [null]. *)
Definition result_null_authorships : Result :=
  {| title := Present "Broken";
     abstract_inverted_index := Present [("a", [0])];
     authorships := Null;
     id := Absent;
     publication_year := Absent |}.
End Scenario.

Module ScenarioTopics.
Import Generator Evaluator.

Definition World : Type := nat.

Definition topic_a : ResearchTopic :=
  {| title := "Topic A";
     background := "Background";
     necessity := "Necessity";
     table_of_contents := ["1. Introduction"];
     expected_effects := "Effects";
     related_papers := [[("title", PyStr "Paper"); ("year", PyInt 2024)]] |}.


Definition evaluation_total_seven : EvaluationResult :=
  {| originality_score := 2;
     feasibility_score := 3;
     impact_score := 4;
     total_score := 7;
     reasoning := "Reasoning" |}.

(** A model that always gives the same evaluation. *)
Definition evaluator_chain (evaluation : EvaluationResult)
  (variables : Evaluator.PromptVariables)
  : World -> World * outcome EvaluationResult :=
  fun w => (S w, Return evaluation).

(** A model that cannot be reached. *)
Definition translator_chain_down (variables : Translator.PromptVariables)
  : World -> World * outcome Translator.TranslatedContent :=
  fun w => (S w, Raise (Exception "connection refused")).

Definition str_of_list (l : list string) : string :=
  "[" ++ join ", " l ++ "]".

Definition evaluated_a : EvaluatedTopic :=
  {| topic := topic_a; evaluation := evaluation_total_seven |}.

Definition document (year : option Z) (t : string) : Document :=
  {| page_content := t;
     metadata := {| md_title := Some t;
                    md_authors := None;
                    md_year := year;
                    md_url := None |} |}.

Definition documents : list Document :=
  [document (Some 2020) "T1"; document None "T2"; document (Some 2023) "T3"].

Definition retriever_invoke (keyword : string)
  : World -> World * outcome (list Document) :=
  fun w => (S w, Return documents).

(** A model that answers with text that is not JSON. *)
Definition generator_chain (variables : Generator.PromptVariables)
  : World -> World * outcome string :=
  fun w => (S w, Return "<think>hm</think> no JSON here").

(** A store that cannot be searched. *)
Definition retriever_down (keyword : string)
  : World -> World * outcome (list Document) :=
  fun w => (S w, Raise (Exception "collection not found")).

(** A model that cannot be reached. *)
Definition generator_chain_down (variables : Generator.PromptVariables)
  : World -> World * outcome string :=
  fun w => (S w, Raise (Exception "connection refused")).

Definition evaluator_chain_down (variables : Evaluator.PromptVariables)
  : World -> World * outcome EvaluationResult :=
  fun w => (S w, Raise (Exception "connection refused")).

(** A parser and a validation that accept every text as one topic. *)
Definition json_loads_any (s : string) : outcome string := Return s.

Definition TopicList_validate_one (j : string)
  : outcome (list ResearchTopic) :=
  Return [topic_a].

(** A parser that accepts no text. *)
Definition json_loads (s : string) : outcome string :=
  Raise (JSONDecodeError "Expecting value").

Definition TopicList_validate (j : string) : outcome (list ResearchTopic) :=
  Raise (Exception "validation error").

Definition similarity_search (query : string) (k : nat)
  : World -> World * outcome (list Document) :=
  fun w => (S w, Return (firstn k documents)).

(** A store that answers the first lookup after the generation and fails
    at the later ones. *)
Definition similarity_search_once (query : string) (k : nat)
  : World -> World * outcome (list Document) :=
  fun w =>
    (S w, if (w <? 3)%nat
          then Return (firstn k documents)
          else Raise (Exception "collection not found")).
(** A model server that accepts the requests to unload a model, and a file
    system on which every file can be written. *)
Definition requests_post (model_name : string)
  : World -> World * outcome unit :=
  fun w => (S w, Return tt).

Definition write_file (filename text : string)
  : World -> World * outcome unit :=
  fun w => (S w, Return tt).

(** A document whose authors text is in Korean: two names of 3 characters
    with a comma and a space between them. *)
Definition korean_authors : string :=
  utf8 44608 ++ utf8 48124 ++ utf8 51221 ++ ", "
  ++ utf8 51060 ++ utf8 49688 ++ utf8 48124.
Definition document_korean_authors : Document :=
  {| page_content := "";
     metadata := {| md_title := Some "T";
                    md_authors := Some korean_authors;
                    md_year := Some 2024;
                    md_url := None |} |}.
(** A topic with a related paper taken from the store. *)
Definition topic_b : ResearchTopic :=
  {| title := "<b>Topic B</b>";
     background := "Background";
     necessity := "Necessity";
     table_of_contents := ["1. Introduction"; "2. Method"];
     expected_effects := "Effects";
     related_papers := map related_paper_of documents |}.

Definition evaluated_b : EvaluatedTopic :=
  {| topic := topic_b; evaluation := evaluation_total_seven |}.
(** A validation that accepts every text as two topics. *)
Definition TopicList_validate_two (j : string)
  : outcome (list ResearchTopic) :=
  Return [topic_a; topic_b].
End ScenarioTopics.

(** ** Vocabulary of the further statements *)

Module Props.
Import Collector.



(** The author names that are kept from a list of authorships: the display
    names that are there and not empty. *)
Definition author_names (l : list Authorship) : list string :=
  flat_map (fun a =>
              match author a with
              | Present au =>
                  match get (author_display_name au) with
                  | Some name => if truthy_str (Some name) then [name] else []
                  | None => []
                  end
              | _ => []
              end) l.


(** The batches that [create_vector_db] cuts the documents into. *)
Definition batches (documents : list Document) (batch_size : nat)
  : list (list Document) :=
  map (fun i => firstn batch_size (skipn i documents))
      (range_step (List.length documents) batch_size).

(** The batches handed to the vector store according to a log, and the
    seconds spent in pauses. *)
Definition inserted_batches (log : list event) : list (list Document) :=
  flat_map (fun e => match e with
                     | AddDocuments _ batch => [batch]
                     | _ => []
                     end) log.

Definition sleep_seconds (log : list event) : Z :=
  fold_right (fun e total => match e with
                             | Sleep seconds => seconds + total
                             | _ => total
                             end) 0 log.

(** An authorship on which the loop of [fetch_papers] raises. *)
Definition null_in_authorship (a : Authorship) : Prop :=
  author a = Null \/ institutions a = Null.
End Props.

Module PropsChars.

(** Bytes that are all continuation bytes. *)
Fixpoint continuation_bytes (s : string) : bool :=
  match s with
  | EmptyString => true
  | String b t => is_continuation b && continuation_bytes t
  end.

(** A piece of a text as [chars] cuts it: a byte and the continuation
    bytes after it. *)
Definition piece (c : string) : bool :=
  match c with
  | String _ t => continuation_bytes t
  | EmptyString => false
  end.

(** A piece that starts a character. *)
Definition character (c : string) : bool :=
  piece c && negb (starts_with_continuation c).

(** The lists that [chars] gives: only the first piece may start with a
    continuation byte, when the text does. *)
Definition pieces (cs : list string) : Prop :=
  match cs with
  | [] => True
  | c :: rest => piece c = true /\ Forall (fun c => character c = true) rest
  end.

(** The number of bytes of a text that start a character. *)
Fixpoint starts (s : string) : nat :=
  match s with
  | EmptyString => O
  | String b t => ((if is_continuation b then 0 else 1) + starts t)%nat
  end.
End PropsChars.

Module PropsTopics.
Import Generator Evaluator.

(** The text starts, or ends, with a whitespace character. *)
Definition starts_with_space (s : string) : bool :=
  match chars s with
  | c :: _ => isspace c
  | [] => false
  end.

Definition ends_with_space (s : string) : bool :=
  match rev (chars s) with
  | c :: _ => isspace c
  | [] => false
  end.

(** [t] is [s] without the whitespace characters at its two ends. *)
Definition stripped (s t : string) : Prop :=
  starts_with_space t = false /\
  ends_with_space t = false /\
  exists pre post,
    chars s = (pre ++ chars t ++ post)%list /\
    Forall (fun c => isspace c = true) pre /\
    Forall (fun c => isspace c = true) post.

(** The fields of a topic that [generate_topics] takes from the model. *)
Definition same_text (t t' : ResearchTopic) : Prop :=
  title t' = title t /\
  background t' = background t /\
  necessity t' = necessity t /\
  table_of_contents t' = table_of_contents t /\
  expected_effects t' = expected_effects t.

(** A related paper as [generate_topics] builds it from a document of
    the store. *)
Definition from_store (paper : RelatedPaper) : Prop :=
  exists doc, paper = related_paper_of doc.

(** The lookups of the related papers, made one after the other from the
    state [w] of the store to the state [w']: each topic is looked up by
    its title, for one document, in the state that the lookup before it
    left; it gets the papers of the documents found, or none when its
    lookup raises. *)
Inductive lookups {World : Type}
  (similarity_search :
     string -> nat -> World -> World * outcome (list Document))
  : World -> list ResearchTopic -> list ResearchTopic -> World -> Prop :=
| lookups_done (w : World) : lookups similarity_search w [] [] w
| lookups_found (w w1 w' : World) (t t' : ResearchTopic)
    (docs : list Document) (topics out : list ResearchTopic) :
    similarity_search (title t) 1%nat w = (w1, Return docs) ->
    same_text t t' ->
    related_papers t' = map related_paper_of docs ->
    lookups similarity_search w1 topics out w' ->
    lookups similarity_search w (t :: topics) (t' :: out) w'
| lookups_failed (w w1 w' : World) (t t' : ResearchTopic) (e : exn)
    (topics out : list ResearchTopic) :
    similarity_search (title t) 1%nat w = (w1, Raise e) ->
    same_text t t' ->
    related_papers t' = [] ->
    lookups similarity_search w1 topics out w' ->
    lookups similarity_search w (t :: topics) (t' :: out) w'.

(** The entry of a topic whose evaluation failed. *)
Definition failed_entry (t : ResearchTopic) : EvaluatedTopic :=
  {| topic := t; evaluation := default_eval |}.

(** Total scores never increase along the list. *)
Definition ranked (l : list EvaluatedTopic) : Prop :=
  StronglySorted
    (fun a b => total_score (evaluation a) >= total_score (evaluation b)) l.
End PropsTopics.

(* ================================================================= *)
(** * Part II: lemmas and theorems *)
(* ================================================================= *)

(** ** Lists *)

Lemma in_firstn {A : Type} (n : nat) (l : list A) (x : A) :
In x (firstn n l) -> In x l.
Proof.
intros H. rewrite <- (firstn_skipn n l). apply in_or_app. now left.
Qed.

Lemma append_assoc (s1 s2 s3 : string) :
((s1 ++ s2) ++ s3 = s1 ++ s2 ++ s3)%string.
Proof.
induction s1 as [|c s1 IH]; simpl; [reflexivity|now rewrite IH].
Qed.

(** ** The stable sort *)

Section SortFacts.
Context {A : Type} (lt : A -> A -> bool).

Lemma insert_perm (x : A) (l : list A) :
  Permutation (insert lt x l) (x :: l).
Proof.
  induction l as [|y l IH]; simpl; [reflexivity|].
  destruct (lt y x); [|reflexivity].
  rewrite IH. apply perm_swap.
Qed.

Lemma list_sort_perm (l : list A) : Permutation (list_sort lt l) l.
Proof.
  induction l as [|x l IH]; simpl; [reflexivity|].
  rewrite insert_perm. now constructor.
Qed.

(** Sortedness for any transitive relation [R] that [lt] decides. *)
Section Sorted.
Variable R : A -> A -> Prop.
Hypothesis R_trans : forall a b c, R a b -> R b c -> R a c.
Hypothesis lt_R : forall a b, lt a b = true -> R a b.
Hypothesis nlt_R : forall a b, lt a b = false -> R b a.

Lemma insert_sorted (x : A) (l : list A) :
  StronglySorted R l -> StronglySorted R (insert lt x l).
Proof.
  induction 1 as [|y l Hl IH Hy]; simpl.
  - repeat constructor.
  - destruct (lt y x) eqn:E.
    + constructor; [exact IH|].
      rewrite Forall_forall. intros z Hz.
      apply (Permutation_in _ (insert_perm x l)) in Hz.
      destruct Hz as [<-|Hz]; [now apply lt_R|].
      rewrite Forall_forall in Hy. now apply Hy.
    + constructor; [now constructor|].
      constructor; [now apply nlt_R|].
      eapply Forall_impl; [|exact Hy].
      intros z Hz. eapply R_trans; [|exact Hz]. now apply nlt_R.
Qed.

Lemma list_sort_sorted (l : list A) : StronglySorted R (list_sort lt l).
Proof.
  induction l as [|x l IH]; simpl; [constructor|].
  now apply insert_sorted.
Qed.
End Sorted.
End SortFacts.

(** ** The stable descending sort by key *)

Section SortedKeyReverse.
Context {A : Type} (key : A -> Z).

Lemma strongly_sorted_app (R : A -> A -> Prop) (l1 l2 : list A) :
  StronglySorted R l1 -> StronglySorted R l2 ->
  (forall a b, In a l1 -> In b l2 -> R a b) ->
  StronglySorted R (l1 ++ l2).
Proof.
  induction 1 as [|x l1 Hl1 IH Hx]; intros Hl2 Hcross; simpl; [exact Hl2|].
  constructor.
  - apply IH; [exact Hl2|]. intros a b Ha Hb. apply Hcross; simpl; auto.
  - apply Forall_app. split; [exact Hx|].
    rewrite Forall_forall. intros b Hb. apply Hcross; simpl; auto.
Qed.

Lemma strongly_sorted_rev (R : A -> A -> Prop) (l : list A) :
  StronglySorted R l -> StronglySorted (fun a b => R b a) (rev l).
Proof.
  induction 1 as [|x l Hl IH Hx]; simpl; [constructor|].
  apply strongly_sorted_app; [exact IH|repeat constructor|].
  intros a b Ha [<-|[]]. apply in_rev in Ha.
  rewrite Forall_forall in Hx. now apply Hx.
Qed.

(** Putting an element in place never moves it across an element that
    [f] selects together with it, when [f] only selects elements that
    [lt] does not order. *)
Lemma filter_insert (lt : A -> A -> bool) (f : A -> bool) (x : A)
  (l : list A) :
  (forall a b, lt a b = true -> f a = true -> f b = true -> False) ->
  filter f (insert lt x l) = filter f (x :: l).
Proof.
  intros Hf. induction l as [|y l IH]; [reflexivity|].
  cbn [insert]. destruct (lt y x) eqn:E; [|reflexivity].
  cbn [filter] in *. rewrite IH.
  destruct (f y) eqn:Fy, (f x) eqn:Fx; try reflexivity.
  exfalso. exact (Hf y x E Fy Fx).
Qed.

Lemma filter_list_sort (lt : A -> A -> bool) (f : A -> bool) (l : list A) :
  (forall a b, lt a b = true -> f a = true -> f b = true -> False) ->
  filter f (list_sort lt l) = filter f l.
Proof.
  intros Hf. induction l as [|x l IH]; [reflexivity|].
  cbn [list_sort]. rewrite filter_insert by exact Hf.
  cbn [filter]. now rewrite IH.
Qed.

Lemma sorted_key_reverse_perm (l : list A) :
  Permutation (sorted_key_reverse key l) l.
Proof.
  unfold sorted_key_reverse.
  rewrite <- Permutation_rev, list_sort_perm. symmetry. apply Permutation_rev.
Qed.

(** Keys never increase along the result. *)
Lemma sorted_key_reverse_sorted (l : list A) :
  StronglySorted (fun a b => key a >= key b) (sorted_key_reverse key l).
Proof.
  unfold sorted_key_reverse.
  apply (strongly_sorted_rev (fun a b => key b >= key a)).
  apply list_sort_sorted.
  - intros; lia.
  - intros a b H. apply Z.ltb_lt in H. lia.
  - intros a b H. apply Z.ltb_ge in H. lia.
Qed.

(** The elements of one key keep their order. *)
Lemma sorted_key_reverse_stable (l : list A) (k : Z) :
  filter (fun x => key x =? k) (sorted_key_reverse key l)
  = filter (fun x => key x =? k) l.
Proof.
  unfold sorted_key_reverse.
  rewrite filter_rev, filter_list_sort, filter_rev, rev_involutive;
    [reflexivity|].
  intros a b Hlt Ha Hb.
  apply Z.ltb_lt in Hlt. apply Z.eqb_eq in Ha, Hb. lia.
Qed.

(** The first [n] elements of the result have the largest keys. *)
Lemma sorted_key_reverse_firstn (l : list A) (n : nat) (a b : A) :
  In a (firstn n (sorted_key_reverse key l)) ->
  In b (skipn n (sorted_key_reverse key l)) ->
  key a >= key b.
Proof.
  pose proof (sorted_key_reverse_sorted l) as Hs.
  rewrite <- (firstn_skipn n (sorted_key_reverse key l)) in Hs.
  revert Hs. generalize (firstn n (sorted_key_reverse key l)) as l1.
  generalize (skipn n (sorted_key_reverse key l)) as l2.
  intros l2 l1. induction l1 as [|x l1 IH]; simpl; [contradiction|].
  intros Hs [<-|Ha] Hb.
  - apply StronglySorted_inv in Hs. destruct Hs as [_ Hx].
    rewrite Forall_forall in Hx. apply Hx. apply in_or_app. now right.
  - apply StronglySorted_inv in Hs. destruct Hs as [Hs _]. now apply IH.
Qed.
End SortedKeyReverse.

(** ** Abstract reconstruction *)

Section ReconstructAbstract.
Import Collector Spec.




(** The pairs that are sorted are the pairs of a word of the index with
    one of its positions. *)
Lemma in_word_positions_of (idx : InvertedIndex) (pos : Z) (word : string) :
  In (pos, word) (word_positions_of idx) <->
  exists positions, In (word, positions) idx /\ In pos positions.
Proof.
  unfold word_positions_of. rewrite in_flat_map. split.
  - intros [[w ps] [Hin Hp]]. apply in_map_iff in Hp.
    destruct Hp as [p [Heq Hp]]. inversion Heq; subst. eauto.
  - intros [ps [Hin Hp]]. exists (word, ps). split; [exact Hin|].
    apply in_map_iff. eauto.
Qed.



End ReconstructAbstract.

(** ** Papers built from API results *)

Section PaperOfResult.
Import Collector Spec.

Lemma add_institutions_dedup (insts : list Institution) (seen : list string) :
  add_institutions insts seen = dedup_onto seen (institution_names insts).
Proof.
  revert seen. induction insts as [|inst insts IH]; intros seen; simpl.
  - reflexivity.
  - rewrite IH. unfold dedup_onto, institution_names. simpl.
    rewrite fold_left_app. f_equal.
    destruct (get (inst_display_name inst)) as [name|]; [|reflexivity].
    destruct name as [|c name]; reflexivity.
Qed.

Lemma scan_authorship_institutions (a : Authorship)
  (authors institutions authors' institutions' : list string) :
  scan_authorship a (authors, institutions) = Return (authors', institutions') ->
  institutions' = dedup_onto institutions (authorship_institution_names a).
Proof.
  unfold scan_authorship, authorship_institution_names.
  destruct (author a); simpl; try discriminate;
    destruct (Collector.institutions a); simpl; try discriminate;
    intros H; inversion H; subst; try reflexivity;
    apply add_institutions_dedup.
Qed.

Lemma scan_authorships_institutions (l : list Authorship)
  (authors institutions authors' institutions' : list string) :
  scan_authorships l (authors, institutions) = Return (authors', institutions') ->
  institutions' =
    dedup_onto institutions (flat_map authorship_institution_names l).
Proof.
  revert authors institutions.
  induction l as [|a l IH]; intros authors institutions;
    cbn [scan_authorships].
  - intros H. inversion H. reflexivity.
  - destruct (scan_authorship a (authors, institutions)) as [[au ins]|e] eqn:E;
      cbn [obind flat_map]; [|discriminate].
    intros H. apply IH in H. subst institutions'.
    apply scan_authorship_institutions in E. subst ins.
    unfold dedup_onto. now rewrite fold_left_app.
Qed.

(** Deduplication only keeps names it was given. *)
Lemma in_dedup_onto (names seen : list string) (name : string) :
  In name (dedup_onto seen names) -> In name seen \/ In name names.
Proof.
  revert seen. induction names as [|n names IH]; intros seen; simpl.
  - auto.
  - intros H. apply IH in H. destruct H as [H|H]; [|auto].
    unfold dedup_step in H. destruct (not_in n seen); [|auto].
    apply in_app_or in H. destruct H as [H|[H|[]]]; auto.
Qed.

Lemma nodup_dedup_onto (names seen : list string) :
  NoDup seen -> NoDup (dedup_onto seen names).
Proof.
  revert seen. induction names as [|n names IH]; intros seen Hs; simpl.
  - exact Hs.
  - apply IH. unfold dedup_step, not_in.
    destruct (existsb (String.eqb n) seen) eqn:E; simpl; [exact Hs|].
    apply NoDup_app; [exact Hs|repeat constructor; intros []|].
    intros x Hx [->|[]].
    assert (existsb (String.eqb x) seen = true) as E'.
    { apply existsb_exists. exists x. split; [exact Hx|apply String.eqb_refl]. }
    congruence.
Qed.

(** The institutions of a paper, in terms of the result it was built
    from. *)
Lemma paper_of_result_institutions (alim ilim : nat) (result : Result)
  (paper : Paper) :
  paper_of_result alim ilim result = Return (Some paper) ->
  exists authorships : list Authorship,
    get_default (Collector.authorships result) [] = Some authorships /\
    p_institutions paper =
      firstn ilim
        (dedup (flat_map authorship_institution_names
                         (firstn alim authorships))).
Proof.
  unfold paper_of_result.
  destruct (get_default (Collector.authorships result) []) as [auths|];
    [|discriminate].
  destruct (scan_authorships (slice_to alim auths) ([], []))
    as [[au ins]|e] eqn:E; simpl; [|discriminate].
  apply scan_authorships_institutions in E. subst ins.
  intros H. exists auths. split; [reflexivity|].
  destruct (get (title result)) as [t|]; [|discriminate].
  destruct (truthy_str (Some t) && _); inversion H. reflexivity.
Qed.

(** A result without abstract yields no paper. *)
Lemma paper_of_result_no_abstract (alim ilim : nat) (result : Result) :
  no_abstract_index result ->
  paper_of_result alim ilim result = Return None \/
  exists e, paper_of_result alim ilim result = Raise e.
Proof.
  intros Hidx. unfold paper_of_result.
  assert (_reconstruct_abstract (get (abstract_inverted_index result)) = "")
    as ->.
  { destruct Hidx as [H|[H|H]]; rewrite H; reflexivity. }
  destruct (get_default (Collector.authorships result) []) as [auths|];
    [|right; eauto].
  destruct (scan_authorships (slice_to alim auths) ([], []))
    as [[au ins]|e]; simpl; [|right; eauto].
  left. destruct (get (title result)) as [t|]; [|reflexivity].
  now rewrite andb_false_r.
Qed.

Lemma collect_papers_origin (alim ilim : nat) (results : list Result)
  (papers0 papers : list Paper) :
  collect_papers alim ilim results papers0 = Return papers ->
  forall paper, In paper papers ->
    In paper papers0 \/
    exists result, In result results /\
                   paper_of_result alim ilim result = Return (Some paper).
Proof.
  revert papers0. induction results as [|r results IH]; intros papers0; simpl.
  - intros H paper Hin. inversion H; subst. auto.
  - destruct (paper_of_result alim ilim r) as [[p|]|e] eqn:E; simpl;
      [| |discriminate]; intros H paper Hin;
      destruct (IH _ H paper Hin) as [Hp|[r' [Hr' Hp]]]; eauto.
    apply in_app_or in Hp. destruct Hp as [Hp|[<-|[]]]; eauto.
Qed.

Lemma collect_papers_drop (alim ilim : nat) (pre post : list Result)
  (result : Result) (papers0 papers : list Paper) :
  no_abstract_index result ->
  collect_papers alim ilim (pre ++ result :: post)%list papers0
  = Return papers ->
  collect_papers alim ilim (pre ++ post)%list papers0 = Return papers.
Proof.
  intros Hidx. revert papers0.
  induction pre as [|r pre IH]; intros papers0; simpl.
  - destruct (paper_of_result_no_abstract alim ilim result Hidx) as [->|[e ->]];
      simpl; [auto|discriminate].
  - destruct (paper_of_result alim ilim r) as [p|e]; simpl; [|discriminate].
    apply IH.
Qed.

End PaperOfResult.

(** ** [fetch_papers] *)

Section FetchPapers.
Import Collector Spec.

Variable World : Type.
Variable requests_get : string -> Z -> World -> World * outcome ResponseData.
Variable makedirs : World -> World * outcome unit.
Variable csv_write : string -> list CsvRow -> World -> World * outcome unit.

Local Abbreviation fetch_papers :=
  (fetch_papers World requests_get makedirs csv_write).
Local Abbreviation save_papers_to_csv :=
  (save_papers_to_csv World makedirs csv_write).

(** Writing the snapshot can only fail in [os.makedirs]. *)
Lemma save_papers_to_csv_outcome (papers : list Paper) (keyword : string)
  (s : St World) :
  exists s', save_papers_to_csv papers keyword s = (s', Return tt) \/
             exists e, save_papers_to_csv papers keyword s = (s', Raise e).
Proof.
  unfold Collector.save_papers_to_csv.
  destruct papers as [|p papers]; [exists s; left; reflexivity|].
  destruct s as [w log].
  unfold bind, try_except, call, ret.
  destruct (makedirs w) as [w1 [[]|e]]; [|exists (w1, log); right; eauto].
  destruct (csv_write keyword (map csv_row (p :: papers)) w1) as [w2 [[]|e]];
    exists (w2, log); left; reflexivity.
Qed.

(** [fetch_papers] never raises. *)
Lemma fetch_papers_returns (keyword : string) (limit : Z) (s : St World) :
  exists s' papers, fetch_papers keyword limit s = (s', Return papers).
Proof.
  unfold Collector.fetch_papers, try_except.
  destruct (bind _ _ s) as [s' [papers|e]]; unfold ret; eauto.
Qed.

(** A non-empty answer of [fetch_papers] is what the loop over the
    results of the API collected. *)
Lemma fetch_papers_collects (keyword : string) (limit : Z) (w : World)
  (log : list event) (s' : St World) (papers : list Paper) :
  fetch_papers keyword limit (w, log) = (s', Return papers) ->
  papers = [] \/
  exists w1 data results,
    requests_get keyword limit w = (w1, Return data) /\
    get_default (Collector.results data) [] = Some results /\
    collect_papers AUTHORS_LIMIT INSTITUTIONS_LIMIT results [] = Return papers.
Proof.
  unfold Collector.fetch_papers, try_except, bind at 1, call at 1.
  destruct (requests_get keyword limit w) as [w1 [data|e]];
    [|intros H; inversion H; auto].
  destruct (get_default (Collector.results data) []) as [results|] eqn:Er;
    [|intros H; inversion H; auto].
  unfold bind at 1, lift.
  destruct (collect_papers AUTHORS_LIMIT INSTITUTIONS_LIMIT results [])
    as [ps|e] eqn:Ec; [|intros H; inversion H; auto].
  unfold bind.
  destruct (save_papers_to_csv_outcome ps keyword (w1, log))
    as [s1 [Hs|[e Hs]]]; rewrite Hs; intros H; inversion H; subst; auto.
  right. exists w1, data, results. auto.
Qed.

(** C9: every paper returned by [fetch_papers] is built from an API result
    whose institution names are collected from the first [AUTHORS_LIMIT]
    (that is 3) authorships only, then deduplicated and cut at
    [INSTITUTIONS_LIMIT]; a name that no institution of these first
    authorships carries is not in the paper record, whatever the later
    authorships hold and however few institutions were collected. *)
Theorem fetch_papers_institutions_of_first_authors
  (keyword : string) (limit : Z) (w : World) (log : list event)
  (s' : St World) (papers : list Paper) (paper : Paper) :
  fetch_papers keyword limit (w, log) = (s', Return papers) ->
  In paper papers ->
  AUTHORS_LIMIT = 3%nat /\
  exists w1 data results result authorships,
    requests_get keyword limit w = (w1, Return data) /\
    get_default (Collector.results data) [] = Some results /\
    In result results /\
    get_default (Collector.authorships result) [] = Some authorships /\
    p_institutions paper =
      firstn INSTITUTIONS_LIMIT
        (dedup (flat_map authorship_institution_names
                         (firstn AUTHORS_LIMIT authorships))) /\
    forall name : string,
      (forall a, In a (firstn AUTHORS_LIMIT authorships) ->
                 ~ In name (authorship_institution_names a)) ->
      ~ In name (p_institutions paper).
Proof.
  intros Hfetch Hin. split; [reflexivity|].
  destruct (fetch_papers_collects _ _ _ _ _ _ Hfetch)
    as [->|[w1 [data [results [Hget [Hres Hcol]]]]]]; [destruct Hin|].
  destruct (collect_papers_origin _ _ _ _ _ Hcol paper Hin)
    as [[]|[result [Hr Hp]]].
  destruct (paper_of_result_institutions _ _ _ _ Hp) as [auths [Ha Hi]].
  exists w1, data, results, result, auths.
  repeat (split; [assumption|]).
  intros name Hnone Hname. rewrite Hi in Hname.
  apply in_firstn in Hname. apply in_dedup_onto in Hname.
  destruct Hname as [[]|Hname].
  apply in_flat_map in Hname. destruct Hname as [a [Ha' Hn]].
  exact (Hnone a Ha' Hn).
Qed.

(** C10: for a result whose abstract inverted index is absent, [None] or
    empty, [_reconstruct_abstract] returns the empty string and the loop
    of [fetch_papers] appends no paper for it, whatever its title: the
    list returned is the one the other results give (or the empty list
    of a failed fetch). *)
Theorem fetch_papers_drops_result_without_abstract (result : Result) :
  no_abstract_index result ->
  _reconstruct_abstract (get (abstract_inverted_index result)) = "" /\
  (forall paper : Paper,
      paper_of_result AUTHORS_LIMIT INSTITUTIONS_LIMIT result
      <> Return (Some paper)) /\
  forall (keyword : string) (limit : Z) (w w1 : World) (log : list event)
         (pre post : list Result) (s' : St World) (papers : list Paper),
    requests_get keyword limit w
    = (w1, Return {| results := Present (pre ++ result :: post)%list |}) ->
    fetch_papers keyword limit (w, log) = (s', Return papers) ->
    papers = [] \/
    collect_papers AUTHORS_LIMIT INSTITUTIONS_LIMIT (pre ++ post)%list []
    = Return papers.
Proof.
  intros Hidx. split; [|split].
  - destruct Hidx as [H|[H|H]]; rewrite H; reflexivity.
  - intros paper.
    destruct (paper_of_result_no_abstract AUTHORS_LIMIT INSTITUTIONS_LIMIT
                result Hidx) as [->|[e ->]]; discriminate.
  - intros keyword limit w w1 log pre post s' papers Hget Hfetch.
    destruct (fetch_papers_collects _ _ _ _ _ _ Hfetch)
      as [->|[w2 [data [results [Hget' [Hres Hcol]]]]]]; [auto|].
    rewrite Hget in Hget'. inversion Hget'; subst. simpl in Hres.
    inversion Hres; subst. right.
    eapply collect_papers_drop; eassumption.
Qed.

End FetchPapers.

Section FetchPapersWitnesses.
Import Collector Spec.

Lemma fetch_papers_institutions_of_first_authors_witness :
  AUTHORS_LIMIT = 3%nat /\
  exists w1 data results result authorships,
    Scenario.requests_get
      {| results := Present [Scenario.result_four_authors] |} "rag" 10 0%nat
    = (w1, Return data) /\
    get_default (Collector.results data) [] = Some results /\
    In result results /\
    get_default (Collector.authorships result) [] = Some authorships /\
    p_institutions Scenario.paper_four_authors =
      firstn INSTITUTIONS_LIMIT
        (dedup (flat_map authorship_institution_names
                         (firstn AUTHORS_LIMIT authorships))) /\
    forall name : string,
      (forall a, In a (firstn AUTHORS_LIMIT authorships) ->
                 ~ In name (authorship_institution_names a)) ->
      ~ In name (p_institutions Scenario.paper_four_authors).
Proof.
  apply (fetch_papers_institutions_of_first_authors
           Scenario.World
           (Scenario.requests_get
              {| results := Present [Scenario.result_four_authors] |})
           Scenario.makedirs Scenario.csv_write
           "rag" 10 0%nat [] (3%nat, []) [Scenario.paper_four_authors]).
  - reflexivity.
  - left. reflexivity.
Defined.

Lemma fetch_papers_drops_result_without_abstract_witness :
  no_abstract_index Scenario.result_no_abstract /\
  _reconstruct_abstract
    (get (abstract_inverted_index Scenario.result_no_abstract)) = "" /\
  ([Scenario.paper_four_authors] = [] \/
   collect_papers AUTHORS_LIMIT INSTITUTIONS_LIMIT
     ([Scenario.result_four_authors] ++ [])%list []
   = Return [Scenario.paper_four_authors]).
Proof.
  assert (no_abstract_index Scenario.result_no_abstract) as Hidx
    by (right; right; reflexivity).
  split; [exact Hidx|].
  split.
  - exact (proj1 (fetch_papers_drops_result_without_abstract
                    Scenario.World
                    (Scenario.requests_get
                       {| results :=
                           Present [Scenario.result_four_authors;
                                    Scenario.result_no_abstract] |})
                    Scenario.makedirs Scenario.csv_write
                    Scenario.result_no_abstract Hidx)).
  - apply (proj2 (proj2 (fetch_papers_drops_result_without_abstract
                    Scenario.World
                    (Scenario.requests_get
                       {| results :=
                           Present [Scenario.result_four_authors;
                                    Scenario.result_no_abstract] |})
                    Scenario.makedirs Scenario.csv_write
                    Scenario.result_no_abstract Hidx))
             "rag" 10 0%nat 1%nat []
             [Scenario.result_four_authors] [] (3%nat, [])
             [Scenario.paper_four_authors]).
    + reflexivity.
    + reflexivity.
Defined.

End FetchPapersWitnesses.

(** ** The CSV snapshot *)

Section CsvAuthors.
Import Collector.

Lemma prefix_sep_cons (c : ascii) (s : string) :
  prefix "; " (String c s) =
  Ascii.eqb c ";" && match s with
                    | String d _ => Ascii.eqb d " "
                    | EmptyString => false
                    end.
Proof.
  cbn [prefix].
  destruct (ascii_dec ";" c) as [<-|Hc].
  - rewrite Ascii.eqb_refl. simpl.
    destruct s as [|d s]; [reflexivity|]. cbn [prefix].
    destruct (ascii_dec " " d) as [<-|Hd].
    + rewrite Ascii.eqb_refl. now destruct s.
    + symmetry. apply Ascii.eqb_neq. congruence.
  - symmetry. apply andb_false_iff. left. apply Ascii.eqb_neq. congruence.
Qed.

Lemma contains_sep_cons (c : ascii) (s : string) :
  contains "; " (String c s) = false ->
  prefix "; " (String c s) = false /\ contains "; " s = false.
Proof.
  cbn [contains]. intros H. apply orb_false_iff in H. exact H.
Qed.

Lemma split_go_cons (sep : string) (cur : list ascii) (c : ascii)
  (s : string) :
  split_go sep O cur (String c s)
  = if prefix sep (String c s)
    then string_of_list_ascii (rev cur)
           :: split_go sep (pred (String.length sep)) [] s
    else split_go sep O (c :: cur) s.
Proof. reflexivity. Qed.

Lemma split_go_skip (sep : string) (k : nat) (cur : list ascii) (c : ascii)
  (s : string) :
  split_go sep (S k) cur (String c s) = split_go sep k cur s.
Proof. reflexivity. Qed.

(** The last piece of a split. *)
Lemma split_go_last (s : string) (cur : list ascii) :
  contains "; " s = false ->
  split_go "; " O cur s
  = [string_of_list_ascii (rev cur ++ list_ascii_of_string s)].
Proof.
  revert cur. induction s as [|c s IH]; intros cur H.
  - simpl. now rewrite app_nil_r.
  - apply contains_sep_cons in H. destruct H as [Hp Hc].
    rewrite split_go_cons, Hp, (IH (c :: cur) Hc).
    simpl. now rewrite <- app_assoc.
Qed.

(** A piece that is followed by a separator. *)
Lemma split_go_piece (s rest : string) (cur : list ascii) :
  contains "; " s = false ->
  split_go "; " O cur (s ++ "; " ++ rest)
  = string_of_list_ascii (rev cur ++ list_ascii_of_string s)
      :: split_go "; " O [] rest.
Proof.
  revert cur. induction s as [|c s IH]; intros cur H.
  - change ("" ++ "; " ++ rest) with (String ";" (String " " rest)).
    rewrite split_go_cons, prefix_sep_cons. simpl.
    now rewrite app_nil_r.
  - apply contains_sep_cons in H. destruct H as [Hp Hc].
    change (String c s ++ "; " ++ rest) with (String c (s ++ "; " ++ rest)).
    rewrite split_go_cons.
    assert (prefix "; " (String c (s ++ "; " ++ rest)) = false) as ->.
    { rewrite prefix_sep_cons in *.
      destruct (Ascii.eqb c ";"); [|reflexivity]. simpl in *.
      destruct s as [|d s]; [reflexivity|exact Hp]. }
    rewrite (IH (c :: cur) Hc). simpl. now rewrite <- app_assoc.
Qed.

Lemma split_go_join (names : list string) :
  names <> [] ->
  (forall name, In name names -> contains "; " name = false) ->
  split_go "; " O [] (join "; " names) = names.
Proof.
  induction names as [|name names IH]; [contradiction|].
  intros _ Hnames. cbn [join].
  destruct names as [|name' names].
  - rewrite split_go_last by (apply Hnames; now left).
    simpl. now rewrite string_of_list_ascii_of_string.
  - rewrite split_go_piece by (apply Hnames; now left).
    simpl rev. cbn [app]. rewrite string_of_list_ascii_of_string.
    f_equal. apply IH; [discriminate|].
    intros n Hn. apply Hnames. now right.
Qed.

(** C7, as amended: the authors column of the CSV row of a paper is the
    author names joined with "; "; when the paper has at least one author
    and no name contains "; ", splitting the column on "; " gives back
    the list of names.  The names X, Y give the column "X; Y". *)
Theorem csv_authors_round_trip :
  (forall paper : Paper,
      row_authors (csv_row paper) = join "; " (p_authors paper) /\
      (p_authors paper <> [] ->
       (forall name, In name (p_authors paper) ->
                     contains "; " name = false) ->
       split "; " (row_authors (csv_row paper))
       = Return (p_authors paper))) /\
  join "; " ["X"; "Y"] = "X; Y".
Proof.
  split; [|reflexivity].
  intros paper. split; [reflexivity|].
  intros Hne Hnames. unfold split. cbn [csv_row row_authors].
  now rewrite split_go_join.
Qed.

Lemma csv_authors_round_trip_witness :
  row_authors (csv_row Scenario.paper_XY) = "X; Y" /\
  split "; " (row_authors (csv_row Scenario.paper_XY)) = Return ["X"; "Y"].
Proof.
  split; [reflexivity|].
  apply (proj2 (proj1 csv_authors_round_trip Scenario.paper_XY)).
  - discriminate.
  - intros name [<-|[<-|[]]]; reflexivity.
Defined.

(** C7 as stated fails: a paper without authors gives the empty column,
    which splits into one empty name, and a name that contains "; " is
    split in two. *)
Lemma csv_authors_split_not_inverse :
  split "; " (row_authors (csv_row Scenario.paper_no_authors))
  <> Return (p_authors Scenario.paper_no_authors) /\
  split "; " (join "; " ["Doe; Jr."]) <> Return ["Doe; Jr."].
Proof.
  split; discriminate.
Qed.

End CsvAuthors.

(** ** Insertion into the vector store *)

Section CreateVectorDb.
Import Collector Spec.

Variable World : Type.
Variable add_documents : list Document -> World -> World * outcome unit.

Local Abbreviation retry_loop := (retry_loop World add_documents).
Local Abbreviation insert_batch := (insert_batch World add_documents).
Local Abbreviation insert_batches := (insert_batches World add_documents).

Lemma attempts_app (l1 l2 : list event) :
  attempts (l1 ++ l2) = (attempts l1 + attempts l2)%nat.
Proof. unfold attempts. now rewrite filter_app, length_app. Qed.

(** One turn of the retry loop. *)
Lemma retry_loop_cons (i : nat) (batch : list Document) (attempt : nat)
  (rest : list nat) (w : World) (log : list event) :
  retry_loop i batch (attempt :: rest) (w, log) =
  match add_documents batch w with
  | (w', Return _) => ((w', log ++ [AddDocuments i batch])%list, Return tt)
  | (w', Raise _) =>
      retry_loop i batch rest
        (w', (log ++ [AddDocuments i batch; ErrorAddingBatch i (attempt + 1);
                      if (attempt <? max_retries - 1)%nat
                      then Sleep 5 else FailedBatchSkipping i])%list)
  end.
Proof.
  cbn [Collector.retry_loop]. unfold try_except, bind, emit, call.
  destruct (add_documents batch w) as [w' [[]|e]]; [reflexivity|].
  destruct (attempt <? max_retries - 1)%nat;
    rewrite <- !app_assoc; reflexivity.
Qed.

(** The retry loop never raises, extends the log, and calls the store
    at most once per attempt. *)
Lemma retry_loop_returns (i : nat) (batch : list Document)
  (attempts_left : list nat) (w : World) (log : list event) :
  exists w' new,
    retry_loop i batch attempts_left (w, log)
    = ((w', log ++ new)%list, Return tt) /\
    (attempts new <= List.length attempts_left)%nat.
Proof.
  revert w log. induction attempts_left as [|attempt rest IH]; intros w log.
  - exists w, []. rewrite app_nil_r. split; [reflexivity|cbv; lia].
  - rewrite retry_loop_cons.
    destruct (add_documents batch w) as [w' [[]|e]].
    + exists w', [AddDocuments i batch].
      split; [reflexivity|unfold attempts; simpl; lia].
    + destruct (IH w' (log ++ [AddDocuments i batch;
                               ErrorAddingBatch i (attempt + 1);
                               if (attempt <? max_retries - 1)%nat
                               then Sleep 5 else FailedBatchSkipping i])%list)
        as [w'' [new [Heq Hle]]].
      exists w''. eexists. rewrite Heq, <- app_assoc.
      split; [reflexivity|].
      rewrite attempts_app. cbn [List.length].
      destruct (attempt <? max_retries - 1)%nat;
        match goal with
        | |- context [(attempts ?l + _)%nat] =>
            change (attempts l) with 1%nat
        end; lia.
Qed.

Lemma insert_batches_cons (documents : list Document) (batch_size i : nat)
  (rest : list nat) (s s' : St World) :
  insert_batch documents batch_size i s = (s', Return tt) ->
  insert_batches documents batch_size (i :: rest) s
  = insert_batches documents batch_size rest s'.
Proof.
  intros H. cbn [Collector.insert_batches]. unfold bind. now rewrite H.
Qed.

(** The loop over the batches never raises. *)
Lemma insert_batches_returns (documents : list Document) (batch_size : nat)
  (starts : list nat) (s : St World) :
  exists s', insert_batches documents batch_size starts s = (s', Return tt).
Proof.
  revert s. induction starts as [|i rest IH]; intros [w log].
  - eexists. reflexivity.
  - destruct (retry_loop_returns i (firstn batch_size (skipn i documents))
                (seq 0 max_retries) w log) as [w' [new [Heq _]]].
    rewrite (insert_batches_cons _ _ _ _ _ _ Heq). apply IH.
Qed.

Lemma create_vector_db_returns (chroma_open : World -> World * outcome unit)
  (papers : list Paper) (batch_size : nat) (w w1 : World)
  (log : list event) :
  papers <> [] -> batch_size <> O ->
  chroma_open w = (w1, Return tt) ->
  exists s',
    create_vector_db World chroma_open add_documents papers batch_size
                     (w, log)
    = (s', Return true).
Proof.
  intros Hp Hb Ho. unfold Collector.create_vector_db.
  destruct papers as [|p papers]; [contradiction|].
  destruct batch_size as [|b]; [contradiction|].
  unfold bind at 1, call. rewrite Ho.
  unfold bind, ret.
  destruct (insert_batches_returns
              (map document_of_paper (p :: papers)) (S b)
              (range_step (List.length (map document_of_paper (p :: papers)))
                          (S b)) (w1, log)) as [s' ->].
  eauto.
Qed.


End CreateVectorDb.

Section CreateVectorDbWitness.
Import Collector Spec.


End CreateVectorDbWitness.

(** ** Evaluation of the topics *)

Section EvaluateTopics.
Import Generator Evaluator.

Variable World : Type.
Variable chain_invoke :
  Evaluator.PromptVariables -> World -> World * outcome EvaluationResult.

Local Abbreviation evaluate_topic := (evaluate_topic World chain_invoke).
Local Abbreviation evaluate_each := (evaluate_each World chain_invoke).
Local Abbreviation evaluate_topics := (evaluate_topics World chain_invoke).

(** What the loop appends for a topic. *)
Lemma evaluate_topic_cases (t : ResearchTopic) (w : World) :
  exists w' et,
    evaluate_topic t w = (w', Return et) /\
    topic et = t /\
    ((exists ev, chain_invoke (Evaluator.prompt_variables t) w
                 = (w', Return ev) /\ evaluation et = fix_total ev) \/
     (exists e, chain_invoke (Evaluator.prompt_variables t) w
                = (w', Raise e) /\ evaluation et = default_eval)).
Proof.
  unfold Evaluator.evaluate_topic, try_except, bind, ret.
  destruct (chain_invoke (Evaluator.prompt_variables t) w) as [w' [ev|e]];
    do 2 eexists; (split; [reflexivity|]); (split; [reflexivity|]); eauto.
Qed.

Lemma evaluate_each_cons (t : ResearchTopic) (rest : list ResearchTopic)
  (w w1 w2 : World) (et : EvaluatedTopic) (ets : list EvaluatedTopic) :
  evaluate_topic t w = (w1, Return et) ->
  evaluate_each rest w1 = (w2, Return ets) ->
  evaluate_each (t :: rest) w = (w2, Return (et :: ets)).
Proof.
  intros H1 H2. cbn [Evaluator.evaluate_each]. unfold bind, ret.
  now rewrite H1, H2.
Qed.

(** The loop never raises; it appends one entry per topic, in order, each
    built from an answer of the model or from the default evaluation. *)
Lemma evaluate_each_returns (topics : list ResearchTopic) (w : World) :
  exists w' ets,
    evaluate_each topics w = (w', Return ets) /\
    map topic ets = topics /\
    Forall (fun et =>
              evaluation et = default_eval \/
              exists w0 w1 ev,
                chain_invoke (Evaluator.prompt_variables (topic et)) w0
                = (w1, Return ev) /\
                evaluation et = fix_total ev) ets.
Proof.
  revert w. induction topics as [|t rest IH]; intros w.
  - exists w, []. repeat split; constructor.
  - destruct (evaluate_topic_cases t w) as [w1 [et [H1 [Ht Hcase]]]].
    destruct (IH w1) as [w2 [ets [H2 [Hmap Hall]]]].
    exists w2, (et :: ets).
    split; [now apply evaluate_each_cons with w1|].
    split; [simpl; congruence|].
    constructor; [|exact Hall].
    destruct Hcase as [[ev [Hc He]]|[e [Hc He]]]; [right|left; exact He].
    exists w, w1, ev. rewrite Ht. auto.
Qed.

Lemma evaluate_topics_sorts (topics : list ResearchTopic) (w w' : World)
  (ets : list EvaluatedTopic) :
  evaluate_each topics w = (w', Return ets) ->
  evaluate_topics topics w
  = (w', Return (sorted_key_reverse (fun x => total_score (evaluation x))
                                    ets)).
Proof.
  intros H. unfold Evaluator.evaluate_topics, bind, ret. now rewrite H.
Qed.


(** C3: [evaluate_topics] returns the evaluated topics, one per input
    topic, ordered by total score from the highest to the lowest; the
    entries of one total score are in the order of the input list. *)
Theorem evaluate_topics_sorted_stable (topics : list ResearchTopic)
  (w : World) :
  exists w' evaluated out,
    evaluate_each topics w = (w', Return evaluated) /\
    evaluate_topics topics w = (w', Return out) /\
    map topic evaluated = topics /\
    Permutation out evaluated /\
    StronglySorted
      (fun a b => total_score (evaluation a) >= total_score (evaluation b))
      out /\
    forall score : Z,
      filter (fun x => total_score (evaluation x) =? score) out
      = filter (fun x => total_score (evaluation x) =? score) evaluated.
Proof.
  destruct (evaluate_each_returns topics w) as [w' [ets [H [Hmap _]]]].
  exists w', ets. eexists.
  split; [exact H|]. split; [apply evaluate_topics_sorts; exact H|].
  split; [exact Hmap|]. split; [apply sorted_key_reverse_perm|].
  split.
  - apply (sorted_key_reverse_sorted (fun x => total_score (evaluation x))).
  - intros score.
    apply (sorted_key_reverse_stable
             (fun x => total_score (evaluation x))).
Qed.

End EvaluateTopics.

Section EvaluateTopicsWitness.
Import Generator Evaluator.


End EvaluateTopicsWitness.

(** ** Translation of the evaluated topics *)

Section TranslateTopics.
Import Generator Evaluator Translator.

Variable World : Type.
Variable chain_invoke :
  Translator.PromptVariables -> World -> World * outcome TranslatedContent.
Variable str_of_list : list string -> string.

Local Abbreviation prompt_variables :=
  (Translator.prompt_variables str_of_list).
Local Abbreviation translate_topic :=
  (translate_topic World chain_invoke str_of_list).
Local Abbreviation translate_topics :=
  (translate_topics World chain_invoke str_of_list).

(** What the loop appends for an entry. *)
Lemma translate_topic_cases (lang : string) (item : EvaluatedTopic)
  (w : World) :
  exists w' item',
    translate_topic lang item w = (w', Return item') /\
    ((exists tr, chain_invoke (prompt_variables lang item) w
                 = (w', Return tr) /\ item' = translated_entry item tr) \/
     (exists e, chain_invoke (prompt_variables lang item) w
                = (w', Raise e) /\ item' = item)).
Proof.
  unfold Translator.translate_topic, try_except, bind, ret.
  destruct (chain_invoke (prompt_variables lang item) w) as [w' [tr|e]];
    do 2 eexists; (split; [reflexivity|]); eauto.
Qed.

Lemma translate_topics_cons (lang : string) (item item' : EvaluatedTopic)
  (rest out : list EvaluatedTopic) (w w1 w2 : World) :
  translate_topic lang item w = (w1, Return item') ->
  translate_topics rest lang w1 = (w2, Return out) ->
  translate_topics (item :: rest) lang w = (w2, Return (item' :: out)).
Proof.
  intros H1 H2. cbn [Translator.translate_topics]. unfold bind, ret.
  now rewrite H1, H2.
Qed.

(** C6: [translate_topics] returns one entry per input entry, in order,
    and never raises; in each output entry the three scores, the total
    score and the related papers are those of the input entry.  When the
    model call for an entry fails, the entry itself is emitted and the
    loop goes on with the remaining entries. *)
Theorem translate_topics_preserves :
  (forall (items : list EvaluatedTopic) (lang : string) (w : World),
      exists w' out,
        translate_topics items lang w = (w', Return out) /\
        Forall2
          (fun item item' =>
             originality_score (evaluation item')
             = originality_score (evaluation item) /\
             feasibility_score (evaluation item')
             = feasibility_score (evaluation item) /\
             impact_score (evaluation item')
             = impact_score (evaluation item) /\
             total_score (evaluation item')
             = total_score (evaluation item) /\
             related_papers (topic item') = related_papers (topic item))
          items out) /\
  (forall (item : EvaluatedTopic) (rest : list EvaluatedTopic)
          (lang : string) (w w1 : World) (e : exn),
      chain_invoke (prompt_variables lang item) w = (w1, Raise e) ->
      exists w' out,
        translate_topics rest lang w1 = (w', Return out) /\
        translate_topics (item :: rest) lang w
        = (w', Return (item :: out))).
Proof.
  assert (forall items lang w,
             exists w' out,
               translate_topics items lang w = (w', Return out) /\
               Forall2
                 (fun item item' =>
                    originality_score (evaluation item')
                    = originality_score (evaluation item) /\
                    feasibility_score (evaluation item')
                    = feasibility_score (evaluation item) /\
                    impact_score (evaluation item')
                    = impact_score (evaluation item) /\
                    total_score (evaluation item')
                    = total_score (evaluation item) /\
                    related_papers (topic item')
                    = related_papers (topic item))
                 items out) as Hall.
  { intros items lang. induction items as [|item rest IH]; intros w.
    - exists w, []. split; [reflexivity|constructor].
    - destruct (translate_topic_cases lang item w)
        as [w1 [item' [H1 Hcase]]].
      destruct (IH w1) as [w2 [out [H2 Hf]]].
      exists w2, (item' :: out).
      split; [now apply translate_topics_cons with w1|].
      constructor; [|exact Hf].
      destruct Hcase as [[tr [_ ->]]|[e [_ ->]]]; repeat split. }
  split; [exact Hall|].
  intros item rest lang w w1 e Hfail.
  destruct (Hall rest lang w1) as [w' [out [H2 _]]].
  exists w', out. split; [exact H2|].
  apply translate_topics_cons with w1; [|exact H2].
  unfold Translator.translate_topic, try_except, bind, ret.
  now rewrite Hfail.
Qed.

End TranslateTopics.

Section TranslateTopicsWitness.
Import Generator Evaluator Translator.

Lemma translate_topics_preserves_witness :
  exists w' out,
    translate_topics ScenarioTopics.World
      ScenarioTopics.translator_chain_down ScenarioTopics.str_of_list
      [] "Korean" 1%nat = (w', Return out) /\
    translate_topics ScenarioTopics.World
      ScenarioTopics.translator_chain_down ScenarioTopics.str_of_list
      [ScenarioTopics.evaluated_a] "Korean" 0%nat
    = (w', Return (ScenarioTopics.evaluated_a :: out)).
Proof.
  apply (proj2 (translate_topics_preserves ScenarioTopics.World
                  ScenarioTopics.translator_chain_down
                  ScenarioTopics.str_of_list)
           ScenarioTopics.evaluated_a [] "Korean" 0%nat 1%nat
           (Exception "connection refused")).
  reflexivity.
Defined.

End TranslateTopicsWitness.

(** ** Generation of the topics *)

Section GenerateTopics.
Import Generator.

Variable World : Type.
Variable Json : Type.
Variable retriever_invoke :
  string -> World -> World * outcome (list Document).
Variable chain_invoke :
  Generator.PromptVariables -> World -> World * outcome string.
Variable json_loads : string -> outcome Json.
Variable TopicList_validate : Json -> outcome (list ResearchTopic).
Variable similarity_search :
  string -> nat -> World -> World * outcome (list Document).

Local Abbreviation retrieve_context :=
  (retrieve_context World retriever_invoke).
Local Abbreviation map_related_papers :=
  (map_related_papers World similarity_search).
Local Abbreviation map_all_related_papers :=
  (map_all_related_papers World similarity_search).
Local Abbreviation ask_and_parse :=
  (ask_and_parse World Json chain_invoke json_loads TopicList_validate
                 similarity_search).
Local Abbreviation generate_topics :=
  (generate_topics World Json retriever_invoke chain_invoke json_loads
                   TopicList_validate similarity_search).

(** Step 1 never raises. *)
Lemma retrieve_context_returns (keyword : string) (w : World) :
  exists w' context latest,
    retrieve_context keyword w = (w', Return (context, latest)).
Proof.
  unfold Generator.retrieve_context, try_except, bind, ret.
  destruct (retriever_invoke keyword w) as [w' [docs|e]]; eauto.
Qed.

Lemma map_all_related_papers_returns (topics : list ResearchTopic)
  (w : World) :
  exists w' topics',
    map_all_related_papers topics w = (w', Return topics').
Proof.
  revert w. induction topics as [|t rest IH]; intros w.
  - exists w, []. reflexivity.
  - cbn [Generator.map_all_related_papers].
    unfold Generator.map_related_papers, try_except, bind, ret.
    destruct (similarity_search (title t) 1%nat w) as [w1 [docs|e]];
      destruct (IH w1) as [w2 [rest' ->]]; eauto.
Qed.

(** Steps 3 to 6 never raise. *)
Lemma ask_and_parse_returns (variables : Generator.PromptVariables)
  (w : World) :
  exists w' topics, ask_and_parse variables w = (w', Return topics).
Proof.
  unfold Generator.ask_and_parse, try_except, bind at 1.
  destruct (chain_invoke variables w) as [w1 [raw|e]];
    [|unfold ret; eauto].
  destruct (obind (json_loads (clean raw)) TopicList_validate)
    as [topics|[msg|msg]]; try (unfold ret; eauto).
  destruct (map_all_related_papers_returns topics w1) as [w2 [ts ->]].
  eauto.
Qed.

(** [generate_topics] never raises. *)
Lemma generate_topics_returns (keyword : string) (n : Z) (w : World) :
  exists w' topics, generate_topics keyword n w = (w', Return topics).
Proof.
  unfold Generator.generate_topics, bind.
  destruct (retrieve_context_returns keyword w) as [w1 [c [l ->]]].
  apply ask_and_parse_returns.
Qed.

(** C4: whatever the retrieval gave, when the model answers and the
    cleaned answer does not parse as JSON, or parses and is rejected by
    the validation of the topic list, [generate_topics] returns the empty
    list; it does not raise. *)
Theorem generate_topics_parse_failure (keyword : string) (n : Z)
  (w : World) :
  exists w1 context latest,
    retrieve_context keyword w = (w1, Return (context, latest)) /\
    forall (w2 : World) (raw : string) (e : exn),
      chain_invoke (prompt_variables keyword n context latest) w1
      = (w2, Return raw) ->
      (json_loads (clean raw) = Raise e \/
       exists j, json_loads (clean raw) = Return j /\
                 TopicList_validate j = Raise e) ->
      generate_topics keyword n w = (w2, Return []).
Proof.
  destruct (retrieve_context_returns keyword w) as [w1 [c [l Hr]]].
  exists w1, c, l. split; [exact Hr|].
  intros w2 raw e Hc Hfail.
  unfold Generator.generate_topics, bind. rewrite Hr.
  unfold Generator.ask_and_parse, try_except, bind. rewrite Hc.
  assert (obind (json_loads (clean raw)) TopicList_validate = Raise e)
    as ->.
  { destruct Hfail as [->|[j [-> Hv]]]; [reflexivity|exact Hv]. }
  destruct e; reflexivity.
Qed.

(** C5: when the retrieval gives documents, [generate_topics] orders
    their metadata by year from the latest to the earliest, a document
    without year counting as year 0, keeps the first 5 of them, which no
    document left out is more recent than, and puts one line with the
    title of each into the digest of the latest papers that is handed to
    the model among the variables of the prompt. *)
Theorem generate_topics_latest_papers (keyword : string) (n : Z)
  (w w1 : World) (docs : list Document) :
  retriever_invoke keyword w = (w1, Return docs) ->
  exists sorted_docs : list Metadata,
    Permutation sorted_docs (map metadata docs) /\
    StronglySorted (fun a b => year_key a >= year_key b) sorted_docs /\
    (forall m, year_key m = match md_year m with
                            | Some year => year
                            | None => 0
                            end) /\
    (forall a b, In a (firstn 5 sorted_docs) ->
                 In b (skipn 5 sorted_docs) -> year_key a >= year_key b) /\
    (forall m t, md_title m = Some t ->
                 exists pre, latest_title m = pre ++ t) /\
    let context := join (newline ++ newline) (map page_content docs) in
    let digest := join newline (map latest_title (firstn 5 sorted_docs)) in
    latest_papers (prompt_variables keyword n context digest) = digest /\
    generate_topics keyword n w
    = ask_and_parse (prompt_variables keyword n context digest) w1.
Proof.
  intros Hr.
  exists (sorted_key_reverse year_key (map metadata docs)).
  split; [apply sorted_key_reverse_perm|].
  split; [apply sorted_key_reverse_sorted|].
  split; [reflexivity|].
  split; [apply sorted_key_reverse_firstn|].
  split.
  - intros m t Ht. unfold latest_title. rewrite Ht.
    exists ("- [" ++ match md_year m with
                     | Some year => str_of_int year
                     | None => "N/A"
                     end ++ "] ").
    now rewrite !append_assoc.
  - split; [reflexivity|].
    unfold Generator.generate_topics, bind at 1.
    unfold Generator.retrieve_context, try_except, bind, ret.
    rewrite Hr. reflexivity.
Qed.

End GenerateTopics.

Section GenerateTopicsWitnesses.
Import Generator.

Lemma generate_topics_parse_failure_witness :
  generate_topics ScenarioTopics.World string
    ScenarioTopics.retriever_invoke ScenarioTopics.generator_chain
    ScenarioTopics.json_loads ScenarioTopics.TopicList_validate
    ScenarioTopics.similarity_search "rag" 5 0%nat
  = (2%nat, Return []).
Proof.
  destruct (generate_topics_parse_failure ScenarioTopics.World string
              ScenarioTopics.retriever_invoke ScenarioTopics.generator_chain
              ScenarioTopics.json_loads ScenarioTopics.TopicList_validate
              ScenarioTopics.similarity_search "rag" 5 0%nat)
    as [w1 [context [latest [Hr Hfail]]]].
  injection Hr as <- <- <-.
  apply (Hfail 2%nat "<think>hm</think> no JSON here"
               (JSONDecodeError "Expecting value")).
  - reflexivity.
  - left. reflexivity.
Defined.

Lemma generate_topics_latest_papers_witness :
  exists sorted_docs : list Metadata,
    Permutation sorted_docs (map metadata ScenarioTopics.documents) /\
    StronglySorted (fun a b => year_key a >= year_key b) sorted_docs /\
    (forall m, year_key m = match md_year m with
                            | Some year => year
                            | None => 0
                            end) /\
    (forall a b, In a (firstn 5 sorted_docs) ->
                 In b (skipn 5 sorted_docs) -> year_key a >= year_key b) /\
    (forall m t, md_title m = Some t ->
                 exists pre, latest_title m = pre ++ t) /\
    let context :=
      join (newline ++ newline) (map page_content ScenarioTopics.documents) in
    let digest := join newline (map latest_title (firstn 5 sorted_docs)) in
    latest_papers (prompt_variables "rag" 5 context digest) = digest /\
    generate_topics ScenarioTopics.World string
      ScenarioTopics.retriever_invoke ScenarioTopics.generator_chain
      ScenarioTopics.json_loads ScenarioTopics.TopicList_validate
      ScenarioTopics.similarity_search "rag" 5 0%nat
    = ask_and_parse ScenarioTopics.World string
        ScenarioTopics.generator_chain
        ScenarioTopics.json_loads ScenarioTopics.TopicList_validate
        ScenarioTopics.similarity_search
        (prompt_variables "rag" 5 context digest) 1%nat.
Proof.
  apply (generate_topics_latest_papers ScenarioTopics.World string
           ScenarioTopics.retriever_invoke ScenarioTopics.generator_chain
           ScenarioTopics.json_loads ScenarioTopics.TopicList_validate
           ScenarioTopics.similarity_search "rag" 5 0%nat 1%nat
           ScenarioTopics.documents).
  reflexivity.
Defined.

End GenerateTopicsWitnesses.

(** ** The embedded functions on concrete inputs *)

Section Examples.
Import Spec.

Example reconstruct_abstract_any_order :
  Collector._reconstruct_abstract (Some [("b", [1]); ("a", [2; 0])]) = "a b a".
Proof. reflexivity. Qed.

Example paper_of_result_four_authors :
  Collector.paper_of_result Collector.AUTHORS_LIMIT Collector.INSTITUTIONS_LIMIT
    Scenario.result_four_authors
  = Return (Some Scenario.paper_four_authors).
Proof. reflexivity. Qed.

Example paper_of_result_no_abstract_dropped :
  Collector.paper_of_result Collector.AUTHORS_LIMIT Collector.INSTITUTIONS_LIMIT
    Scenario.result_no_abstract
  = Return None.
Proof. reflexivity. Qed.

Example split_keeps_lone_semicolons :
  split "; " (join "; " ["X;"; " Y"; ";"; "Z"])
  = Return ["X;"; " Y"; ";"; "Z"].
Proof. reflexivity. Qed.

Example range_step_five_by_two :
  Collector.range_step 5 2 = [0; 2; 4]%nat.
Proof. reflexivity. Qed.

Example sorted_key_reverse_keeps_ties :
  sorted_key_reverse fst [(1, "a"); (2, "b"); (1, "c"); (2, "d"); (3, "e")]
  = [(3, "e"); (2, "b"); (2, "d"); (1, "a"); (1, "c")].
Proof. reflexivity. Qed.

Example clean_think_and_fences :
  Generator.clean
    ("<think> plan" ++ Generator.newline ++ "</think>  ```json {} ``` ")
  = "{}".
Proof. reflexivity. Qed.

Example re_sub_think_unclosed :
  Generator.re_sub_think "a<think>b</think>c<think>d</think>e<think>f"
  = "ace<think>f".
Proof. reflexivity. Qed.

Example latest_papers_of_three :
  Generator.latest_papers_of ScenarioTopics.documents
  = "- [2023] T3" ++ Generator.newline ++ "- [2020] T1"
    ++ Generator.newline ++ "- [N/A] T2".
Proof. reflexivity. Qed.

Example insert_batch_third_time_lucky :
  Collector.insert_batch Scenario.World (Scenario.add_documents 2)
    Scenario.documents_XY 1 0 (0%nat, [])
  = ((3%nat, two_failures 0 Scenario.documents_XY), Return tt).
Proof. reflexivity. Qed.

Example create_vector_db_all_batches_fail :
  Collector.create_vector_db Scenario.World Scenario.chroma_open
    (Scenario.add_documents 7)
    [Scenario.paper_XY; Scenario.paper_no_authors] 1 (0%nat, [])
  = ((7%nat,
      (two_failures 0 [Collector.document_of_paper Scenario.paper_XY]
       ++ [Collector.ErrorAddingBatch 0 3; Collector.FailedBatchSkipping 0]
       ++ two_failures 1 [Collector.document_of_paper Scenario.paper_no_authors]
       ++ [Collector.ErrorAddingBatch 1 3; Collector.FailedBatchSkipping 1])%list),
     Return true).
Proof. reflexivity. Qed.

End Examples.

(* ================================================================= *)
(** * Part III: further properties of the code *)
(* ================================================================= *)

(** ** Abstract reconstruction gives back the text *)

Section ReconstructRoundTrip.
Import Collector Props.







End ReconstructRoundTrip.

(** ** The paper records *)

Section PaperRecord.
Import Collector Spec Props.

Lemma scan_authorship_authors (a : Authorship)
  (authors institutions authors' institutions' : list string) :
  scan_authorship a (authors, institutions) = Return (authors', institutions') ->
  authors' = (authors ++ author_names [a])%list.
Proof.
  unfold scan_authorship, author_names. cbn [flat_map].
  destruct (author a) as [| |au]; cbn [get_default]; try discriminate;
    destruct (Collector.institutions a); cbn [get_default]; try discriminate;
    intros H; inversion H; subst; cbn [get author_display_name];
    try (now rewrite app_nil_r).
  all: destruct (get (author_display_name au)) as [name|];
    [destruct (truthy_str (Some name))|]; now rewrite app_nil_r.
Qed.

Lemma scan_authorships_authors (l : list Authorship)
  (authors institutions authors' institutions' : list string) :
  scan_authorships l (authors, institutions) = Return (authors', institutions') ->
  authors' = (authors ++ author_names l)%list.
Proof.
  revert authors institutions.
  induction l as [|a l IH]; intros authors institutions;
    cbn [scan_authorships].
  - intros H. inversion H. now rewrite app_nil_r.
  - destruct (scan_authorship a (authors, institutions)) as [[au ins]|e] eqn:E;
      cbn [obind]; [|discriminate].
    intros H. apply IH in H. subst authors'.
    apply scan_authorship_authors in E. subst au.
    unfold author_names. cbn [flat_map]. simpl.
    now rewrite app_nil_r, <- app_assoc.
Qed.

Lemma author_names_length (l : list Authorship) :
  (List.length (author_names l) <= List.length l)%nat.
Proof.
  induction l as [|a l IH]; [simpl; lia|].
  unfold author_names in *. cbn [flat_map]. rewrite length_app.
  cbn [List.length].
  destruct (author a) as [| |au]; cbn [List.length]; try lia.
  destruct (get (author_display_name au)) as [name|]; cbn [List.length];
    [|lia].
  destruct (truthy_str (Some name)); cbn [List.length]; lia.
Qed.

Lemma author_names_not_empty (l : list Authorship) :
  Forall (fun name => name <> "") (author_names l).
Proof.
  rewrite Forall_forall. intros name Hin.
  apply in_flat_map in Hin. destruct Hin as [a [_ Hin]].
  destruct (author a) as [| |au]; try destruct Hin.
  destruct (get (author_display_name au)) as [n|]; [|destruct Hin].
  destruct n as [|c n]; simpl in Hin; [destruct Hin|].
  destruct Hin as [<-|[]]. discriminate.
Qed.

Lemma institution_names_not_empty (insts : list Institution) :
  Forall (fun name => name <> "") (institution_names insts).
Proof.
  rewrite Forall_forall. intros name Hin.
  apply in_flat_map in Hin. destruct Hin as [inst [_ Hin]].
  destruct (get (inst_display_name inst)) as [n|]; [|destruct Hin].
  destruct n as [|c n]; simpl in Hin; [destruct Hin|].
  destruct Hin as [<-|[]]. discriminate.
Qed.

Lemma nodup_firstn {A : Type} (n : nat) (l : list A) :
  NoDup l -> NoDup (firstn n l).
Proof.
  intros H. rewrite <- (firstn_skipn n l) in H.
  now apply NoDup_app_remove_r in H.
Qed.

(** What a paper record holds, in terms of the result it was built from. *)
Lemma paper_of_result_record (alim ilim : nat) (result : Result)
  (paper : Paper) :
  paper_of_result alim ilim result = Return (Some paper) ->
  exists authorships : list Authorship,
    get_default (Collector.authorships result) [] = Some authorships /\
    p_authors paper = author_names (firstn alim authorships) /\
    get (title result) = Some (p_title paper) /\
    p_title paper <> "" /\
    p_abstract paper
    = _reconstruct_abstract (get (abstract_inverted_index result)) /\
    p_abstract paper <> "" /\
    p_url paper = get (id result) /\
    p_publication_year paper = get (publication_year result).
Proof.
  unfold paper_of_result.
  destruct (get_default (Collector.authorships result) []) as [auths|];
    [|discriminate].
  destruct (scan_authorships (slice_to alim auths) ([], []))
    as [[au ins]|e] eqn:E; cbn [obind]; [|discriminate].
  apply scan_authorships_authors in E. cbn [app] in E. subst au.
  destruct (get (title result)) as [t|]; [|discriminate].
  destruct t as [|c t]; [discriminate|]. cbn [truthy_str andb].
  destruct (_reconstruct_abstract (get (abstract_inverted_index result)))
    as [|c' abs] eqn:Ea; [discriminate|].
  cbn [String.eqb negb]. intros H. inversion H; subst. cbn.
  exists auths. repeat split; try reflexivity; discriminate.
Qed.


Lemma scan_authorships_raises (l : list Authorship) (a : Authorship)
  (acc : list string * list string) :
  In a l -> null_in_authorship a ->
  exists e, scan_authorships l acc = Raise e.
Proof.
  revert acc. induction l as [|b l IH]; intros acc Hin Hnull; [destruct Hin|].
  cbn [scan_authorships]. destruct Hin as [->|Hin].
  - destruct acc as [authors institutions]. unfold scan_authorship.
    destruct Hnull as [H|H].
    + rewrite H. cbn. eauto.
    + destruct (author a); cbn [get_default]; [|cbn; eauto|];
        rewrite H; cbn; eauto.
  - destruct (scan_authorship b acc) as [acc'|e]; cbn [obind]; eauto.
Qed.

(** A [null] where a list or an object is expected makes the body of the
    loop raise. *)
Lemma paper_of_result_raises (alim ilim : nat) (result : Result) :
  authorships result = Null \/
  (exists auths a,
      authorships result = Present auths /\
      In a (firstn alim auths) /\ null_in_authorship a) ->
  exists e, paper_of_result alim ilim result = Raise e.
Proof.
  unfold paper_of_result. intros [H|[auths [a [H [Hin Hnull]]]]]; rewrite H.
  - cbn. eauto.
  - cbn [get_default].
    destruct (scan_authorships_raises _ a ([], []) Hin Hnull) as [e He].
    unfold slice_to. rewrite He. cbn. eauto.
Qed.

Lemma collect_papers_raises (alim ilim : nat) (results : list Result)
  (result : Result) (papers0 : list Paper) (e : exn) :
  In result results ->
  paper_of_result alim ilim result = Raise e ->
  exists e', collect_papers alim ilim results papers0 = Raise e'.
Proof.
  revert papers0. induction results as [|r results IH]; intros papers0 Hin Hr;
    [destruct Hin|].
  cbn [collect_papers]. destruct Hin as [->|Hin].
  - rewrite Hr. cbn. eauto.
  - destruct (paper_of_result alim ilim r) as [p|e0]; cbn [obind]; eauto.
Qed.

End PaperRecord.

(** ** More on [fetch_papers] *)

Section FetchPapersMore.
Import Collector Spec Props.

Variable World : Type.
Variable requests_get : string -> Z -> World -> World * outcome ResponseData.
Variable makedirs : World -> World * outcome unit.
Variable csv_write : string -> list CsvRow -> World -> World * outcome unit.

Local Abbreviation fetch_papers :=
  (fetch_papers World requests_get makedirs csv_write).

(** X2: every paper returned by [fetch_papers] has a title and an abstract
    that are not empty, at most 3 authors and at most 3 institutions, all
    with names that are not empty, and no institution twice. *)
Theorem fetch_papers_record_invariants (keyword : string) (limit : Z)
  (w : World) (log : list event) (s' : St World) (papers : list Paper)
  (paper : Paper) :
  fetch_papers keyword limit (w, log) = (s', Return papers) ->
  In paper papers ->
  p_title paper <> "" /\
  p_abstract paper <> "" /\
  (List.length (p_authors paper) <= 3)%nat /\
  (List.length (p_institutions paper) <= 3)%nat /\
  Forall (fun name => name <> "") (p_authors paper) /\
  Forall (fun name => name <> "") (p_institutions paper) /\
  NoDup (p_institutions paper).
Proof.
  intros Hfetch Hin.
  destruct (fetch_papers_collects _ _ _ _ _ _ _ _ _ _ Hfetch)
    as [->|[w1 [data [results [_ [_ Hcol]]]]]]; [destruct Hin|].
  destruct (collect_papers_origin _ _ _ _ _ Hcol paper Hin)
    as [[]|[result [_ Hp]]].
  destruct (paper_of_result_record _ _ _ _ Hp)
    as [auths [_ [Hau [_ [Ht [_ [Hab _]]]]]]].
  destruct (paper_of_result_institutions _ _ _ _ Hp) as [auths' [_ Hi]].
  split; [exact Ht|]. split; [exact Hab|].
  split.
  { rewrite Hau.
    eapply Nat.le_trans; [apply author_names_length|apply firstn_le_length]. }
  split; [rewrite Hi; apply firstn_le_length|].
  split; [rewrite Hau; apply author_names_not_empty|].
  split.
  - rewrite Hi, Forall_forall. intros name Hname.
    apply in_firstn in Hname. apply in_dedup_onto in Hname.
    destruct Hname as [[]|Hname].
    apply in_flat_map in Hname. destruct Hname as [a [_ Hname]].
    unfold authorship_institution_names in Hname.
    destruct (institutions a) as [| |insts]; try destruct Hname.
    pose proof (institution_names_not_empty insts) as Hne.
    rewrite Forall_forall in Hne. now apply Hne.
  - rewrite Hi. apply nodup_firstn. apply nodup_dedup_onto. constructor.
Qed.

(** X3: every paper returned by [fetch_papers] is built from an API result:
    its authors are the display names of the first 3 authorships that have
    one, in order and with repetitions; its title, URL and year are those
    of the result and its abstract is the reconstruction of the inverted
    index of the result. *)
Theorem fetch_papers_record_content (keyword : string) (limit : Z)
  (w : World) (log : list event) (s' : St World) (papers : list Paper)
  (paper : Paper) :
  fetch_papers keyword limit (w, log) = (s', Return papers) ->
  In paper papers ->
  exists w1 data results result authorships,
    requests_get keyword limit w = (w1, Return data) /\
    get_default (Collector.results data) [] = Some results /\
    In result results /\
    get_default (Collector.authorships result) [] = Some authorships /\
    p_authors paper = author_names (firstn 3 authorships) /\
    get (title result) = Some (p_title paper) /\
    p_abstract paper
    = _reconstruct_abstract (get (abstract_inverted_index result)) /\
    p_url paper = get (id result) /\
    p_publication_year paper = get (publication_year result).
Proof.
  intros Hfetch Hin.
  destruct (fetch_papers_collects _ _ _ _ _ _ _ _ _ _ Hfetch)
    as [->|[w1 [data [results [Hget [Hres Hcol]]]]]]; [destruct Hin|].
  destruct (collect_papers_origin _ _ _ _ _ Hcol paper Hin)
    as [[]|[result [Hr Hp]]].
  destruct (paper_of_result_record _ _ _ _ Hp)
    as [auths [Ha [Hau [Ht [_ [Hab [_ [Hu Hy]]]]]]]].
  exists w1, data, results, result, auths. repeat split; assumption.
Qed.


(** X5: one result with [null] authorships, or with a [null] author or
    [null] institutions in one of its first 3 authorships, makes
    [fetch_papers] return the empty list, whatever the other results hold;
    nothing is written and the only call made is the request. *)
Theorem fetch_papers_null_loses_all (keyword : string) (limit : Z)
  (w w1 : World) (log : list event) (data : ResponseData)
  (results : list Result) (result : Result) :
  requests_get keyword limit w = (w1, Return data) ->
  get_default (Collector.results data) [] = Some results ->
  In result results ->
  authorships result = Null \/
  (exists auths a,
      authorships result = Present auths /\
      In a (firstn 3 auths) /\ null_in_authorship a) ->
  fetch_papers keyword limit (w, log) = ((w1, log), Return []).
Proof.
  intros Hget Hres Hin Hnull.
  destruct (paper_of_result_raises AUTHORS_LIMIT INSTITUTIONS_LIMIT
              result Hnull) as [e He].
  destruct (collect_papers_raises _ _ _ _ [] _ Hin He) as [e' Hc].
  unfold Collector.fetch_papers, try_except, bind at 1, call at 1.
  rewrite Hget, Hres. unfold bind at 1, lift. rewrite Hc. reflexivity.
Qed.

(** X6: when papers were collected, a failure to make the output directory
    makes [fetch_papers] return the empty list, while a failure to write
    the CSV file leaves the answer as it is. *)
Theorem fetch_papers_csv_failures (keyword : string) (limit : Z)
  (w w1 w2 : World) (log : list event) (data : ResponseData)
  (results : list Result) (papers : list Paper) (r : outcome unit) :
  requests_get keyword limit w = (w1, Return data) ->
  get_default (Collector.results data) [] = Some results ->
  collect_papers AUTHORS_LIMIT INSTITUTIONS_LIMIT results [] = Return papers ->
  papers <> [] ->
  makedirs w1 = (w2, r) ->
  match r with
  | Raise _ => fetch_papers keyword limit (w, log) = ((w2, log), Return [])
  | Return _ =>
      forall (w3 : World) (r' : outcome unit),
        csv_write keyword (map csv_row papers) w2 = (w3, r') ->
        fetch_papers keyword limit (w, log) = ((w3, log), Return papers)
  end.
Proof.
  intros Hget Hres Hcol Hne Hmk.
  destruct papers as [|p papers]; [contradiction|].
  destruct r as [[]|e]; [intros w3 r' Hw|];
    unfold Collector.fetch_papers, try_except, bind at 1, call at 1;
    rewrite Hget, Hres; unfold bind at 1, lift; rewrite Hcol;
    unfold Collector.save_papers_to_csv;
    unfold bind, try_except, call, ret; rewrite Hmk; [|reflexivity].
  rewrite Hw. destruct r' as [[]|e]; reflexivity.
Qed.

(** X7: [fetch_papers] never raises; when the request itself fails, it
    returns the empty list and makes no other call. *)
Theorem fetch_papers_never_raises (keyword : string) (limit : Z)
  (w : World) (log : list event) :
  (exists s' papers,
      fetch_papers keyword limit (w, log) = (s', Return papers)) /\
  (forall w1 e,
      requests_get keyword limit w = (w1, Raise e) ->
      fetch_papers keyword limit (w, log) = ((w1, log), Return [])).
Proof.
  split; [apply fetch_papers_returns|].
  intros w1 e Hget.
  unfold Collector.fetch_papers, try_except, bind at 1, call at 1.
  now rewrite Hget.
Qed.

End FetchPapersMore.

Section FetchPapersMoreWitnesses.
Import Collector Spec Props.

Lemma fetch_papers_record_invariants_witness :
  p_title Scenario.paper_four_authors <> "" /\
  p_abstract Scenario.paper_four_authors <> "" /\
  (List.length (p_authors Scenario.paper_four_authors) <= 3)%nat /\
  (List.length (p_institutions Scenario.paper_four_authors) <= 3)%nat /\
  Forall (fun name => name <> "") (p_authors Scenario.paper_four_authors) /\
  Forall (fun name => name <> "")
         (p_institutions Scenario.paper_four_authors) /\
  NoDup (p_institutions Scenario.paper_four_authors).
Proof.
  apply (fetch_papers_record_invariants
           Scenario.World
           (Scenario.requests_get
              {| results := Present [Scenario.result_four_authors] |})
           Scenario.makedirs Scenario.csv_write
           "rag" 10 0%nat [] (3%nat, []) [Scenario.paper_four_authors]).
  - reflexivity.
  - left. reflexivity.
Defined.

Lemma fetch_papers_record_content_witness :
  exists w1 data results result authorships,
    Scenario.requests_get
      {| results := Present [Scenario.result_four_authors] |} "rag" 10 0%nat
    = (w1, Return data) /\
    get_default (Collector.results data) [] = Some results /\
    In result results /\
    get_default (Collector.authorships result) [] = Some authorships /\
    p_authors Scenario.paper_four_authors
    = author_names (firstn 3 authorships) /\
    get (title result) = Some (p_title Scenario.paper_four_authors) /\
    p_abstract Scenario.paper_four_authors
    = _reconstruct_abstract (get (abstract_inverted_index result)) /\
    p_url Scenario.paper_four_authors = get (id result) /\
    p_publication_year Scenario.paper_four_authors
    = get (publication_year result).
Proof.
  apply (fetch_papers_record_content
           Scenario.World
           (Scenario.requests_get
              {| results := Present [Scenario.result_four_authors] |})
           Scenario.makedirs Scenario.csv_write
           "rag" 10 0%nat [] (3%nat, []) [Scenario.paper_four_authors]).
  - reflexivity.
  - left. reflexivity.
Defined.


Lemma fetch_papers_null_loses_all_witness :
  fetch_papers Scenario.World
    (Scenario.requests_get
       {| results := Present [Scenario.result_four_authors;
                              Scenario.result_null_authorships] |})
    Scenario.makedirs Scenario.csv_write "rag" 10 (0%nat, [])
  = ((1%nat, []), Return []).
Proof.
  apply (fetch_papers_null_loses_all
           Scenario.World
           (Scenario.requests_get
              {| results := Present [Scenario.result_four_authors;
                                     Scenario.result_null_authorships] |})
           Scenario.makedirs Scenario.csv_write "rag" 10 0%nat 1%nat []
           {| results := Present [Scenario.result_four_authors;
                                  Scenario.result_null_authorships] |}
           [Scenario.result_four_authors; Scenario.result_null_authorships]
           Scenario.result_null_authorships).
  - reflexivity.
  - reflexivity.
  - right. left. reflexivity.
  - left. reflexivity.
Defined.

Lemma fetch_papers_csv_failures_witness :
  fetch_papers Scenario.World
    (Scenario.requests_get
       {| results := Present [Scenario.result_four_authors] |})
    Scenario.makedirs_denied Scenario.csv_write "rag" 10 (0%nat, [])
  = ((2%nat, []), Return []) /\
  fetch_papers Scenario.World
    (Scenario.requests_get
       {| results := Present [Scenario.result_four_authors] |})
    Scenario.makedirs Scenario.csv_write_denied "rag" 10 (0%nat, [])
  = ((3%nat, []), Return [Scenario.paper_four_authors]).
Proof.
  split.
  - apply (fetch_papers_csv_failures
             Scenario.World
             (Scenario.requests_get
                {| results := Present [Scenario.result_four_authors] |})
             Scenario.makedirs_denied Scenario.csv_write
             "rag" 10 0%nat 1%nat 2%nat []
             {| results := Present [Scenario.result_four_authors] |}
             [Scenario.result_four_authors] [Scenario.paper_four_authors]
             (Raise (Exception "permission denied")));
      try reflexivity. discriminate.
  - apply (fetch_papers_csv_failures
             Scenario.World
             (Scenario.requests_get
                {| results := Present [Scenario.result_four_authors] |})
             Scenario.makedirs Scenario.csv_write_denied
             "rag" 10 0%nat 1%nat 2%nat []
             {| results := Present [Scenario.result_four_authors] |}
             [Scenario.result_four_authors] [Scenario.paper_four_authors]
             (Return tt) eq_refl eq_refl eq_refl
             ltac:(discriminate) eq_refl
             3%nat (Raise (Exception "disk full"))).
    reflexivity.
Defined.

Lemma fetch_papers_never_raises_witness :
  fetch_papers Scenario.World Scenario.requests_get_down
    Scenario.makedirs Scenario.csv_write "rag" 10 (0%nat, [])
  = ((1%nat, []), Return []).
Proof.
  apply (proj2 (fetch_papers_never_raises
                  Scenario.World Scenario.requests_get_down
                  Scenario.makedirs Scenario.csv_write "rag" 10 0%nat [])
           1%nat (Exception "connection error")).
  reflexivity.
Defined.

End FetchPapersMoreWitnesses.

(** ** The documents of the vector store *)

(** ** Texts and their characters *)

Section Characters.
Import PropsChars.

Lemma unchars_app (a b : list string) :
  unchars (a ++ b) = unchars a ++ unchars b.
Proof.
  induction a as [|c a IH]; [reflexivity|].
  cbn [unchars app]. now rewrite IH, append_assoc.
Qed.

(** [chars] cuts the text and loses nothing. *)
Lemma unchars_chars (s : string) : unchars (chars s) = s.
Proof.
  induction s as [|b rest IH]; [reflexivity|].
  cbn [chars]. destruct (chars rest) as [|c cs].
  - cbn in *. now rewrite <- IH.
  - destruct (starts_with_continuation c); cbn in *; now rewrite <- IH.
Qed.

Lemma chars_nil (s : string) : chars s = [] -> s = "".
Proof.
  intros H. rewrite <- (unchars_chars s), H. reflexivity.
Qed.

(** The first piece starts as the text does. *)
Lemma chars_head (s c : string) (cs : list string) :
  chars s = c :: cs ->
  starts_with_continuation c = starts_with_continuation s.
Proof.
  destruct s as [|b rest]; [discriminate|]. cbn [chars].
  destruct (chars rest) as [|c' cs'].
  - intros H. injection H as <- _. reflexivity.
  - destruct (starts_with_continuation c'); intros H; injection H as <- _;
      reflexivity.
Qed.

Lemma continuation_piece (c : string) :
  piece c = true -> starts_with_continuation c = true ->
  continuation_bytes c = true.
Proof.
  destruct c as [|b t]; [discriminate|]. cbn. now intros -> ->.
Qed.

Lemma chars_pieces (s : string) : pieces (chars s).
Proof.
  induction s as [|b rest IH]; [exact I|].
  cbn [chars]. destruct (chars rest) as [|c cs]; [now split|].
  destruct IH as [Hc Hcs].
  destruct (starts_with_continuation c) eqn:E.
  - split; [|exact Hcs]. cbn. now apply continuation_piece.
  - split; [reflexivity|]. constructor; [|exact Hcs].
    unfold character. now rewrite Hc, E.
Qed.

Lemma character_piece (c : string) : character c = true -> piece c = true.
Proof.
  unfold character. intros H. now apply andb_true_iff in H.
Qed.

Lemma pieces_app_l (a b : list string) : pieces (a ++ b) -> pieces a.
Proof.
  destruct a as [|c a]; [intros _; exact I|].
  cbn. intros [Hc H]. split; [exact Hc|].
  apply Forall_app in H. apply H.
Qed.

Lemma pieces_app_r (a b : list string) : pieces (a ++ b) -> pieces b.
Proof.
  destruct a as [|c a]; [trivial|].
  cbn. intros [_ H]. apply Forall_app in H. destruct H as [_ H].
  destruct b as [|d b]; [exact I|].
  inversion H as [|? ? Hd Hb]; subst. split; [|exact Hb].
  now apply character_piece.
Qed.

Lemma chars_String (b : ascii) (rest : string) :
  chars (String b rest)
  = match chars rest with
    | c :: cs =>
        if starts_with_continuation c
        then String b c :: cs
        else String b "" :: c :: cs
    | [] => [String b ""]
    end.
Proof. reflexivity. Qed.

(** A byte, some continuation bytes and then characters. *)
Lemma chars_cons (b : ascii) (t : string) (cs : list string) :
  continuation_bytes t = true ->
  chars (unchars cs) = cs ->
  match cs with
  | c :: _ => starts_with_continuation c = false
  | [] => True
  end ->
  chars (String b (t ++ unchars cs)) = String b t :: cs.
Proof.
  intros Ht Hcs Hhd. revert b.
  induction t as [|b' t IH]; intros b.
  - cbn [append]. rewrite chars_String, Hcs.
    destruct cs as [|c cs]; [reflexivity|]. now rewrite Hhd.
  - cbn in Ht. apply andb_true_iff in Ht. destruct Ht as [Hb' Ht].
    change (String b (String b' t ++ unchars cs))
      with (String b (String b' (t ++ unchars cs))).
    rewrite chars_String, (IH Ht b').
    cbn [starts_with_continuation]. now rewrite Hb'.
Qed.

Lemma chars_unchars_characters (cs : list string) :
  Forall (fun c => character c = true) cs -> chars (unchars cs) = cs.
Proof.
  induction 1 as [|c cs Hc Hcs IH]; [reflexivity|].
  destruct c as [|b t]; [discriminate|].
  unfold character in Hc. apply andb_true_iff in Hc. destruct Hc as [Ht _].
  cbn [unchars]. change (String b t ++ unchars cs)
    with (String b (t ++ unchars cs)).
  apply chars_cons; [exact Ht|exact IH|].
  destruct cs as [|c' cs']; [exact I|].
  inversion Hcs as [|? ? Hc' _]; subst.
  unfold character in Hc'. apply andb_true_iff in Hc'.
  destruct Hc' as [_ Hc']. now apply negb_true_iff in Hc'.
Qed.

(** Pieces put together are cut into the same pieces. *)
Lemma chars_unchars (cs : list string) :
  pieces cs -> chars (unchars cs) = cs.
Proof.
  destruct cs as [|c cs]; [reflexivity|]. intros [Hc Hcs].
  destruct c as [|b t]; [discriminate|].
  cbn [unchars]. change (String b t ++ unchars cs)
    with (String b (t ++ unchars cs)).
  apply chars_cons; [exact Hc|now apply chars_unchars_characters|].
  destruct cs as [|c' cs']; [exact I|].
  inversion Hcs as [|? ? Hc' _]; subst.
  unfold character in Hc'. apply andb_true_iff in Hc'.
  destruct Hc' as [_ Hc']. now apply negb_true_iff in Hc'.
Qed.

(** The characters of a slice are the first characters of the text. *)
Lemma chars_str_slice_to (n : nat) (s : string) :
  chars (str_slice_to n s) = firstn n (chars s).
Proof.
  unfold str_slice_to. apply chars_unchars.
  apply (pieces_app_l _ (skipn n (chars s))).
  rewrite firstn_skipn. apply chars_pieces.
Qed.

Lemma len_str_slice_to (n : nat) (s : string) :
  len (str_slice_to n s) = Nat.min n (len s).
Proof.
  unfold len. rewrite chars_str_slice_to. apply length_firstn.
Qed.

Lemma prefix_append (a b : string) : prefix a (a ++ b) = true.
Proof.
  induction a as [|c a IH]; [now destruct b|].
  cbn [append prefix]. destruct (ascii_dec c c); [exact IH|contradiction].
Qed.

Lemma prefix_str_slice_to (n : nat) (s : string) :
  prefix (str_slice_to n s) s = true.
Proof.
  unfold str_slice_to. pose proof (unchars_chars s) as H.
  rewrite <- (firstn_skipn n (chars s)), unchars_app in H.
  set (a := unchars (firstn n (chars s))) in *.
  rewrite <- H. apply prefix_append.
Qed.

(** The length counts the bytes that start a character, and one more for
    a text that starts with a continuation byte. *)
Lemma len_starts (s : string) :
  len s
  = (starts s + if starts_with_continuation s then 1 else 0)%nat.
Proof.
  unfold len. induction s as [|b rest IH]; [reflexivity|].
  cbn [chars starts starts_with_continuation].
  destruct (chars rest) as [|c cs] eqn:E.
  - apply chars_nil in E. subst rest. cbn.
    destruct (is_continuation b); reflexivity.
  - rewrite <- (chars_head _ _ _ E) in IH.
    destruct (starts_with_continuation c); cbn [List.length] in *;
      destruct (is_continuation b); lia.
Qed.

Lemma starts_append (a b : string) :
  starts (a ++ b) = (starts a + starts b)%nat.
Proof.
  induction a as [|c a IH]; [reflexivity|].
  cbn [append starts]. rewrite IH. lia.
Qed.

Lemma len_append_le (a b : string) : (len (a ++ b) <= len a + len b)%nat.
Proof.
  rewrite !len_starts, starts_append.
  destruct a as [|c a]; cbn [append starts_with_continuation];
    [|destruct (is_continuation c)];
    destruct (starts_with_continuation b); lia.
Qed.

End Characters.

Section Documents.
Import Collector Props.

Lemma string_length_append (s1 s2 : string) :
  String.length (s1 ++ s2) = (String.length s1 + String.length s2)%nat.
Proof.
  induction s1 as [|c s1 IH]; simpl; [reflexivity|now rewrite IH].
Qed.

(** X8: the text of a document is the title line and the abstract line.
    An abstract of at most 1000 characters is there in full; a longer one
    is cut to its first 1000 characters, followed by the truncation
    marker.  So the text has at most 1032 characters more than the
    title.  Characters are counted, not bytes. *)
Theorem document_of_paper_bounded (paper : Paper) :
  (len (page_content (document_of_paper paper))
   <= len (p_title paper) + 1032)%nat /\
  ((len (p_abstract paper) <= 1000)%nat ->
   page_content (document_of_paper paper)
   = "Title: " ++ p_title paper ++ newline ++ "Abstract: "
     ++ p_abstract paper) /\
  ((1000 < len (p_abstract paper))%nat ->
   page_content (document_of_paper paper)
   = "Title: " ++ p_title paper ++ newline ++ "Abstract: "
     ++ str_slice_to 1000 (p_abstract paper) ++ "...(truncated)" /\
   chars (str_slice_to 1000 (p_abstract paper))
   = firstn 1000 (chars (p_abstract paper)) /\
   len (str_slice_to 1000 (p_abstract paper)) = 1000%nat /\
   prefix (str_slice_to 1000 (p_abstract paper)) (p_abstract paper) = true).
Proof.
  unfold document_of_paper, truncate_abstract. cbn [page_content].
  assert (forall raw,
             (len raw <= 1014)%nat ->
             (len ("Title: " ++ p_title paper ++ newline ++ "Abstract: "
                   ++ raw)
              <= len (p_title paper) + 1032)%nat) as Hbound.
  { intros raw Hraw.
    pose proof (len_append_le "Title: "
                  (p_title paper ++ newline ++ "Abstract: " ++ raw)) as H1.
    pose proof (len_append_le (p_title paper)
                  (newline ++ "Abstract: " ++ raw)) as H2.
    pose proof (len_append_le newline ("Abstract: " ++ raw)) as H3.
    pose proof (len_append_le "Abstract: " raw) as H4.
    change (len "Title: ") with 7%nat in H1.
    change (len newline) with 1%nat in H3.
    change (len "Abstract: ") with 10%nat in H4. lia. }
  destruct (1000 <? len (p_abstract paper))%nat eqn:E.
  - apply Nat.ltb_lt in E. split; [|split].
    + apply Hbound.
      pose proof (len_append_le (str_slice_to 1000 (p_abstract paper))
                    "...(truncated)") as H.
      rewrite len_str_slice_to in H.
      change (len "...(truncated)") with 14%nat in H. lia.
    + intros H. lia.
    + intros _. split; [reflexivity|]. split; [apply chars_str_slice_to|].
      split; [rewrite len_str_slice_to; lia|apply prefix_str_slice_to].
  - apply Nat.ltb_ge in E. split; [|split].
    + apply Hbound. lia.
    + reflexivity.
    + intros H. lia.
Qed.

Lemma document_of_paper_bounded_witness :
  page_content (document_of_paper Scenario.paper_korean_abstract)
  = "Title: " ++ p_title Scenario.paper_korean_abstract ++ newline
    ++ "Abstract: " ++ p_abstract Scenario.paper_korean_abstract /\
  len (str_slice_to 1000 (p_abstract Scenario.paper_long_abstract))
  = 1000%nat.
Proof.
  split.
  - apply (proj1 (proj2 (document_of_paper_bounded
                           Scenario.paper_korean_abstract))).
    vm_compute. lia.
  - apply (proj2 (proj2 (document_of_paper_bounded
                           Scenario.paper_long_abstract))).
    vm_compute. lia.
Defined.

(** Cutting a list into [n] slices of [size] elements loses nothing when
    [n] slices are enough. *)
Lemma concat_slices {A : Type} (size n : nat) (l : list A) :
  (List.length l <= n * size)%nat ->
  List.concat (map (fun k => firstn size (skipn (k * size) l)) (seq 0 n)) = l.
Proof.
  revert l. induction n as [|n IH]; intros l Hlen.
  - destruct l; [reflexivity|simpl in Hlen; lia].
  - cbn [seq map List.concat]. rewrite <- seq_shift, map_map.
    cbn [Nat.mul Nat.add skipn].
    transitivity (firstn size l ++ skipn size l)%list; [|apply firstn_skipn].
    f_equal.
    transitivity
      (List.concat
         (map (fun k => firstn size (skipn (k * size) (skipn size l)))
              (seq 0 n))).
    + f_equal. apply map_ext. intros k.
      rewrite skipn_skipn. f_equal. f_equal. lia.
    + apply IH. rewrite length_skipn. lia.
Qed.

Lemma batch_count_enough (total size : nat) :
  size <> O -> (total <= (total + size - 1) / size * size)%nat.
Proof.
  intros Hs.
  pose proof (Nat.mul_succ_div_gt (total + size - 1) size Hs). lia.
Qed.

Lemma batches_concat (documents : list Document) (batch_size : nat) :
  batch_size <> O ->
  List.concat (batches documents batch_size) = documents.
Proof.
  intros Hs. unfold batches, range_step. rewrite map_map.
  apply concat_slices. now apply batch_count_enough.
Qed.

(** X9: for a batch size that is not 0, the batches of [create_vector_db]
    put together are the documents: no document is left out or taken
    twice; every batch has at least one and at most [batch_size]
    documents. *)
Theorem batches_partition (documents : list Document) (batch_size : nat) :
  batch_size <> O ->
  List.concat (batches documents batch_size) = documents /\
  Forall (fun batch =>
            (1 <= List.length batch <= batch_size)%nat)
         (batches documents batch_size).
Proof.
  intros Hs. unfold batches, range_step. rewrite map_map. split.
  - apply concat_slices. now apply batch_count_enough.
  - rewrite Forall_forall. intros batch Hin.
    apply in_map_iff in Hin. destruct Hin as [k [<- Hk]].
    apply in_seq in Hk.
    pose proof (Nat.Div0.mul_div_le (List.length documents + batch_size - 1)
                  batch_size) as Hq.
    rewrite length_firstn, length_skipn. nia.
Qed.

Lemma batches_partition_witness :
  List.concat (batches (map document_of_paper
                       [Scenario.paper_XY; Scenario.paper_no_authors;
                        Scenario.paper_four_authors]) 2)
  = map document_of_paper
        [Scenario.paper_XY; Scenario.paper_no_authors;
         Scenario.paper_four_authors] /\
  Forall (fun batch => (1 <= List.length batch <= 2)%nat)
         (batches (map document_of_paper
                       [Scenario.paper_XY; Scenario.paper_no_authors;
                        Scenario.paper_four_authors]) 2).
Proof.
  apply batches_partition. discriminate.
Defined.

End Documents.

(** ** The whole insertion into the vector store *)

Section CreateVectorDbMore.
Import Collector Spec Props.

Variable World : Type.
Variable chroma_open : World -> World * outcome unit.
Variable add_documents : list Document -> World -> World * outcome unit.

Local Abbreviation insert_batch := (insert_batch World add_documents).
Local Abbreviation insert_batches := (insert_batches World add_documents).
Local Abbreviation create_vector_db :=
  (create_vector_db World chroma_open add_documents).

Lemma sleep_seconds_app (l1 l2 : list event) :
  sleep_seconds (l1 ++ l2) = sleep_seconds l1 + sleep_seconds l2.
Proof.
  unfold sleep_seconds. induction l1 as [|e l1 IH]; simpl; [reflexivity|].
  rewrite IH. destruct e; lia.
Qed.

Lemma inserted_batches_app (l1 l2 : list event) :
  inserted_batches (l1 ++ l2)
  = (inserted_batches l1 ++ inserted_batches l2)%list.
Proof. apply flat_map_app. Qed.

(** What one batch adds to the log. *)
Lemma insert_batch_log (documents : list Document) (batch_size i : nat)
  (w : World) (log : list event) :
  exists w' new,
    insert_batch documents batch_size i (w, log)
    = ((w', log ++ new)%list, Return tt) /\
    (attempts new <= 3)%nat /\
    sleep_seconds new <= 10.
Proof.
  set (batch := firstn batch_size (skipn i documents)).
  unfold Collector.insert_batch. fold batch.
  change (seq 0 max_retries) with [0; 1; 2]%nat.
  rewrite (retry_loop_cons World add_documents).
  destruct (add_documents batch w) as [w1 [[]|e1]].
  { exists w1. eexists. split; [reflexivity|]. split; cbv; [lia|discriminate]. }
  rewrite (retry_loop_cons World add_documents).
  destruct (add_documents batch w1) as [w2 [[]|e2]].
  { exists w2. eexists. rewrite <- app_assoc. split; [reflexivity|].
    split; cbv; [lia|discriminate]. }
  rewrite (retry_loop_cons World add_documents).
  destruct (add_documents batch w2) as [w3 [[]|e3]];
    exists w3; eexists; cbn [Collector.retry_loop ret];
    rewrite <- !app_assoc; (split; [reflexivity|]);
    split; cbv; try lia; discriminate.
Qed.

Lemma insert_batches_log (documents : list Document) (batch_size : nat)
  (starts : list nat) (w : World) (log : list event) :
  exists w' new,
    insert_batches documents batch_size starts (w, log)
    = ((w', log ++ new)%list, Return tt) /\
    (attempts new <= 3 * List.length starts)%nat /\
    sleep_seconds new <= 10 * Z.of_nat (List.length starts).
Proof.
  revert w log. induction starts as [|i rest IH]; intros w log.
  - exists w, []. rewrite app_nil_r. repeat split; cbv; [lia|discriminate].
  - destruct (insert_batch_log documents batch_size i w log)
      as [w1 [new1 [H1 [Ha1 Hs1]]]].
    destruct (IH w1 (log ++ new1)%list) as [w2 [new2 [H2 [Ha2 Hs2]]]].
    exists w2, (new1 ++ new2)%list.
    rewrite (insert_batches_cons World add_documents _ _ _ _ _ _ H1), H2.
    rewrite app_assoc. split; [reflexivity|].
    rewrite attempts_app, sleep_seconds_app. cbn [List.length]. lia.
Qed.

Lemma insert_batches_all_succeed (documents : list Document)
  (batch_size : nat) (starts : list nat) (w : World) (log : list event) :
  (forall batch w0, exists w1, add_documents batch w0 = (w1, Return tt)) ->
  exists w',
    insert_batches documents batch_size starts (w, log)
    = ((w', log ++ map (fun i =>
                          AddDocuments i (firstn batch_size (skipn i documents)))
                       starts)%list, Return tt).
Proof.
  intros Hok. revert w log. induction starts as [|i rest IH]; intros w log.
  - exists w. cbn [map]. now rewrite app_nil_r.
  - destruct (Hok (firstn batch_size (skipn i documents)) w) as [w1 H1].
    assert (insert_batch documents batch_size i (w, log)
            = ((w1, log ++ [AddDocuments i
                              (firstn batch_size (skipn i documents))])%list,
               Return tt)) as Hb.
    { unfold Collector.insert_batch.
      change (seq 0 max_retries) with [0; 1; 2]%nat.
      rewrite (retry_loop_cons World add_documents). now rewrite H1. }
    rewrite (insert_batches_cons World add_documents _ _ _ _ _ _ Hb).
    destruct (IH w1 (log ++ [AddDocuments i
                               (firstn batch_size (skipn i documents))])%list)
      as [w' ->].
    exists w'. cbn [map]. now rewrite <- app_assoc.
Qed.

Lemma inserted_batches_map (documents : list Document) (batch_size : nat)
  (starts : list nat) :
  inserted_batches
    (map (fun i => AddDocuments i (firstn batch_size (skipn i documents)))
         starts)
  = map (fun i => firstn batch_size (skipn i documents)) starts.
Proof.
  induction starts as [|i rest IH]; [reflexivity|].
  cbn [map]. unfold inserted_batches in *. cbn [flat_map app].
  now rewrite IH.
Qed.

Lemma no_sleep_in_insertions (documents : list Document) (batch_size : nat)
  (starts : list nat) :
  sleep_seconds
    (map (fun i => AddDocuments i (firstn batch_size (skipn i documents)))
         starts) = 0 /\
  attempts
    (map (fun i => AddDocuments i (firstn batch_size (skipn i documents)))
         starts) = List.length starts.
Proof.
  induction starts as [|i rest [IH1 IH2]]; [split; reflexivity|].
  split.
  - cbn [map]. unfold sleep_seconds in *. cbn [fold_right]. exact IH1.
  - cbn [map]. unfold attempts in *. cbn [filter List.length]. now rewrite IH2.
Qed.

(** X10: when the store opens and every insertion succeeds,
    [create_vector_db] returns the store after handing it every document
    exactly once, in the order of the papers, with one call per batch and
    no pause. *)
Theorem create_vector_db_all_inserted (papers : list Paper)
  (batch_size : nat) (w w1 : World) (log : list event) :
  papers <> [] -> batch_size <> O ->
  chroma_open w = (w1, Return tt) ->
  (forall batch w0, exists w2, add_documents batch w0 = (w2, Return tt)) ->
  exists w' new,
    create_vector_db papers batch_size (w, log)
    = ((w', log ++ new)%list, Return true) /\
    List.concat (inserted_batches new) = map document_of_paper papers /\
    attempts new
    = List.length (batches (map document_of_paper papers) batch_size) /\
    sleep_seconds new = 0.
Proof.
  intros Hp Hb Ho Hok. unfold Collector.create_vector_db.
  destruct papers as [|p papers]; [contradiction|].
  destruct batch_size as [|b]; [contradiction|].
  set (documents := map document_of_paper (p :: papers)).
  unfold bind at 1, call. rewrite Ho. unfold bind, ret.
  destruct (insert_batches_all_succeed documents (S b)
              (range_step (List.length documents) (S b)) w1 log Hok)
    as [w' ->].
  exists w'. eexists. split; [reflexivity|].
  rewrite inserted_batches_map.
  destruct (no_sleep_in_insertions documents (S b)
              (range_step (List.length documents) (S b))) as [Hs Ha].
  split; [|split; [|exact Hs]].
  - apply (batches_concat documents (S b)). discriminate.
  - rewrite Ha. unfold batches. now rewrite length_map.
Qed.

(** X11: when the store opens, [create_vector_db] returns the store
    whatever the insertions do, after at most 3 calls and at most 10
    seconds of pause per batch; it returns no store only for an empty list
    of papers, without any call; a failure to open the store is raised to
    the caller before any insertion. *)
Theorem create_vector_db_bounds (papers : list Paper) (batch_size : nat)
  (w w1 : World) (log : list event) (r : outcome unit) :
  batch_size <> O ->
  chroma_open w = (w1, r) ->
  match papers, r with
  | [], _ => create_vector_db papers batch_size (w, log)
             = ((w, log), Return false)
  | _, Raise e => create_vector_db papers batch_size (w, log)
                  = ((w1, log), Raise e)
  | _, Return _ =>
      exists w' new,
        create_vector_db papers batch_size (w, log)
        = ((w', log ++ new)%list, Return true) /\
        (attempts new
         <= 3 * List.length (batches (map document_of_paper papers)
                                     batch_size))%nat /\
        sleep_seconds new
        <= 10 * Z.of_nat (List.length (batches (map document_of_paper papers)
                                               batch_size))
  end.
Proof.
  intros Hb Ho. destruct papers as [|p papers]; [reflexivity|].
  destruct batch_size as [|b]; [contradiction|].
  set (documents := map document_of_paper (p :: papers)).
  destruct r as [[]|e]; unfold Collector.create_vector_db;
    unfold bind at 1, call; rewrite Ho; [|reflexivity].
  fold documents. unfold bind, ret.
  destruct (insert_batches_log documents (S b)
              (range_step (List.length documents) (S b)) w1 log)
    as [w' [new [-> [Ha Hs]]]].
  exists w', new. split; [reflexivity|].
  unfold batches. rewrite length_map. auto.
Qed.

End CreateVectorDbMore.

Section CreateVectorDbMoreWitnesses.
Import Collector Spec Props.

Lemma create_vector_db_all_inserted_witness :
  exists w' new,
    create_vector_db Scenario.World Scenario.chroma_open
      (Scenario.add_documents 0)
      [Scenario.paper_XY; Scenario.paper_no_authors] 1 (0%nat, [])
    = ((w', [] ++ new)%list, Return true) /\
    List.concat (inserted_batches new)
    = map document_of_paper [Scenario.paper_XY; Scenario.paper_no_authors] /\
    attempts new
    = List.length
        (batches (map document_of_paper
                      [Scenario.paper_XY; Scenario.paper_no_authors]) 1) /\
    sleep_seconds new = 0.
Proof.
  apply (create_vector_db_all_inserted
           Scenario.World Scenario.chroma_open (Scenario.add_documents 0)
           [Scenario.paper_XY; Scenario.paper_no_authors] 1
           0%nat 1%nat []).
  - discriminate.
  - discriminate.
  - reflexivity.
  - intros batch w0. exists (S w0). reflexivity.
Defined.

Lemma create_vector_db_bounds_witness :
  (exists w' new,
      create_vector_db Scenario.World Scenario.chroma_open
        (Scenario.add_documents 7)
        [Scenario.paper_XY; Scenario.paper_no_authors] 1 (0%nat, [])
      = ((w', [] ++ new)%list, Return true) /\
      (attempts new
       <= 3 * List.length
                (batches (map document_of_paper
                              [Scenario.paper_XY; Scenario.paper_no_authors])
                         1))%nat /\
      sleep_seconds new
      <= 10 * Z.of_nat
                (List.length
                   (batches (map document_of_paper
                                 [Scenario.paper_XY;
                                  Scenario.paper_no_authors]) 1))) /\
  create_vector_db Scenario.World Scenario.chroma_open_fails
    (Scenario.add_documents 0) [Scenario.paper_XY] 1 (0%nat, [])
  = ((1%nat, []), Raise (Exception "no such directory")).
Proof.
  split.
  - apply (create_vector_db_bounds
             Scenario.World Scenario.chroma_open (Scenario.add_documents 7)
             [Scenario.paper_XY; Scenario.paper_no_authors] 1
             0%nat 1%nat [] (Return tt)).
    + discriminate.
    + reflexivity.
  - apply (create_vector_db_bounds
             Scenario.World Scenario.chroma_open_fails
             (Scenario.add_documents 0)
             [Scenario.paper_XY] 1
             0%nat 1%nat [] (Raise (Exception "no such directory"))).
    + discriminate.
    + reflexivity.
Defined.

End CreateVectorDbMoreWitnesses.

(** ** Cleaning of the answer of the model *)

Section Clean.
Import Generator PropsTopics.

(** [lstrip] drops a prefix, and leaves no whitespace at the start. *)
Lemma lstrip_suffix (cs : list string) :
  exists pre,
    cs = (pre ++ lstrip cs)%list /\ Forall (fun c => isspace c = true) pre.
Proof.
  induction cs as [|c cs [pre [IH Hpre]]];
    [exists []; split; [reflexivity|constructor]|].
  cbn [lstrip]. destruct (isspace c) eqn:E.
  - exists (c :: pre). split; [cbn; now rewrite <- IH|now constructor].
  - exists []. split; [reflexivity|constructor].
Qed.

Lemma lstrip_no_space (cs : list string) :
  match lstrip cs with
  | c :: _ => isspace c
  | [] => false
  end = false.
Proof.
  induction cs as [|c cs IH]; [reflexivity|].
  cbn [lstrip]. destruct (isspace c) eqn:E; [exact IH|exact E].
Qed.

Lemma lstrip_fixed (cs : list string) :
  match cs with
  | c :: _ => isspace c
  | [] => false
  end = false ->
  lstrip cs = cs.
Proof.
  destruct cs as [|c cs]; [reflexivity|]. cbn. now intros ->.
Qed.

(** The characters of [strip s]: those of [s] without some characters at
    the start and some at the end. *)
Lemma chars_strip (s : string) :
  chars (strip s) = rev (lstrip (rev (lstrip (chars s)))) /\
  exists pre post,
    chars s = (pre ++ chars (strip s) ++ post)%list /\
    Forall (fun c => isspace c = true) pre /\
    Forall (fun c => isspace c = true) post.
Proof.
  destruct (lstrip_suffix (chars s)) as [pre [Hpre Hspre]].
  destruct (lstrip_suffix (rev (lstrip (chars s)))) as [post [Hpost Hspost]].
  set (l := lstrip (rev (lstrip (chars s)))) in *.
  assert (lstrip (chars s) = (rev l ++ rev post)%list) as Hm.
  { rewrite <- rev_app_distr, <- Hpost. now rewrite rev_involutive. }
  assert (chars (strip s) = rev l) as Hc.
  { unfold strip. fold l. apply chars_unchars.
    apply (pieces_app_l _ (rev post)). rewrite <- Hm.
    apply (pieces_app_r pre). rewrite <- Hpre. apply chars_pieces. }
  split; [exact Hc|].
  exists pre, (rev post). rewrite Hc, <- Hm.
  split; [exact Hpre|]. split; [exact Hspre|]. now apply Forall_rev.
Qed.

(** [strip] gives a text without whitespace at either end. *)
Lemma strip_trimmed (s : string) :
  starts_with_space (strip s) = false /\ ends_with_space (strip s) = false.
Proof.
  unfold starts_with_space, ends_with_space.
  destruct (chars_strip s) as [-> _]. rewrite rev_involutive.
  split; [|apply lstrip_no_space].
  destruct (lstrip_suffix (rev (lstrip (chars s)))) as [post [Hpost _]].
  set (l := lstrip (rev (lstrip (chars s)))) in *.
  assert (lstrip (chars s) = (rev l ++ rev post)%list) as Hm.
  { rewrite <- rev_app_distr, <- Hpost. now rewrite rev_involutive. }
  pose proof (lstrip_no_space (chars s)) as Hn. rewrite Hm in Hn.
  destruct (rev l) as [|c r]; [reflexivity|exact Hn].
Qed.

(** Stripping twice is stripping once. *)
Lemma strip_idempotent (s : string) : strip (strip s) = strip s.
Proof.
  destruct (strip_trimmed s) as [H1 H2].
  unfold starts_with_space in H1. unfold ends_with_space in H2.
  unfold strip at 1.
  rewrite (lstrip_fixed _ H1), (lstrip_fixed _ H2), rev_involutive.
  apply unchars_chars.
Qed.

(** [strip] takes off whitespace characters, and all those at the ends. *)
Lemma strip_stripped (s : string) : stripped s (strip s).
Proof.
  destruct (strip_trimmed s) as [H1 H2]. split; [exact H1|].
  split; [exact H2|]. apply chars_strip.
Qed.

(** Whitespace is taken off by character: an ideographic space at the
    start and a no-break space at the end go, and a letter whose last byte
    is the byte of a no-break space stays whole. *)
Example strip_by_character :
  strip (utf8 12288 ++ " {} " ++ utf8 224 ++ utf8 160 ++ newline)
  = "{} " ++ utf8 224.
Proof. reflexivity. Qed.

(** X12: whatever the model answers, the text that [generate_topics] hands
    to the JSON parser has no whitespace at its start or at its end. *)
Theorem clean_trimmed (raw_content : string) :
  starts_with_space (clean raw_content) = false /\
  ends_with_space (clean raw_content) = false.
Proof.
  unfold clean. apply strip_trimmed.
Qed.

Lemma prefix_app_l (x a b : string) :
  prefix x a = true -> prefix x (a ++ b) = true.
Proof.
  revert a. induction x as [|c x IH]; intros a;
    [now destruct (a ++ b)|].
  destruct a as [|d a]; [discriminate|]. cbn [prefix append].
  destruct (ascii_dec c d); [apply IH|discriminate].
Qed.

Lemma contains_app_l (x a b : string) :
  contains x a = true -> contains x (a ++ b) = true.
Proof.
  induction a as [|d a IH].
  - cbn [contains]. rewrite orb_false_r. intros H.
    destruct x; [now destruct b|discriminate].
  - cbn [contains append]. intros H. apply orb_true_iff in H.
    apply orb_true_iff. destruct H as [H|H].
    + left. now apply (prefix_app_l x (String d a) b).
    + right. now apply IH.
Qed.

Lemma contains_app_r (x a b : string) :
  contains x b = true -> contains x (a ++ b) = true.
Proof.
  intros H. induction a as [|d a IH]; [exact H|].
  cbn [contains append]. fold (contains x (a ++ b)). rewrite IH.
  apply orb_true_r.
Qed.

(** [strip] gives a piece of the text. *)
Lemma strip_piece (s : string) : exists pre post, s = pre ++ strip s ++ post.
Proof.
  destruct (chars_strip s) as [_ [pre [post [H _]]]].
  exists (unchars pre), (unchars post).
  rewrite <- (unchars_chars s) at 1. rewrite H, !unchars_app.
  now rewrite unchars_chars.
Qed.

Lemma contains_strip (x s : string) :
  contains x s = false -> contains x (strip s) = false.
Proof.
  intros H. destruct (strip_piece s) as [pre [post Hs]].
  destruct (contains x (strip s)) eqn:E; [|reflexivity].
  rewrite Hs in H. rewrite contains_app_r in H; [discriminate|].
  now apply contains_app_l.
Qed.

(** Replacing a text that does not occur changes nothing. *)
Lemma replace_absent (old new s : string) :
  contains old s = false -> replace old new s = s.
Proof.
  unfold replace. induction s as [|c s IH]; [reflexivity|].
  cbn [contains]. intros H. apply orb_false_iff in H. destruct H as [Hp Hc].
  cbn [replace_go]. rewrite Hp. now rewrite (IH Hc).
Qed.

Lemma contains_longer (x y s : string) :
  contains x s = false -> contains (x ++ y) s = false.
Proof.
  intros H. destruct (contains (x ++ y) s) eqn:E; [|reflexivity].
  exfalso. revert H E. induction s as [|c s IH]; cbn [contains]; intros H E.
  - rewrite orb_false_r in *. destruct x; [discriminate|discriminate].
  - apply orb_false_iff in H. destruct H as [Hp Hc].
    apply orb_true_iff in E. destruct E as [E|E]; [|exact (IH Hc E)].
    assert (prefix x (String c s) = true) as Hx; [|congruence].
    clear -E. revert E. generalize (String c s) as t.
    induction x as [|d x IHx]; intros t E; [now destruct t|].
    destruct t as [|d' t]; [discriminate|]. cbn [append prefix] in *.
    destruct (ascii_dec d d'); [now apply IHx|discriminate].
Qed.

(** X13: an answer without reasoning tag and without code fence goes to
    the JSON parser as it is, but for the whitespace characters at its two
    ends, which are all taken off. *)
Theorem clean_plain_answer (raw_content : string) :
  contains "<think>" raw_content = false ->
  contains "```" raw_content = false ->
  clean raw_content = strip raw_content /\
  stripped raw_content (clean raw_content).
Proof.
  intros Ht Hf.
  assert (clean raw_content = strip raw_content) as ->.
  { unfold clean. rewrite Ht.
    rewrite (replace_absent "```json" "" raw_content)
      by (apply (contains_longer "```" "json"); exact Hf).
    now rewrite (replace_absent "```" "" raw_content). }
  split; [reflexivity|apply strip_stripped].
Qed.

Lemma clean_plain_answer_witness :
  clean (utf8 12288 ++ "{} " ++ utf8 224 ++ newline)
  = strip (utf8 12288 ++ "{} " ++ utf8 224 ++ newline) /\
  stripped (utf8 12288 ++ "{} " ++ utf8 224 ++ newline)
    (clean (utf8 12288 ++ "{} " ++ utf8 224 ++ newline)).
Proof.
  apply clean_plain_answer; reflexivity.
Defined.

End Clean.

(** ** Removal of the reasoning block *)

Section ReasoningBlock.
Import Generator PropsTopics.

Lemma prefix_app_long (x a b : string) :
  (String.length x <= String.length a)%nat ->
  prefix x (a ++ b) = prefix x a.
Proof.
  revert a. induction x as [|c x IH]; intros a Hlen.
  - destruct a; [now destruct b|reflexivity].
  - destruct a as [|d a]; [simpl in Hlen; lia|].
    cbn [append prefix]. destruct (ascii_dec c d); [|reflexivity].
    apply IH. simpl in Hlen. lia.
Qed.

Lemma index_0_cons (x : string) (c : ascii) (s : string) :
  index 0 x (String c s)
  = if prefix x (String c s) then Some O
    else match index 0 x s with
         | Some n => Some (S n)
         | None => None
         end.
Proof. reflexivity. Qed.

(** The first closing tag after a block without closing tag. *)
Lemma index_closing_tag (body rest : string) :
  contains "</think>" (body ++ "</think") = false ->
  index 0 "</think>" (body ++ "</think>" ++ rest)
  = Some (String.length body).
Proof.
  induction body as [|c body IH]; intros H.
  - change ("" ++ "</think>" ++ rest)
      with (String "<" ("/think>" ++ rest)).
    rewrite index_0_cons.
    change (String "<" ("/think>" ++ rest)) with ("</think>" ++ rest).
    now rewrite (prefix_app_l "</think>" "</think>" rest).
  - change (String c body ++ "</think")
      with (String c (body ++ "</think")) in H.
    cbn [contains] in H. apply orb_false_iff in H. destruct H as [Hp Hc].
    change (String c body ++ "</think>" ++ rest)
      with (String c (body ++ "</think>" ++ rest)).
    rewrite index_0_cons.
    assert (prefix "</think>" (String c (body ++ "</think>" ++ rest)) = false)
      as ->.
    { change ("</think>" ++ rest) with ("</think" ++ ">" ++ rest).
      rewrite <- append_assoc.
      change (String c ((body ++ "</think") ++ ">" ++ rest))
        with (String c (body ++ "</think") ++ ">" ++ rest).
      rewrite prefix_app_long; [exact Hp|].
      cbn [String.length]. rewrite string_length_append.
      change (String.length "</think") with 7%nat.
      change (String.length "</think>") with 8%nat. lia. }
    now rewrite (IH Hc).
Qed.

Lemma re_sub_think_go_skip (a b : string) :
  re_sub_think_go (String.length a) (a ++ b) = re_sub_think_go O b.
Proof.
  induction a as [|c a IH]; [reflexivity|]. exact IH.
Qed.

Lemma re_sub_think_absent (s : string) :
  contains "<think>" s = false -> re_sub_think s = s.
Proof.
  unfold re_sub_think. induction s as [|c s IH]; [reflexivity|].
  cbn [contains]. intros H. apply orb_false_iff in H. destruct H as [Hp Hc].
  cbn [re_sub_think_go]. rewrite Hp. now rewrite (IH Hc).
Qed.

Lemma re_sub_think_block (body rest : string) :
  contains "</think>" (body ++ "</think") = false ->
  re_sub_think ("<think>" ++ body ++ "</think>" ++ rest)
  = re_sub_think rest.
Proof.
  intros H. unfold re_sub_think.
  set (s' := "think>" ++ body ++ "</think>" ++ rest).
  change ("<think>" ++ body ++ "</think>" ++ rest) with (String "<" s').
  cbn [re_sub_think_go].
  assert (prefix "<think>" (String "<" s') = true) as ->.
  { apply (prefix_app_l "<think>" "<think>"). reflexivity. }
  assert (index 7 "</think>" (String "<" s')
          = Some (7 + String.length body)%nat) as ->.
  { unfold s'.
    change (String "<" ("think>" ++ body ++ "</think>" ++ rest))
      with (String "<" (String "t" (String "h" (String "i" (String "n"
             (String "k" (String ">" (body ++ "</think>" ++ rest)))))))).
    cbn [index]. fold (index 0 "</think>" (body ++ "</think>" ++ rest)).
    now rewrite (index_closing_tag body rest H). }
  replace (7 + String.length body + 8 - 1)%nat
    with (String.length ("think>" ++ body ++ "</think>")).
  - unfold s'.
    replace ("think>" ++ body ++ "</think>" ++ rest)
      with (("think>" ++ body ++ "</think>") ++ rest).
    + apply re_sub_think_go_skip.
    + now rewrite !append_assoc.
  - rewrite !string_length_append.
    change (String.length "think>") with 6%nat.
    change (String.length "</think>") with 8%nat. lia.
Qed.

(** X14: an answer that starts with a reasoning block, closed by the first
    closing tag, and goes on with a text without reasoning tag and without
    code fence is handed to the JSON parser as that text, without the
    block and without the whitespace at its ends. *)
Theorem clean_reasoning_block (body rest : string) :
  contains "</think>" (body ++ "</think") = false ->
  contains "<think>" rest = false ->
  contains "```" rest = false ->
  clean ("<think>" ++ body ++ "</think>" ++ rest) = strip rest /\
  stripped rest (clean ("<think>" ++ body ++ "</think>" ++ rest)).
Proof.
  intros Hb Ht Hf.
  assert (clean ("<think>" ++ body ++ "</think>" ++ rest) = strip rest)
    as ->; [|split; [reflexivity|apply strip_stripped]].
  unfold clean.
  assert (contains "<think>" ("<think>" ++ body ++ "</think>" ++ rest) = true)
    as ->.
  { apply contains_app_l. reflexivity. }
  rewrite (re_sub_think_block body rest Hb), (re_sub_think_absent rest Ht).
  pose proof (contains_strip "```" rest Hf) as Hf'.
  rewrite (replace_absent "```json" "" (strip rest))
    by (apply (contains_longer "```" "json"); exact Hf').
  rewrite (replace_absent "```" "" (strip rest) Hf').
  apply strip_idempotent.
Qed.

Lemma clean_reasoning_block_witness :
  clean ("<think>" ++ "is 1 < 2 ?" ++ "</think>"
         ++ (" {} " ++ utf8 224 ++ utf8 160))
  = strip (" {} " ++ utf8 224 ++ utf8 160) /\
  stripped (" {} " ++ utf8 224 ++ utf8 160)
    (clean ("<think>" ++ "is 1 < 2 ?" ++ "</think>"
            ++ (" {} " ++ utf8 224 ++ utf8 160))).
Proof.
  apply clean_reasoning_block; reflexivity.
Defined.

End ReasoningBlock.

(** ** Removal of the code fences *)

Section CodeFences.
Import Generator PropsTopics.

Lemma replace_go_skip (old new a b : string) :
  replace_go old new (String.length a) (a ++ b) = replace_go old new O b.
Proof.
  induction a as [|c a IH]; [reflexivity|]. exact IH.
Qed.

Lemma prefix_other_char (d c : ascii) (x s : string) :
  d <> c -> prefix (String d x) (String c s) = false.
Proof.
  intros H. cbn [prefix]. destruct (ascii_dec d c); [contradiction|reflexivity].
Qed.

Lemma no_backtick_cons (c : ascii) (s : string) :
  contains "`" (String c s) = false ->
  "`"%char <> c /\ contains "`" s = false.
Proof.
  cbn [contains prefix]. intros H. apply orb_false_iff in H.
  destruct H as [Hp Hc]. split; [|exact Hc].
  intros <-. destruct (ascii_dec "`" "`"); [|contradiction].
  now destruct s.
Qed.

(** A text without backtick followed by a closing fence holds no opening
    fence, and loses the closing fence. *)
Lemma closing_fence (body : string) :
  contains "`" body = false ->
  contains "```json" (body ++ "```") = false /\
  replace "```" "" (body ++ "```") = body.
Proof.
  unfold replace. induction body as [|c body IH]; intros H.
  - split; reflexivity.
  - apply no_backtick_cons in H. destruct H as [Hc Hb].
    destruct (IH Hb) as [IH1 IH2].
    change (String c body ++ "```") with (String c (body ++ "```")).
    split.
    + cbn [contains]. rewrite IH1.
      now rewrite (prefix_other_char "`" c _ _ Hc).
    + cbn [replace_go]. rewrite (prefix_other_char "`" c _ _ Hc).
      now rewrite IH2.
Qed.

(** X15: an answer that is a text without backtick between an opening
    fence with the word json and a closing fence is handed to the JSON
    parser as that text, without the whitespace at its ends. *)
Theorem clean_fenced_answer (body : string) :
  contains "<think>" ("```json" ++ body ++ "```") = false ->
  contains "`" body = false ->
  clean ("```json" ++ body ++ "```") = strip body /\
  stripped body (clean ("```json" ++ body ++ "```")).
Proof.
  intros Ht Hb.
  assert (clean ("```json" ++ body ++ "```") = strip body)
    as ->; [|split; [reflexivity|apply strip_stripped]].
  unfold clean. rewrite Ht.
  destruct (closing_fence body Hb) as [H1 H2].
  assert (replace "```json" "" ("```json" ++ body ++ "```") = body ++ "```")
    as ->.
  { unfold replace.
    change ("```json" ++ body ++ "```")
      with (String "`" ("``json" ++ body ++ "```")).
    cbn [replace_go].
    assert (prefix "```json" (String "`" ("``json" ++ body ++ "```")) = true)
      as ->.
    { apply (prefix_app_l "```json" "```json"). reflexivity. }
    change (pred (String.length "```json")) with (String.length "``json").
    rewrite (replace_go_skip "```json" "" "``json" (body ++ "```")).
    apply (replace_absent "```json" "" (body ++ "```") H1). }
  now rewrite H2.
Qed.

Lemma clean_fenced_answer_witness :
  clean ("```json" ++ (newline ++ "{" ++ utf8 54620 ++ "}" ++ newline)
         ++ "```")
  = strip (newline ++ "{" ++ utf8 54620 ++ "}" ++ newline) /\
  stripped (newline ++ "{" ++ utf8 54620 ++ "}" ++ newline)
    (clean ("```json" ++ (newline ++ "{" ++ utf8 54620 ++ "}" ++ newline)
            ++ "```")).
Proof.
  apply clean_fenced_answer; reflexivity.
Defined.

End CodeFences.

(** ** More on [generate_topics] *)

Section GenerateTopicsMore.
Import Generator PropsTopics.

Variable World : Type.
Variable Json : Type.
Variable retriever_invoke :
  string -> World -> World * outcome (list Document).
Variable chain_invoke :
  Generator.PromptVariables -> World -> World * outcome string.
Variable json_loads : string -> outcome Json.
Variable TopicList_validate : Json -> outcome (list ResearchTopic).
Variable similarity_search :
  string -> nat -> World -> World * outcome (list Document).

Local Abbreviation retrieve_context :=
  (retrieve_context World retriever_invoke).
Local Abbreviation map_all_related_papers :=
  (map_all_related_papers World similarity_search).
Local Abbreviation ask_and_parse :=
  (ask_and_parse World Json chain_invoke json_loads TopicList_validate
                 similarity_search).
Local Abbreviation generate_topics :=
  (generate_topics World Json retriever_invoke chain_invoke json_loads
                   TopicList_validate similarity_search).

(** The topics keep their order and their text; each gets the papers of
    its own lookup, or none when the lookup fails. *)
Lemma map_all_related_papers_frame (topics : list ResearchTopic)
  (w : World) :
  exists w' out,
    map_all_related_papers topics w = (w', Return out) /\
    Forall2
      (fun t t' =>
         same_text t t' /\
         (related_papers t' = [] \/
          exists w0 w1 docs,
            similarity_search (title t) 1%nat w0 = (w1, Return docs) /\
            related_papers t' = map related_paper_of docs))
      topics out.
Proof.
  revert w. induction topics as [|t rest IH]; intros w.
  - exists w, []. split; [reflexivity|constructor].
  - cbn [Generator.map_all_related_papers].
    unfold Generator.map_related_papers, try_except, bind, ret.
    destruct (similarity_search (title t) 1%nat w) as [w1 [docs|e]] eqn:E;
      destruct (IH w1) as [w2 [out [-> Hf]]];
      do 2 eexists; (split; [reflexivity|]);
      (constructor; [|exact Hf]); (split; [repeat split|]).
    + right. exists w, w1, docs. auto.
    + left. reflexivity.
Qed.

(** X16: [generate_topics] never raises.  When the retrieval fails, the
    model is still asked, with the two fixed texts in place of the context
    and of the latest papers; when the call of the model fails, the
    result is the empty list. *)
Theorem generate_topics_failures (keyword : string) (n : Z) (w : World) :
  (exists w' topics, generate_topics keyword n w = (w', Return topics)) /\
  (forall w1 e,
      retriever_invoke keyword w = (w1, Raise e) ->
      generate_topics keyword n w
      = ask_and_parse
          (prompt_variables keyword n "No specific context provided."
                            "No latest papers found.") w1) /\
  (forall w1 context latest w2 e,
      retrieve_context keyword w = (w1, Return (context, latest)) ->
      chain_invoke (prompt_variables keyword n context latest) w1
      = (w2, Raise e) ->
      generate_topics keyword n w = (w2, Return [])).
Proof.
  split; [|split].
  - apply generate_topics_returns.
  - intros w1 e Hr. unfold Generator.generate_topics, bind at 1.
    unfold Generator.retrieve_context, try_except, bind, ret.
    now rewrite Hr.
  - intros w1 context latest w2 e Hr Hc.
    unfold Generator.generate_topics, bind. rewrite Hr.
    unfold Generator.ask_and_parse, try_except, bind. now rewrite Hc.
Qed.

(** Each topic is looked up in the state that the lookup before it
    left. *)
Lemma map_all_related_papers_lookups (topics : list ResearchTopic)
  (w : World) :
  exists w' out,
    map_all_related_papers topics w = (w', Return out) /\
    lookups similarity_search w topics out w'.
Proof.
  revert w. induction topics as [|t rest IH]; intros w.
  - exists w, []. split; [reflexivity|constructor].
  - cbn [Generator.map_all_related_papers].
    unfold Generator.map_related_papers, try_except, bind, ret.
    destruct (similarity_search (title t) 1%nat w) as [w1 [docs|e]] eqn:E;
      destruct (IH w1) as [w2 [out [-> Hl]]]; do 2 eexists;
      (split; [reflexivity|]).
    + eapply lookups_found; [exact E| |reflexivity|exact Hl].
      repeat split.
    + eapply lookups_failed; [exact E| |reflexivity|exact Hl].
      repeat split.
Qed.

(** X17: when the answer of the model parses into topics, the result of
    [generate_topics] is these topics, in order, each with its text as the
    model gave it.  The related papers of the answer itself are never
    kept: after the parsing each topic is looked up in the store by its
    title, for one document, in the state that the lookup before it left,
    and it gets the papers of the documents found, or none when this
    lookup raises; a failed lookup does not stop the others. *)
Theorem generate_topics_related_papers (keyword : string) (n : Z)
  (w w1 w2 : World) (context latest raw : string) (j : Json)
  (topics : list ResearchTopic) :
  retrieve_context keyword w = (w1, Return (context, latest)) ->
  chain_invoke (prompt_variables keyword n context latest) w1
  = (w2, Return raw) ->
  json_loads (clean raw) = Return j ->
  TopicList_validate j = Return topics ->
  exists w' out,
    generate_topics keyword n w = (w', Return out) /\
    lookups similarity_search w2 topics out w'.
Proof.
  intros Hr Hc Hj Hv.
  destruct (map_all_related_papers_lookups topics w2) as [w' [out [Hm Hl]]].
  exists w', out. split; [|exact Hl].
  unfold Generator.generate_topics, bind. rewrite Hr.
  unfold Generator.ask_and_parse, try_except, bind. rewrite Hc, Hj.
  cbn [obind]. rewrite Hv. now rewrite Hm.
Qed.

End GenerateTopicsMore.

Section GenerateTopicsMoreWitnesses.
Import Generator PropsTopics.

Lemma generate_topics_failures_witness :
  generate_topics ScenarioTopics.World string
    ScenarioTopics.retriever_down ScenarioTopics.generator_chain_down
    ScenarioTopics.json_loads ScenarioTopics.TopicList_validate
    ScenarioTopics.similarity_search "rag" 5 0%nat
  = ask_and_parse ScenarioTopics.World string
      ScenarioTopics.generator_chain_down
      ScenarioTopics.json_loads ScenarioTopics.TopicList_validate
      ScenarioTopics.similarity_search
      (prompt_variables "rag" 5 "No specific context provided."
                        "No latest papers found.") 1%nat /\
  generate_topics ScenarioTopics.World string
    ScenarioTopics.retriever_down ScenarioTopics.generator_chain_down
    ScenarioTopics.json_loads ScenarioTopics.TopicList_validate
    ScenarioTopics.similarity_search "rag" 5 0%nat
  = (2%nat, Return []).
Proof.
  split.
  - apply (proj1 (proj2 (generate_topics_failures
                           ScenarioTopics.World string
                           ScenarioTopics.retriever_down
                           ScenarioTopics.generator_chain_down
                           ScenarioTopics.json_loads
                           ScenarioTopics.TopicList_validate
                           ScenarioTopics.similarity_search "rag" 5 0%nat))
             1%nat (Exception "collection not found")).
    reflexivity.
  - apply (proj2 (proj2 (generate_topics_failures
                           ScenarioTopics.World string
                           ScenarioTopics.retriever_down
                           ScenarioTopics.generator_chain_down
                           ScenarioTopics.json_loads
                           ScenarioTopics.TopicList_validate
                           ScenarioTopics.similarity_search "rag" 5 0%nat))
             1%nat "No specific context provided." "No latest papers found."
             2%nat (Exception "connection refused")).
    + reflexivity.
    + reflexivity.
Defined.

Lemma generate_topics_related_papers_witness :
  exists w' out,
    generate_topics ScenarioTopics.World string
      ScenarioTopics.retriever_invoke ScenarioTopics.generator_chain
      ScenarioTopics.json_loads_any ScenarioTopics.TopicList_validate_two
      ScenarioTopics.similarity_search_once "rag" 5 0%nat
    = (w', Return out) /\
    lookups ScenarioTopics.similarity_search_once 2%nat
      [ScenarioTopics.topic_a; ScenarioTopics.topic_b] out w'.
Proof.
  apply (generate_topics_related_papers
           ScenarioTopics.World string
           ScenarioTopics.retriever_invoke ScenarioTopics.generator_chain
           ScenarioTopics.json_loads_any ScenarioTopics.TopicList_validate_two
           ScenarioTopics.similarity_search_once "rag" 5 0%nat 1%nat 2%nat
           (join (newline ++ newline)
                 (map page_content ScenarioTopics.documents))
           (latest_papers_of ScenarioTopics.documents)
           "<think>hm</think> no JSON here"
           (clean "<think>hm</think> no JSON here")
           [ScenarioTopics.topic_a; ScenarioTopics.topic_b]); reflexivity.
Defined.

End GenerateTopicsMoreWitnesses.

(** ** Evaluation and translation when the model fails, and the ranking *)

Section Ranking.
Import Generator Evaluator Translator PropsTopics.

Variable World : Type.
Variable evaluator_chain :
  Evaluator.PromptVariables -> World -> World * outcome EvaluationResult.
Variable translator_chain :
  Translator.PromptVariables -> World -> World * outcome TranslatedContent.
Variable str_of_list : list string -> string.

Local Abbreviation evaluate_each := (evaluate_each World evaluator_chain).
Local Abbreviation evaluate_topics := (evaluate_topics World evaluator_chain).
Local Abbreviation translate_topics :=
  (translate_topics World translator_chain str_of_list).

Lemma filter_all {A : Type} (f : A -> bool) (l : list A) :
  (forall x, In x l -> f x = true) -> filter f l = l.
Proof.
  induction l as [|x l IH]; intros H; [reflexivity|].
  cbn [filter]. rewrite (H x (or_introl eq_refl)).
  f_equal. apply IH. intros y Hy. apply H. now right.
Qed.

(** Sorting a list whose elements all have the same key changes nothing. *)
Lemma sorted_key_reverse_same_key {A : Type} (key : A -> Z) (k : Z)
  (l : list A) :
  (forall x, In x l -> key x = k) -> sorted_key_reverse key l = l.
Proof.
  intros H.
  rewrite <- (filter_all (fun x => key x =? k) l) at 2
    by (intros x Hx; apply Z.eqb_eq; now apply H).
  rewrite <- (sorted_key_reverse_stable key l k).
  symmetry. apply filter_all. intros x Hx. apply Z.eqb_eq. apply H.
  eapply Permutation_in; [apply sorted_key_reverse_perm|exact Hx].
Qed.

Lemma evaluate_each_all_fail (topics : list ResearchTopic) (w : World) :
  (forall variables w0,
      exists w1 e, evaluator_chain variables w0 = (w1, Raise e)) ->
  exists w', evaluate_each topics w = (w', Return (map failed_entry topics)).
Proof.
  intros Hfail. revert w. induction topics as [|t rest IH]; intros w.
  - exists w. reflexivity.
  - destruct (Hfail (Evaluator.prompt_variables t) w) as [w1 [e H1]].
    destruct (IH w1) as [w2 H2]. exists w2.
    apply (evaluate_each_cons World evaluator_chain) with w1; [|exact H2].
    unfold Evaluator.evaluate_topic, try_except, bind, ret. now rewrite H1.
Qed.

(** X18: when every call of the model fails, [evaluate_topics] returns
    the topics in the order of the input, each with the default evaluation
    (scores 1, 1, 1, total 3). *)
Theorem evaluate_topics_all_fail (topics : list ResearchTopic) (w : World) :
  (forall variables w0,
      exists w1 e, evaluator_chain variables w0 = (w1, Raise e)) ->
  exists w',
    evaluate_topics topics w = (w', Return (map failed_entry topics)).
Proof.
  intros Hfail. destruct (evaluate_each_all_fail topics w Hfail) as [w' H].
  exists w'. rewrite (evaluate_topics_sorts World evaluator_chain _ _ _ _ H).
  rewrite (sorted_key_reverse_same_key _ 3); [reflexivity|].
  intros x Hx. apply in_map_iff in Hx. destruct Hx as [t [<- _]]. reflexivity.
Qed.

(** The entries keep their total scores through the translation. *)
Lemma translate_topics_totals (items : list EvaluatedTopic) (lang : string)
  (w : World) :
  exists w' out,
    translate_topics items lang w = (w', Return out) /\
    Forall2 (fun item item' =>
               total_score (evaluation item')
               = total_score (evaluation item)) items out.
Proof.
  revert w. induction items as [|item rest IH]; intros w.
  - exists w, []. split; [reflexivity|constructor].
  - destruct (translate_topic_cases World translator_chain str_of_list
                lang item w) as [w1 [item' [H1 Hcase]]].
    destruct (IH w1) as [w2 [out [H2 Hf]]].
    exists w2, (item' :: out).
    split; [now apply (translate_topics_cons World translator_chain
                         str_of_list) with w1|].
    constructor; [|exact Hf].
    destruct Hcase as [[tr [_ ->]]|[e [_ ->]]]; reflexivity.
Qed.

Lemma ranked_forall2 (l l' : list EvaluatedTopic) :
  Forall2 (fun item item' =>
             total_score (evaluation item')
             = total_score (evaluation item)) l l' ->
  ranked l -> ranked l'.
Proof.
  unfold ranked. induction 1 as [|x y l l' Hxy Hf IH]; intros Hs;
    [constructor|].
  apply StronglySorted_inv in Hs. destruct Hs as [Hs Hx].
  constructor; [now apply IH|].
  clear IH Hs. induction Hf as [|a b l l' Hab Hf IH]; [constructor|].
  apply Forall_cons_iff in Hx. destruct Hx as [Ha Hx].
  constructor; [lia|now apply IH].
Qed.

(** X19: the translation of the result of [evaluate_topics] has one entry
    per topic and is still ordered by total score from the highest to the
    lowest, whatever the two models answer. *)
Theorem evaluate_then_translate_ranked (topics : list ResearchTopic)
  (lang : string) (w : World) :
  exists w1 evaluated w2 translated,
    evaluate_topics topics w = (w1, Return evaluated) /\
    translate_topics evaluated lang w1 = (w2, Return translated) /\
    List.length translated = List.length topics /\
    ranked evaluated /\ ranked translated.
Proof.
  destruct (evaluate_each_returns World evaluator_chain topics w)
    as [w1 [ets [He [Hmap _]]]].
  pose proof (evaluate_topics_sorts World evaluator_chain _ _ _ _ He) as Hs.
  set (evaluated := sorted_key_reverse
                      (fun x => total_score (evaluation x)) ets) in *.
  destruct (translate_topics_totals evaluated lang w1)
    as [w2 [translated [Ht Hf]]].
  assert (ranked evaluated) as Hr.
  { apply (sorted_key_reverse_sorted
             (fun x => total_score (evaluation x))). }
  exists w1, evaluated, w2, translated.
  split; [exact Hs|]. split; [exact Ht|]. split.
  - rewrite <- (Forall2_length Hf). unfold evaluated.
    rewrite (Permutation_length (sorted_key_reverse_perm _ ets)).
    now rewrite <- Hmap, length_map.
  - split; [exact Hr|]. exact (ranked_forall2 _ _ Hf Hr).
Qed.

(** X20: when every call of the model fails, [translate_topics] returns
    the list it was given. *)
Theorem translate_topics_all_fail (items : list EvaluatedTopic)
  (lang : string) (w : World) :
  (forall variables w0,
      exists w1 e, translator_chain variables w0 = (w1, Raise e)) ->
  exists w', translate_topics items lang w = (w', Return items).
Proof.
  intros Hfail. revert w. induction items as [|item rest IH]; intros w.
  - exists w. reflexivity.
  - destruct (Hfail (Translator.prompt_variables str_of_list lang item) w)
      as [w1 [e H1]].
    destruct (IH w1) as [w2 H2]. exists w2.
    apply (translate_topics_cons World translator_chain str_of_list)
      with w1; [|exact H2].
    unfold Translator.translate_topic, try_except, bind, ret.
    now rewrite H1.
Qed.

End Ranking.

Section RankingWitnesses.
Import Generator Evaluator Translator PropsTopics.

Lemma evaluate_topics_all_fail_witness :
  exists w',
    evaluate_topics ScenarioTopics.World ScenarioTopics.evaluator_chain_down
      [ScenarioTopics.topic_a; ScenarioTopics.topic_a] 0%nat
    = (w', Return (map failed_entry
                       [ScenarioTopics.topic_a; ScenarioTopics.topic_a])).
Proof.
  apply (evaluate_topics_all_fail
           ScenarioTopics.World ScenarioTopics.evaluator_chain_down).
  intros variables w0. exists (S w0), (Exception "connection refused").
  reflexivity.
Defined.

Lemma translate_topics_all_fail_witness :
  exists w',
    translate_topics ScenarioTopics.World ScenarioTopics.translator_chain_down
      ScenarioTopics.str_of_list
      [ScenarioTopics.evaluated_a; ScenarioTopics.evaluated_a] "Korean" 0%nat
    = (w', Return [ScenarioTopics.evaluated_a; ScenarioTopics.evaluated_a]).
Proof.
  apply (translate_topics_all_fail
           ScenarioTopics.World ScenarioTopics.translator_chain_down
           ScenarioTopics.str_of_list).
  intros variables w0. exists (S w0), (Exception "connection refused").
  reflexivity.
Defined.

End RankingWitnesses.

(** ** The report *)

Section HtmlReport.
Import Generator Evaluator Report PropsTopics.

Lemma prefix_refl (x : string) : prefix x x = true.
Proof.
  induction x as [|c x IH]; [reflexivity|].
  cbn [prefix]. destruct (ascii_dec c c); [exact IH|contradiction].
Qed.

Lemma contains_middle (x a b : string) : contains x (a ++ x ++ b) = true.
Proof.
  apply contains_app_r. apply contains_app_l.
  destruct x as [|c x]; [reflexivity|].
  cbn [contains]. now rewrite prefix_refl.
Qed.

(** A related paper built from a document of the store is rendered. *)
Lemma paper_block_of_store (doc : Document) :
  exists b, paper_block (related_paper_of doc) = Return b.
Proof.
  destruct doc as [pc [t a y u]]. unfold paper_block, related_paper_of.
  cbn [metadata md_title md_authors md_year md_url].
  unfold paper_title_cell, paper_names_cell, paper_year_cell, getitem.
  cbn [dict_get String.eqb Ascii.eqb Bool.eqb].
  cbn.
  destruct u as [[|cu u]|]; destruct a as [[|ca a]|];
    destruct y as [y|]; cbn; try destruct (y =? 0); cbn; eauto.
Qed.

Lemma paper_blocks_of_store (papers : list RelatedPaper) :
  Forall from_store papers -> exists bs, paper_blocks papers = Return bs.
Proof.
  induction 1 as [|paper rest [doc ->] _ [bs IH]]; [exists ""; reflexivity|].
  destruct (paper_block_of_store doc) as [b Hb].
  cbn [paper_blocks]. rewrite Hb, IH. cbn. eauto.
Qed.

Lemma cards_of_store (items : list EvaluatedTopic) (i : nat) (html : string) :
  Forall (fun item => Forall from_store (related_papers (topic item))) items ->
  exists out, cards i items html = Return out.
Proof.
  intros H. revert i html.
  induction H as [|item rest Hitem _ IH]; intros i html;
    [exists html; reflexivity|].
  destruct (paper_blocks_of_store _ Hitem) as [bs Hbs].
  cbn [cards]. unfold card. rewrite Hbs. cbn [obind]. apply IH.
Qed.

(** X21: the report of evaluated topics whose related papers were all
    built by [generate_topics] from documents of the store is always
    produced: building its text raises no error. *)
Theorem html_report_of_store_papers (items : list EvaluatedTopic) :
  Forall (fun item => Forall from_store (related_papers (topic item))) items ->
  exists html, html_report items = Return html.
Proof.
  intros H. unfold html_report.
  destruct (cards_of_store items 0 html_header H) as [out ->].
  cbn. eauto.
Qed.

Lemma html_report_of_store_papers_witness :
  exists html,
    html_report [ScenarioTopics.evaluated_b; ScenarioTopics.evaluated_b]
    = Return html.
Proof.
  apply html_report_of_store_papers.
  assert (Forall from_store
            (related_papers (topic ScenarioTopics.evaluated_b))) as H.
  { cbn. repeat constructor; eexists; reflexivity. }
  constructor; [exact H|]. constructor; [exact H|]. constructor.
Defined.

Lemma cards_extend (items : list EvaluatedTopic) (i : nat)
  (html out : string) :
  cards i items html = Return out -> exists post, out = html ++ post.
Proof.
  revert i html. induction items as [|item rest IH]; intros i html;
    cbn [cards].
  - intros H. inversion H. exists "". clear. induction out; simpl; congruence.
  - destruct (card i item) as [c|e]; cbn [obind]; [|discriminate].
    intros H. destruct (IH _ _ H) as [post ->].
    exists (c ++ post). apply append_assoc.
Qed.

(** Every entry has its card in the text. *)
Lemma cards_nth (items : list EvaluatedTopic) (i : nat) (html out : string)
  (k : nat) (item : EvaluatedTopic) :
  cards i items html = Return out ->
  nth_error items k = Some item ->
  exists pre c post,
    card (i + k) item = Return c /\ out = pre ++ c ++ post.
Proof.
  revert i html k. induction items as [|x rest IH]; intros i html k;
    cbn [cards]; [destruct k; discriminate|].
  destruct (card i x) as [c|e] eqn:Ec; cbn [obind]; [|discriminate].
  intros H Hk. destruct k as [|k].
  - inversion Hk; subst x. destruct (cards_extend _ _ _ _ H) as [post ->].
    exists html, c, post. rewrite Nat.add_0_r. split; [exact Ec|].
    apply append_assoc.
  - cbn [nth_error] in Hk. destruct (IH _ _ _ H Hk) as [pre [c' [post [Hc ->]]]].
    exists pre, c', post. split; [|reflexivity].
    now replace (i + S k)%nat with (S i + k)%nat by lia.
Qed.

Lemma contains_in_context (x pre c post : string) :
  contains x c = true -> contains x (pre ++ c ++ post) = true.
Proof.
  intros H. apply contains_app_r. now apply contains_app_l.
Qed.

Lemma return_inj {A : Type} (a b : A) : Return a = Return b -> a = b.
Proof. congruence. Qed.

(** The heading and the score line of a card. *)
Lemma card_heading_and_score (i : nat) (item : EvaluatedTopic) (c : string) :
  card i item = Return c ->
  contains ("#" ++ str_of_int (Z.of_nat i + 1) ++ " " ++ title (topic item)
            ++ "</h2>") c = true /\
  contains ("Score: " ++ str_of_int (total_score (evaluation item)) ++ "/15")
           c = true.
Proof.
  unfold card.
  destruct (paper_blocks (related_papers (topic item))) as [papers|e];
    [|discriminate].
  cbn [obind]. intros Hc. apply return_inj in Hc. subst c.
  set (n := str_of_int (Z.of_nat i + 1)).
  set (total := str_of_int (total_score (evaluation item))).
  set (rest3 := background (topic item) ++ _).
  pose (p0 := substring 0 (String.length card_0 - 1) card_0).
  pose (m2 := substring 5 (String.length card_2 - 12) card_2).
  pose (r3 := substring 3 (String.length card_3 - 3) card_3).
  assert (card_0 = p0 ++ "#") as H0 by reflexivity.
  assert (card_2 = "</h2>" ++ m2 ++ "Score: ") as H2 by reflexivity.
  assert (card_3 = "/15" ++ r3) as H3 by reflexivity.
  rewrite H0, H2, H3. change card_1 with " ".
  split.
  - replace ((p0 ++ "#") ++ n ++ " " ++ title (topic item)
             ++ ("</h2>" ++ m2 ++ "Score: ") ++ total ++ ("/15" ++ r3)
             ++ rest3)
      with (p0 ++ ("#" ++ n ++ " " ++ title (topic item) ++ "</h2>")
            ++ (m2 ++ "Score: " ++ total ++ ("/15" ++ r3) ++ rest3))
      by (now rewrite !append_assoc).
    apply contains_middle.
  - replace ((p0 ++ "#") ++ n ++ " " ++ title (topic item)
             ++ ("</h2>" ++ m2 ++ "Score: ") ++ total ++ ("/15" ++ r3)
             ++ rest3)
      with ((p0 ++ "#" ++ n ++ " " ++ title (topic item) ++ "</h2>" ++ m2)
            ++ ("Score: " ++ total ++ "/15") ++ (r3 ++ rest3))
      by (now rewrite !append_assoc).
    apply contains_middle.
Qed.

(** X22: in a report that is produced, the entry at place k (counted from
    1) has a heading with the number sign, k, a space and its title as it
    is, without escaping, and a line with its total score over 15. *)
Theorem html_report_rank_and_score (items : list EvaluatedTopic)
  (html : string) (k : nat) (item : EvaluatedTopic) :
  html_report items = Return html ->
  nth_error items k = Some item ->
  contains ("#" ++ str_of_int (Z.of_nat k + 1) ++ " " ++ title (topic item)
            ++ "</h2>") html = true /\
  contains ("Score: " ++ str_of_int (total_score (evaluation item)) ++ "/15")
           html = true.
Proof.
  unfold html_report. intros H Hk.
  destruct (cards 0 items html_header) as [out|e] eqn:Ec; [|discriminate].
  cbn [obind] in H. apply return_inj in H. subst html.
  destruct (cards_nth _ _ _ _ _ _ Ec Hk) as [pre [c [post [Hc ->]]]].
  cbn [Nat.add] in Hc.
  destruct (card_heading_and_score _ _ _ Hc) as [H1 H2].
  split; apply contains_app_l; now apply contains_in_context.
Qed.

Lemma html_report_rank_and_score_witness :
  contains ("#" ++ str_of_int (Z.of_nat 1 + 1) ++ " "
            ++ title (topic ScenarioTopics.evaluated_b) ++ "</h2>")
           (match html_report [ScenarioTopics.evaluated_a;
                               ScenarioTopics.evaluated_b] with
            | Return html => html
            | Raise _ => ""
            end) = true /\
  contains ("Score: "
            ++ str_of_int (total_score
                             (evaluation ScenarioTopics.evaluated_b))
            ++ "/15")
           (match html_report [ScenarioTopics.evaluated_a;
                               ScenarioTopics.evaluated_b] with
            | Return html => html
            | Raise _ => ""
            end) = true.
Proof.
  apply (html_report_rank_and_score
           [ScenarioTopics.evaluated_a; ScenarioTopics.evaluated_b]
           _ 1%nat ScenarioTopics.evaluated_b).
  - vm_compute. reflexivity.
  - reflexivity.
Defined.

End HtmlReport.

Section ReportAuthors.
Import Generator Evaluator Report PropsTopics.

Lemma authors_cell_of_store (doc : Document) (authors c1 c2 c3 c4 : string)
  (rest : list string) :
  md_authors (metadata doc) = Some authors ->
  chars authors = c1 :: c2 :: c3 :: c4 :: rest ->
  paper_names_cell "Authors:" "authors" (related_paper_of doc)
  = Return (meta_open
            ++ ("Authors:</span> " ++ c1 ++ ", " ++ c2 ++ ", " ++ c3
                ++ " et al.</div>")).
Proof.
  destruct doc as [pc [t a y u]]. cbn [metadata md_authors]. intros -> Hc.
  unfold paper_names_cell, related_paper_of, getitem.
  cbn [metadata md_title md_authors md_year md_url].
  cbn [dict_get String.eqb Ascii.eqb Bool.eqb].
  destruct authors as [|b authors]; [discriminate|].
  cbn [truthy obind first_three].
  rewrite chars_str_slice_to. unfold len. rewrite Hc.
  cbn [firstn join List.length Nat.ltb Nat.leb].
  f_equal. change (meta_open ++ "Authors:" ++ meta_label_close ++ ?x)
    with (meta_open ++ "Authors:</span> " ++ x).
  now rewrite !append_assoc.
Qed.

(** X23: for a related paper built from a document of the store whose
    authors text has more than 3 characters, the report shows after the
    label of the authors the first 3 characters of that text, separated by
    commas and followed by et al.; it does not show the first 3 authors. *)
Theorem report_authors_by_character (doc : Document)
  (authors c1 c2 c3 c4 : string) (rest : list string) :
  md_authors (metadata doc) = Some authors ->
  chars authors = c1 :: c2 :: c3 :: c4 :: rest ->
  exists pre post,
    paper_block (related_paper_of doc)
    = Return (pre
              ++ ("Authors:</span> " ++ c1 ++ ", " ++ c2 ++ ", " ++ c3
                  ++ " et al.</div>")
              ++ post).
Proof.
  intros Ha Hc. destruct (paper_block_of_store doc) as [b Hb].
  unfold paper_block in *.
  rewrite (authors_cell_of_store _ _ _ _ _ _ _ Ha Hc) in *.
  destruct (paper_title_cell (related_paper_of doc)) as [a|e];
    [|discriminate].
  cbn [obind] in *.
  destruct (paper_year_cell (related_paper_of doc)) as [c|e];
    [|discriminate].
  cbn [obind] in *.
  destruct (paper_names_cell "Institutions:" "institutions"
              (related_paper_of doc)) as [d|e]; [|discriminate].
  cbn [obind] in *.
  exists (paper_0 ++ a ++ paper_1 ++ meta_open),
    (paper_2 ++ c ++ paper_3 ++ d ++ paper_4).
  f_equal. now rewrite !append_assoc.
Qed.

Lemma report_authors_by_character_witness :
  exists pre post,
    paper_block (related_paper_of ScenarioTopics.document_korean_authors)
    = Return (pre
              ++ ("Authors:</span> " ++ utf8 44608 ++ ", " ++ utf8 48124
                  ++ ", " ++ utf8 51221 ++ " et al.</div>")
              ++ post).
Proof.
  apply (report_authors_by_character
           ScenarioTopics.document_korean_authors
           ScenarioTopics.korean_authors
           (utf8 44608) (utf8 48124) (utf8 51221) ","
           (chars (" " ++ utf8 51060 ++ utf8 49688 ++ utf8 48124)));
    reflexivity.
Defined.

End ReportAuthors.

(** ** The pipeline driver *)

Section MainDriver.
Import Generator Evaluator PropsTopics Driver.

Variable World : Type.
Variable requests_get :
  string -> Z -> World -> World * outcome Collector.ResponseData.
Variable makedirs_csv : World -> World * outcome unit.
Variable csv_write :
  string -> list Collector.CsvRow -> World -> World * outcome unit.
Variable chroma_open : World -> World * outcome unit.
Variable add_documents :
  list Collector.Document -> World -> World * outcome unit.
Variable Json : Type.
Variable retriever_invoke :
  string -> World -> World * outcome (list Document).
Variable generator_chain :
  Generator.PromptVariables -> World -> World * outcome string.
Variable json_loads : string -> outcome Json.
Variable TopicList_validate : Json -> outcome (list ResearchTopic).
Variable similarity_search :
  string -> nat -> World -> World * outcome (list Document).
Variable evaluator_chain :
  Evaluator.PromptVariables -> World -> World * outcome EvaluationResult.
Variable translator_chain :
  Translator.PromptVariables -> World
  -> World * outcome Translator.TranslatedContent.
Variable str_of_list : list string -> string.
Variable requests_post : string -> World -> World * outcome unit.
Variable makedirs_report : World -> World * outcome unit.
Variable write_file : string -> string -> World -> World * outcome unit.

Local Abbreviation fetch_papers :=
  (Collector.fetch_papers World requests_get makedirs_csv csv_write).
Local Abbreviation create_vector_db :=
  (Collector.create_vector_db World chroma_open add_documents).
Local Abbreviation generate_topics :=
  (Generator.generate_topics World Json retriever_invoke generator_chain
     json_loads TopicList_validate similarity_search).
Local Abbreviation unload_model := (unload_model World requests_post).
Local Abbreviation translate_and_cleanup :=
  (translate_and_cleanup World translator_chain str_of_list requests_post
     write_file).
Local Abbreviation evaluate_and_report :=
  (evaluate_and_report World evaluator_chain translator_chain str_of_list
     requests_post makedirs_report write_file).
Local Abbreviation main :=
  (main World requests_get makedirs_csv csv_write chroma_open add_documents
     Json retriever_invoke generator_chain json_loads TopicList_validate
     similarity_search evaluator_chain translator_chain str_of_list
     requests_post makedirs_report write_file).

(** A request to unload a model never raises. *)
Lemma unload_model_returns (model_name : string) (s : Collector.St World) :
  exists s', unload_model model_name s = (s', Return tt).
Proof.
  unfold Driver.unload_model. destruct (model_name =? "")%string;
    [exists s; reflexivity|].
  destruct s as [w log].
  unfold try_except, call, Collector.call, ret.
  destruct (requests_post model_name w) as [w' [[]|e]]; eauto.
Qed.

Lemma translate_and_cleanup_returns (keyword : string)
  (evaluated_topics : list EvaluatedTopic) (s : Collector.St World) :
  exists s',
    translate_and_cleanup keyword evaluated_topics s = (s', Return tt).
Proof.
  unfold Driver.translate_and_cleanup, try_finally.
  match goal with
  | |- context [try_except ?b ?h s] =>
      assert (exists s1, try_except b h s = (s1, Return tt)) as [s1 ->]
  end.
  { unfold try_except.
    match goal with
    | |- context [match ?x with _ => _ end] => destruct x as [s1 [[]|e]]
    end; unfold ret; eauto. }
  change (negb (Config.MODEL_EVALUATOR =? Config.MODEL_GENERATOR)%string
          && negb (Config.MODEL_EVALUATOR =? Config.MODEL_EVALUATOR)%string)
    with false.
  cbv iota. unfold bind.
  destruct (unload_model_returns Config.MODEL_GENERATOR s1) as [s2 ->].
  destruct (unload_model_returns Config.MODEL_EVALUATOR s2) as [s3 ->].
  unfold ret. eauto.
Qed.

(** The topics that [generate_topics] returns carry related papers built
    from documents of the store only. *)
Lemma generate_topics_from_store (keyword : string) (n : Z) (w w' : World)
  (topics : list ResearchTopic) :
  generate_topics keyword n w = (w', Return topics) ->
  Forall (fun t => Forall from_store (related_papers t)) topics.
Proof.
  unfold Generator.generate_topics, bind.
  destruct (retrieve_context_returns World retriever_invoke keyword w)
    as [w1 [c [l ->]]].
  unfold Generator.ask_and_parse, try_except, bind at 1.
  destruct (generator_chain (Generator.prompt_variables keyword n c l) w1)
    as [w2 [raw|e]]; [|intros H; inversion H; constructor].
  destruct (obind (json_loads (clean raw)) TopicList_validate)
    as [topics0|[msg|msg]]; try (intros H; inversion H; constructor).
  destruct (map_all_related_papers_frame World similarity_search topics0 w2)
    as [w3 [out [-> Hf]]].
  intros H. inversion H; subst. clear H.
  induction Hf as [|t t' l0 l' [_ Hrel] _ IH]; constructor; [|exact IH].
  destruct Hrel as [->|[w0 [w4 [docs [_ ->]]]]]; [constructor|].
  rewrite Forall_forall. intros paper Hin. apply in_map_iff in Hin.
  destruct Hin as [doc [<- _]]. now exists doc.
Qed.

(** The evaluation keeps the topics. *)
Lemma evaluate_topics_keeps_topics (P : ResearchTopic -> Prop)
  (topics : list ResearchTopic) (w : World) :
  Forall P topics ->
  exists w' out,
    Evaluator.evaluate_topics World evaluator_chain topics w
    = (w', Return out) /\
    Forall (fun item => P (topic item)) out.
Proof.
  intros HP.
  destruct (evaluate_each_returns World evaluator_chain topics w)
    as [w' [ets [He [Hmap _]]]].
  exists w'. eexists.
  split; [apply (evaluate_topics_sorts World evaluator_chain); exact He|].
  rewrite Forall_forall in *. intros item Hin.
  apply HP. rewrite <- Hmap. apply in_map.
  eapply Permutation_in; [apply sorted_key_reverse_perm|exact Hin].
Qed.

(** X24: the translation step of [main] never raises, whatever the
    translator, the writing of the translated report and the requests to
    unload the models do. *)
Theorem translate_and_cleanup_never_raises (keyword : string)
  (evaluated_topics : list EvaluatedTopic) (s : Collector.St World) :
  exists s',
    translate_and_cleanup keyword evaluated_topics s = (s', Return tt).
Proof. apply translate_and_cleanup_returns. Qed.

(** X27: for topics returned by [generate_topics], [main] ends normally
    after the generation as soon as the directory of the reports can be
    made and the first report can be written, whatever the evaluator, the
    translator, the writing of the second report and the requests to
    unload the models do. *)
Theorem evaluate_and_report_completes (keyword : string) (n : Z)
  (w0 w1 : World) (topics : list ResearchTopic) (s : Collector.St World) :
  generate_topics keyword n w0 = (w1, Return topics) ->
  (forall w, exists w', makedirs_report w = (w', Return tt)) ->
  (forall text w,
      exists w', write_file (report_filename keyword "") text w
                 = (w', Return tt)) ->
  exists s', evaluate_and_report keyword topics s = (s', Return Completed).
Proof.
  intros Hg Hmk Hwr. apply generate_topics_from_store in Hg.
  unfold Driver.evaluate_and_report.
  unfold bind at 1.
  assert (exists s1,
             (if negb (Config.MODEL_GENERATOR =? Config.MODEL_EVALUATOR)%string
              then unload_model Config.MODEL_GENERATOR
              else ret tt) s = (s1, Return tt)) as [[w2 log2] ->].
  { destruct (negb (Config.MODEL_GENERATOR =? Config.MODEL_EVALUATOR)%string);
      [apply unload_model_returns|exists s; reflexivity]. }
  unfold bind at 1, call at 1, Collector.call.
  destruct (evaluate_topics_keeps_topics _ topics w2 Hg)
    as [w3 [out [-> Hout]]].
  unfold bind at 1, call at 1, Collector.call.
  destruct (Hmk w3) as [w4 ->].
  unfold bind at 1, call at 1, Collector.call.
  unfold Report.generate_html_report, bind at 1, lift.
  destruct (cards_of_store out 0 Report.html_header Hout) as [body Hbody].
  unfold Report.html_report. rewrite Hbody. cbn [obind].
  destruct (Hwr (body ++ Report.html_footer) w4) as [w5 ->].
  unfold bind.
  destruct (translate_and_cleanup_returns keyword out (w5, log2)) as [s' ->].
  exists s'. reflexivity.
Qed.

(** X25: when the request for the papers fails, or its answer has null
    or no results, [main] exits with code 1 right after that request: no
    file is written, and the vector store and the models are not
    called. *)
Theorem main_exits_without_papers (keyword : string) (limit num_topics : Z)
  (w w1 : World) (log : list Collector.event)
  (r : outcome Collector.ResponseData) :
  requests_get keyword limit w = (w1, r) ->
  (exists e, r = Raise e) \/
  (exists data,
      r = Return data /\
      (get_default (Collector.results data) [] = None \/
       get_default (Collector.results data) [] = Some [])) ->
  main keyword limit num_topics (w, log) = ((w1, log), Return (Exit 1)).
Proof.
  intros Hr Hc.
  assert (fetch_papers keyword limit (w, log) = ((w1, log), Return []))
    as Hf.
  { unfold Collector.fetch_papers, try_except, bind at 1, Collector.call.
    cbn [fst snd]. rewrite Hr.
    destruct Hc as [[e ->]|[data [-> [Hd|Hd]]]]; [reflexivity| |];
      rewrite Hd; reflexivity. }
  unfold Driver.main, bind. now rewrite Hf.
Qed.

(** X26: with papers, [main] never takes the exit for a missing vector
    store: it raises the error of the opening of the store, or it goes on
    to the generation of the topics; when this returns no topic, [main]
    exits with code 1 in the state the generation left, before any
    evaluation or report. *)
Theorem main_after_papers (keyword : string) (limit num_topics : Z)
  (s s1 : Collector.St World) (papers : list Collector.Paper) :
  fetch_papers keyword limit s = (s1, Return papers) ->
  papers <> [] ->
  (exists s2 e,
      create_vector_db papers Config.VECTOR_DB_BATCH_SIZE s1 = (s2, Raise e) /\
      chroma_open (fst s1) = (fst s2, Raise e) /\
      main keyword limit num_topics s = (s2, Raise e)) \/
  (exists s2 s3 w4 topics,
      create_vector_db papers Config.VECTOR_DB_BATCH_SIZE s1
      = (s2, Return true) /\
      unload_model Config.MODEL_EMBEDDING s2 = (s3, Return tt) /\
      generate_topics keyword num_topics (fst s3) = (w4, Return topics) /\
      main keyword limit num_topics s
      = match topics with
        | [] => ((w4, snd s3), Return (Exit 1))
        | _ => evaluate_and_report keyword topics (w4, snd s3)
        end).
Proof.
  intros Hf Hp. destruct s1 as [w1 log1].
  destruct (chroma_open w1) as [w2 r] eqn:Ho.
  destruct papers as [|p papers]; [contradiction|].
  destruct r as [[]|e].
  - right.
    destruct (create_vector_db_returns World add_documents chroma_open
                (p :: papers) Config.VECTOR_DB_BATCH_SIZE w1 w2 log1 Hp
                ltac:(discriminate) Ho) as [s2 Hc].
    destruct (unload_model_returns Config.MODEL_EMBEDDING s2)
      as [[w3 log3] Hu].
    destruct (generate_topics_returns World Json retriever_invoke
                generator_chain json_loads TopicList_validate
                similarity_search keyword num_topics w3) as [w4 [topics Hg]].
    exists s2, (w3, log3), w4, topics.
    split; [exact Hc|]. split; [exact Hu|]. split; [exact Hg|].
    unfold Driver.main, bind. rewrite Hf, Hc. cbn [negb].
    fold (Driver.unload_model World requests_post Config.MODEL_EMBEDDING).
    rewrite Hu. unfold call, Collector.call. cbn [fst snd]. rewrite Hg.
    destruct topics; reflexivity.
  - left.
    assert (create_vector_db (p :: papers) Config.VECTOR_DB_BATCH_SIZE
                             (w1, log1)
            = ((w2, log1), Raise e)) as Hc.
    { unfold Collector.create_vector_db.
      unfold bind at 1, Collector.call. now rewrite Ho. }
    exists (w2, log1), e. split; [exact Hc|]. split; [exact Ho|].
    unfold Driver.main, bind. now rewrite Hf, Hc.
Qed.

End MainDriver.

Section MainDriverWitnesses.
Import Generator Evaluator PropsTopics Driver.

Local Abbreviation one_result :=
  {| Collector.results := Present [Scenario.result_four_authors] |}.
Local Abbreviation generated :=
  [set_related_papers ScenarioTopics.topic_a
     (map related_paper_of (firstn 1 ScenarioTopics.documents))].

Lemma main_exits_without_papers_witness :
  main Scenario.World
    (Scenario.requests_get {| Collector.results := Null |}) Scenario.makedirs
    Scenario.csv_write Scenario.chroma_open (Scenario.add_documents 0) string
    ScenarioTopics.retriever_invoke ScenarioTopics.generator_chain
    ScenarioTopics.json_loads_any ScenarioTopics.TopicList_validate_one
    ScenarioTopics.similarity_search
    (ScenarioTopics.evaluator_chain ScenarioTopics.evaluation_total_seven)
    ScenarioTopics.translator_chain_down ScenarioTopics.str_of_list
    ScenarioTopics.requests_post Scenario.makedirs ScenarioTopics.write_file
    "rag" 10 5 (0%nat, [])
  = ((1%nat, []), Return (Exit 1)).
Proof.
  apply (main_exits_without_papers
           Scenario.World
           (Scenario.requests_get {| Collector.results := Null |})
           Scenario.makedirs
           Scenario.csv_write Scenario.chroma_open (Scenario.add_documents 0)
           string
           ScenarioTopics.retriever_invoke ScenarioTopics.generator_chain
           ScenarioTopics.json_loads_any ScenarioTopics.TopicList_validate_one
           ScenarioTopics.similarity_search
           (ScenarioTopics.evaluator_chain
              ScenarioTopics.evaluation_total_seven)
           ScenarioTopics.translator_chain_down ScenarioTopics.str_of_list
           ScenarioTopics.requests_post Scenario.makedirs
           ScenarioTopics.write_file
           "rag" 10 5 0%nat 1%nat []
           (Return {| Collector.results := Null |})).
  - reflexivity.
  - right. exists {| Collector.results := Null |}.
    split; [reflexivity|]. left. reflexivity.
Defined.

Lemma main_after_papers_witness :
  (exists s2 e,
      Collector.create_vector_db Scenario.World Scenario.chroma_open
        (Scenario.add_documents 0) [Scenario.paper_four_authors]
        Config.VECTOR_DB_BATCH_SIZE (3%nat, [])
      = (s2, Raise e) /\
      Scenario.chroma_open 3%nat = (fst s2, Raise e) /\
      main Scenario.World (Scenario.requests_get one_result) Scenario.makedirs
        Scenario.csv_write Scenario.chroma_open (Scenario.add_documents 0)
        string
        ScenarioTopics.retriever_invoke ScenarioTopics.generator_chain
        ScenarioTopics.json_loads ScenarioTopics.TopicList_validate
        ScenarioTopics.similarity_search
        (ScenarioTopics.evaluator_chain ScenarioTopics.evaluation_total_seven)
        ScenarioTopics.translator_chain_down ScenarioTopics.str_of_list
        ScenarioTopics.requests_post Scenario.makedirs
        ScenarioTopics.write_file
        "rag" 10 5 (0%nat, [])
      = (s2, Raise e)) \/
  (exists s2 s3 w4 topics,
      Collector.create_vector_db Scenario.World Scenario.chroma_open
        (Scenario.add_documents 0) [Scenario.paper_four_authors]
        Config.VECTOR_DB_BATCH_SIZE (3%nat, [])
      = (s2, Return true) /\
      unload_model Scenario.World ScenarioTopics.requests_post
        Config.MODEL_EMBEDDING s2
      = (s3, Return tt) /\
      generate_topics ScenarioTopics.World string
        ScenarioTopics.retriever_invoke ScenarioTopics.generator_chain
        ScenarioTopics.json_loads ScenarioTopics.TopicList_validate
        ScenarioTopics.similarity_search "rag" 5 (fst s3)
      = (w4, Return topics) /\
      main Scenario.World (Scenario.requests_get one_result) Scenario.makedirs
        Scenario.csv_write Scenario.chroma_open (Scenario.add_documents 0)
        string
        ScenarioTopics.retriever_invoke ScenarioTopics.generator_chain
        ScenarioTopics.json_loads ScenarioTopics.TopicList_validate
        ScenarioTopics.similarity_search
        (ScenarioTopics.evaluator_chain ScenarioTopics.evaluation_total_seven)
        ScenarioTopics.translator_chain_down ScenarioTopics.str_of_list
        ScenarioTopics.requests_post Scenario.makedirs
        ScenarioTopics.write_file
        "rag" 10 5 (0%nat, [])
      = match topics with
        | [] => ((w4, snd s3), Return (Exit 1))
        | _ =>
            evaluate_and_report Scenario.World
              (ScenarioTopics.evaluator_chain
                 ScenarioTopics.evaluation_total_seven)
              ScenarioTopics.translator_chain_down ScenarioTopics.str_of_list
              ScenarioTopics.requests_post Scenario.makedirs
              ScenarioTopics.write_file "rag" topics (w4, snd s3)
        end).
Proof.
  apply (main_after_papers
           Scenario.World (Scenario.requests_get one_result) Scenario.makedirs
           Scenario.csv_write Scenario.chroma_open (Scenario.add_documents 0)
           string
           ScenarioTopics.retriever_invoke ScenarioTopics.generator_chain
           ScenarioTopics.json_loads ScenarioTopics.TopicList_validate
           ScenarioTopics.similarity_search
           (ScenarioTopics.evaluator_chain
              ScenarioTopics.evaluation_total_seven)
           ScenarioTopics.translator_chain_down ScenarioTopics.str_of_list
           ScenarioTopics.requests_post Scenario.makedirs
           ScenarioTopics.write_file
           "rag" 10 5 (0%nat, []) (3%nat, [])
           [Scenario.paper_four_authors]).
  - reflexivity.
  - discriminate.
Defined.

Lemma evaluate_and_report_completes_witness :
  exists s',
    evaluate_and_report Scenario.World ScenarioTopics.evaluator_chain_down
      ScenarioTopics.translator_chain_down ScenarioTopics.str_of_list
      ScenarioTopics.requests_post Scenario.makedirs ScenarioTopics.write_file
      "rag" generated (3%nat, [])
    = (s', Return Completed).
Proof.
  apply (evaluate_and_report_completes
           Scenario.World string
           ScenarioTopics.retriever_invoke ScenarioTopics.generator_chain
           ScenarioTopics.json_loads_any ScenarioTopics.TopicList_validate_one
           ScenarioTopics.similarity_search
           ScenarioTopics.evaluator_chain_down
           ScenarioTopics.translator_chain_down ScenarioTopics.str_of_list
           ScenarioTopics.requests_post Scenario.makedirs
           ScenarioTopics.write_file
           "rag" 5 0%nat 3%nat generated (3%nat, [])).
  - reflexivity.
  - intros w. exists (S w). reflexivity.
  - intros text w. exists (S w). reflexivity.
Defined.

End MainDriverWitnesses.
